(** * ezctest: the execution and isolation engine of [ezctest.h]

    A shallow embedding of the test-execution core of the single-header
    C test framework, in the configuration the repository builds by
    default: plain C (no C++ exception or SEH guard around the body), a
    hosted POSIX platform ([EZCTEST_PLATFORM_LINUX], children made with
    [fork]), no [EZCTEST_STM32_MODE].

    C strings are lists of characters; the terminating NUL is the end of
    the list.  An [int] used as a truth value is a [bool]; an [int] that
    carries a number (exit codes, counters, the configuration fields) is
    a [Z], and the counters are taken to stay within the range of [int].
    Elapsed times are not part of the model. *)

From Stdlib Require Import Ascii String ZArith Bool Arith Lia List Permutation.
Import ListNotations.

Local Open Scope char_scope.
Local Open Scope list_scope.

(** ** C strings *)

Definition cstr := list ascii.

Definition cs (s : string) : cstr := list_ascii_of_string s.
Arguments cs s%_string.

(** [#define EZCTEST_MAX_NAME_LENGTH 128] *)
Definition EZCTEST_MAX_NAME_LENGTH : nat := 128.

(** ** Wildcard matching: [ezctest_wildcard_match]

    The C function walks two pointers [p] and [s] and remembers the last
    star in [star_p]/[star_s] (both [NULL] until a star is seen).  A
    pointer into a string is the suffix it points at. *)

Record wildcard_state := mk_wildcard_state {
  wp : cstr;                       (* p *)
  ws : cstr;                       (* s *)
  wstar : option (cstr * cstr)     (* star_p, star_s; None is NULL *)
}.

(** [while ( *p == '*') p++;] *)
Fixpoint skip_stars (p : cstr) : cstr :=
  match p with
  | c :: p' => if Ascii.eqb c "*" then skip_stars p' else p
  | [] => []
  end.

(** The third and fourth branch of the loop body: go back to the last
    star ([p = star_p + 1; s = ++star_s]) or give up. *)
Definition wildcard_backtrack (st : wildcard_state) : wildcard_state + bool :=
  match wstar st with
  | Some (star_p, star_s) =>
      inl (mk_wildcard_state (tl star_p) (tl star_s) (Some (star_p, tl star_s)))
  | None => inr false
  end.

(** One turn of [while ( *s)]; when [*s] is NUL, the code after the loop.
    With [p] at its end [*p] is NUL, which is neither ['*'] nor ['?'] nor
    the (non-NUL) [*s]. *)
Definition wildcard_step (st : wildcard_state) : wildcard_state + bool :=
  match ws st with
  | [] => inr (match skip_stars (wp st) with [] => true | _ :: _ => false end)
  | sc :: s' =>
      match wp st with
      | pc :: p' =>
          if Ascii.eqb pc "*" then
            inl (mk_wildcard_state p' (ws st) (Some (wp st, ws st)))
          else if Ascii.eqb pc "?" || Ascii.eqb pc sc then
            inl (mk_wildcard_state p' s' (wstar st))
          else wildcard_backtrack st
      | [] => wildcard_backtrack st
      end
  end.

Fixpoint wildcard_run (fuel : nat) (st : wildcard_state) : option bool :=
  match fuel with
  | O => None
  | S fuel' =>
      match wildcard_step st with
      | inr r => Some r
      | inl st' => wildcard_run fuel' st'
      end
  end.

Definition wildcard_init (pattern str : cstr) : wildcard_state :=
  mk_wildcard_state pattern str None.

(** A number of turns the loop never exceeds (see [wildcard_run_total]). *)
Definition wildcard_fuel (pattern str : cstr) : nat :=
  S (length str * (length pattern + 2) + length pattern).

Definition ezctest_wildcard_match (pattern str : cstr) : bool :=
  match wildcard_run (wildcard_fuel pattern str) (wildcard_init pattern str) with
  | Some r => r
  | None => false
  end.

(** ** The filter: [ezctest_matches_filter] *)

(** The fields of [s] between delimiters [d], empty ones included. *)
Fixpoint split_on (d : ascii) (s : cstr) : list cstr :=
  match s with
  | [] => [[]]
  | c :: s' =>
      if Ascii.eqb c d then [] :: split_on d s'
      else match split_on d s' with
           | t :: ts => (c :: t) :: ts
           | [] => [[c]]
           end
  end.

Definition is_empty_cstr (t : cstr) : bool :=
  match t with [] => true | _ :: _ => false end.

(** The tokens that successive [strtok(rest, ":")] calls return: [strtok]
    skips leading delimiters, so no token is empty. *)
Definition strtok_tokens (d : ascii) (s : cstr) : list cstr :=
  filter (fun t => negb (is_empty_cstr t)) (split_on d s).

(** The body of the token loop. *)
Fixpoint filter_scan (tokens : list cstr) (full_name : cstr) : bool :=
  match tokens with
  | [] => false                                    (* return 0 after the loop *)
  | token :: rest =>
      match token with
      | c :: body =>
          if Ascii.eqb c "-" then
            if ezctest_wildcard_match body full_name then false
            else filter_scan rest full_name
          else
            if ezctest_wildcard_match token full_name then true
            else filter_scan rest full_name
      | [] =>
          if ezctest_wildcard_match token full_name then true
          else filter_scan rest full_name
      end
  end.

(** [snprintf(full_name, sizeof(full_name), "%s.%s", suite, test)] with
    [char full_name[EZCTEST_MAX_NAME_LENGTH * 2]]: at most 255 characters
    are kept. *)
Definition full_name (suite_name test_name : cstr) : cstr :=
  firstn (EZCTEST_MAX_NAME_LENGTH * 2 - 1) (suite_name ++ "." :: test_name).

(** [strncpy(filter_copy, filter, sizeof(filter_copy) - 1)] with
    [char filter_copy[EZCTEST_MAX_NAME_LENGTH * 4]]. *)
Definition filter_copy (filter : cstr) : cstr :=
  firstn (EZCTEST_MAX_NAME_LENGTH * 4 - 1) filter.

(** [filter] is [None] for a [NULL] pointer. *)
Definition ezctest_matches_filter
    (suite_name test_name : cstr) (filter : option cstr) : bool :=
  match filter with
  | None => true
  | Some [] => true
  | Some (c :: f) =>
      filter_scan (strtok_tokens ":" (filter_copy (c :: f)))
                  (full_name suite_name test_name)
  end.

(** ** The glob semantics of the specification

    Follows the specification's words: a star matches any run of
    characters (the empty run too), a question mark exactly one
    character, any other character only itself. *)
Inductive glob_match : cstr -> cstr -> Prop :=
| glob_end : glob_match [] []
| glob_star : forall p run rest,
    glob_match p rest -> glob_match ("*" :: p) (run ++ rest)
| glob_qmark : forall p c rest,
    glob_match p rest -> glob_match ("?" :: p) (c :: rest)
| glob_literal : forall p c rest,
    c <> "*" -> c <> "?" ->
    glob_match p rest -> glob_match (c :: p) (c :: rest).


(** ** Data model of the engine *)

(** A C function (setup, teardown or cleanup callback) is known by its
    identity; calling it is an observable event.  [void *data] likewise. *)
Definition func := nat.
Definition data := nat.

(** What a test body does, statement by statement.  A condition is the
    value it has when control reaches it.  The list is one run of the
    body, which ends by returning, by a failed fatal assertion or by a
    signal.  A body that does not end (it loops or blocks), one that
    leaves through [exit], and a body whose runs differ from one pass
    to the next are outside the model. *)
Inductive stmt :=
| Expect (cond : bool)            (* EXPECT_TRUE(cond): non-fatal *)
| Assert (cond : bool)            (* ASSERT_TRUE(cond): fatal *)
| Defer (f : func) (d : data)     (* DEFER(f, d) *)
| Action (tag : nat)              (* any other statement *)
| Fault (sig : nat).              (* a statement that raises a fatal signal *)

(** [ezctest_result_t] *)
Record ezctest_result_t := mk_result {
  total_tests : Z;
  passed_tests : Z;
  failed_tests : Z;
  total_assertions : Z;
  failed_assertions : Z
}.

(** [ezctest_info_t] *)
Record ezctest_info_t := mk_info {
  suite_name : cstr;
  test_name : cstr;
  test_func : list stmt;
  enabled : bool;
  failed : bool
}.

(** [ezctest_config_t]; [no_exec] is -1 (automatic), 0 (isolation on) or
    1 (isolation off). *)
Record ezctest_config_t := mk_config {
  filter : option cstr;
  repeat : Z;
  shuffle : bool;
  color : Z;
  list_tests : bool;
  no_exec : Z
}.

(** [ezctest_fixture_t]; a [NULL] callback is [None]. *)
Record ezctest_fixture_t := mk_fixture {
  fixture_suite_name : cstr;
  setup : option func;
  teardown : option func
}.

Definition EZCTEST_MAX_TESTS : nat := 1024.
Definition EZCTEST_MAX_FIXTURES : nat := 64.
Definition EZCTEST_MAX_DEFER_CALLBACKS : nat := 32.

(** How the parent explains an abnormal child exit code. *)
Inductive exit_reason :=
| ReasonSignal (sig : Z)
| ReasonAccessViolation
| ReasonIntDivideByZero
| ReasonArrayBounds
| ReasonStackOverflow
| ReasonIllegalInstruction
| ReasonAbort
| ReasonWindowsException
| ReasonUnknown.

(** Everything the process does that can be seen from outside: calls of
    user callbacks, user statements, and the lines written to [stdout]
    and [stderr]. *)
Inductive event :=
| CallSetup (f : func)
| CallTeardown (f : func)
| CallCleanup (f : func) (d : data)
| Ran (tag : nat)
| LineRun (suite test : cstr)              (* [ RUN      ] suite.test *)
| LineFailure (is_fatal : bool)            (* file:line: Failure ... *)
| LineDeferError                           (* Error: DEFER stack full (max N) *)
| LineDeferFull                            (* Warning: DEFER stack full at file:line *)
| LineTerminatedByException                (* (test terminated by exception) *)
| LineTerminatedByAssert                   (* (test terminated by ASSERT failure) *)
| LineFailed (suite test : cstr)           (* [  FAILED  ] suite.test (N ms) *)
| LineOk (suite test : cstr)               (* [       OK ] suite.test (N ms) *)
| LineWorkerNotFound (index count : Z)
| LineForkFailed
| LineNoTests
| LineRunning (count repeat : Z) (isolation : bool)
| LineIteration (i n : Z)
| LineFallback
| LineAbnormal (code : Z)
| LineReason (r : exit_reason)
| LineFailedByParent (suite test : cstr)   (* [  FAILED  ] suite.test *)
| LineTotalRan (n : Z)
| LinePassed (n : Z)
| LineFailedCount (n : Z)
| LineFailedListed (suite test : cstr)
| LineAssertions (total passed failed : Z) (* Assertions: t total, p passed, f failed *)
| LineAssertionsNA                         (* Assertions: N/A (process isolation mode ...) *)
| LineAllPassed (n : Z)
| LineListSuite (suite : cstr)
| LineListTest (test : cstr)
| LineListTotal (n : Z)
| LineRegistryFull
| LineFixturesFull.

(** The process-global variables, the output written so far and the
    number of [fork] calls made so far. *)
Record state := mk_state {
  g_ezctest_registry : list ezctest_info_t;    (* g_ezctest_count is its length *)
  g_ezctest_current_failed : bool;
  g_ezctest_current_assertion_failed : bool;
  g_ezctest_result : ezctest_result_t;
  g_ezctest_config : ezctest_config_t;
  g_ezctest_fixtures : list ezctest_fixture_t; (* g_ezctest_fixture_count is its length *)
  g_ezctest_defer_stack : list (option func * data);  (* count is its length *)
  has_jumped : bool;                           (* g_ezctest_longjmp_ctx.has_jumped *)
  g_ezctest_worker_index : Z;
  output : list event;
  forks : nat
}.

(** What the process cannot decide itself. *)
Record environment := mk_environment {
  fork_fails : nat -> bool;        (* does the n-th fork() return -1? *)
  tracer_pid : option Z;           (* TracerPid of /proc/self/status, if readable *)
  rand : nat -> nat                (* the value rand() returns in the shuffle at index i *)
}.

(** The initial values of the globals. *)
Definition initial_state : state :=
  mk_state [] false false (mk_result 0 0 0 0 0)
           (mk_config None 1 false (-1) false (-1)) [] [] false (-1) [] 0.

Definition set_registry (r : list ezctest_info_t) (st : state) : state :=
  mk_state r (g_ezctest_current_failed st) (g_ezctest_current_assertion_failed st)
           (g_ezctest_result st) (g_ezctest_config st) (g_ezctest_fixtures st)
           (g_ezctest_defer_stack st) (has_jumped st) (g_ezctest_worker_index st)
           (output st) (forks st).

Definition set_current_failed (b : bool) (st : state) : state :=
  mk_state (g_ezctest_registry st) b (g_ezctest_current_assertion_failed st)
           (g_ezctest_result st) (g_ezctest_config st) (g_ezctest_fixtures st)
           (g_ezctest_defer_stack st) (has_jumped st) (g_ezctest_worker_index st)
           (output st) (forks st).

Definition set_current_assertion_failed (b : bool) (st : state) : state :=
  mk_state (g_ezctest_registry st) (g_ezctest_current_failed st) b
           (g_ezctest_result st) (g_ezctest_config st) (g_ezctest_fixtures st)
           (g_ezctest_defer_stack st) (has_jumped st) (g_ezctest_worker_index st)
           (output st) (forks st).

Definition set_result (r : ezctest_result_t) (st : state) : state :=
  mk_state (g_ezctest_registry st) (g_ezctest_current_failed st)
           (g_ezctest_current_assertion_failed st)
           r (g_ezctest_config st) (g_ezctest_fixtures st)
           (g_ezctest_defer_stack st) (has_jumped st) (g_ezctest_worker_index st)
           (output st) (forks st).

Definition set_config (c : ezctest_config_t) (st : state) : state :=
  mk_state (g_ezctest_registry st) (g_ezctest_current_failed st)
           (g_ezctest_current_assertion_failed st)
           (g_ezctest_result st) c (g_ezctest_fixtures st)
           (g_ezctest_defer_stack st) (has_jumped st) (g_ezctest_worker_index st)
           (output st) (forks st).

Definition set_fixtures (f : list ezctest_fixture_t) (st : state) : state :=
  mk_state (g_ezctest_registry st) (g_ezctest_current_failed st)
           (g_ezctest_current_assertion_failed st)
           (g_ezctest_result st) (g_ezctest_config st) f
           (g_ezctest_defer_stack st) (has_jumped st) (g_ezctest_worker_index st)
           (output st) (forks st).

Definition set_defer_stack (d : list (option func * data)) (st : state) : state :=
  mk_state (g_ezctest_registry st) (g_ezctest_current_failed st)
           (g_ezctest_current_assertion_failed st)
           (g_ezctest_result st) (g_ezctest_config st) (g_ezctest_fixtures st)
           d (has_jumped st) (g_ezctest_worker_index st)
           (output st) (forks st).

Definition set_has_jumped (b : bool) (st : state) : state :=
  mk_state (g_ezctest_registry st) (g_ezctest_current_failed st)
           (g_ezctest_current_assertion_failed st)
           (g_ezctest_result st) (g_ezctest_config st) (g_ezctest_fixtures st)
           (g_ezctest_defer_stack st) b (g_ezctest_worker_index st)
           (output st) (forks st).

Definition set_worker_index (w : Z) (st : state) : state :=
  mk_state (g_ezctest_registry st) (g_ezctest_current_failed st)
           (g_ezctest_current_assertion_failed st)
           (g_ezctest_result st) (g_ezctest_config st) (g_ezctest_fixtures st)
           (g_ezctest_defer_stack st) (has_jumped st) w
           (output st) (forks st).

Definition set_output (o : list event) (st : state) : state :=
  mk_state (g_ezctest_registry st) (g_ezctest_current_failed st)
           (g_ezctest_current_assertion_failed st)
           (g_ezctest_result st) (g_ezctest_config st) (g_ezctest_fixtures st)
           (g_ezctest_defer_stack st) (has_jumped st) (g_ezctest_worker_index st)
           o (forks st).

Definition set_forks (n : nat) (st : state) : state :=
  mk_state (g_ezctest_registry st) (g_ezctest_current_failed st)
           (g_ezctest_current_assertion_failed st)
           (g_ezctest_result st) (g_ezctest_config st) (g_ezctest_fixtures st)
           (g_ezctest_defer_stack st) (has_jumped st) (g_ezctest_worker_index st)
           (output st) n.

(** Write one line, or record one call. *)
Definition emit (e : event) (st : state) : state :=
  set_output (output st ++ [e]) st.

Definition emits (es : list event) (st : state) : state :=
  set_output (output st ++ es) st.

(** [strcmp(a, b) == 0] *)
Definition strcmp_eq (a b : cstr) : bool :=
  if list_eq_dec ascii_dec a b then true else false.

(** A computation either comes back with a value or the process is
    killed by a signal; the state is the one reached so far. *)
Inductive outcome (A : Type) :=
| Alive (a : A) (st : state)
| Died (sig : nat) (st : state).
Arguments Alive {A} a st.
Arguments Died {A} sig st.

Definition bind {A B : Type} (m : outcome A) (k : A -> state -> outcome B)
  : outcome B :=
  match m with
  | Alive a st => k a st
  | Died sig st => Died sig st
  end.

(** ** Registry *)

(** [ezctest_register]; the returned flag is the C function's 1 or 0. *)
Definition ezctest_register
    (suite test : cstr) (body : list stmt) (st : state) : bool * state :=
  if (EZCTEST_MAX_TESTS <=? length (g_ezctest_registry st))%nat then
    (false, emit LineRegistryFull st)
  else
    (true, set_registry (g_ezctest_registry st ++ [mk_info suite test body true false]) st).

Definition with_setup (f : func) (fx : ezctest_fixture_t) : ezctest_fixture_t :=
  mk_fixture (fixture_suite_name fx) (Some f) (teardown fx).

Definition with_teardown (f : func) (fx : ezctest_fixture_t) : ezctest_fixture_t :=
  mk_fixture (fixture_suite_name fx) (setup fx) (Some f).

(** The search loop that [ezctest_register_setup] and
    [ezctest_register_teardown] both start with: the first fixture whose
    name compares equal gets its field assigned ([assign]); [None] when
    the loop ends without finding one. *)
Fixpoint update_fixture
    (fixtures : list ezctest_fixture_t) (suite : cstr)
    (assign : ezctest_fixture_t -> ezctest_fixture_t)
  : option (list ezctest_fixture_t) :=
  match fixtures with
  | [] => None
  | fx :: rest =>
      if strcmp_eq (fixture_suite_name fx) suite then Some (assign fx :: rest)
      else
        match update_fixture rest suite assign with
        | Some rest' => Some (fx :: rest')
        | None => None
        end
  end.

Definition ezctest_register_setup (suite : cstr) (f : func) (st : state)
  : bool * state :=
  match update_fixture (g_ezctest_fixtures st) suite (with_setup f) with
  | Some fixtures' => (true, set_fixtures fixtures' st)
  | None =>
      if (EZCTEST_MAX_FIXTURES <=? length (g_ezctest_fixtures st))%nat then
        (false, emit LineFixturesFull st)
      else
        (true, set_fixtures (g_ezctest_fixtures st ++ [mk_fixture suite (Some f) None]) st)
  end.

Definition ezctest_register_teardown (suite : cstr) (f : func) (st : state)
  : bool * state :=
  match update_fixture (g_ezctest_fixtures st) suite (with_teardown f) with
  | Some fixtures' => (true, set_fixtures fixtures' st)
  | None =>
      if (EZCTEST_MAX_FIXTURES <=? length (g_ezctest_fixtures st))%nat then
        (false, emit LineFixturesFull st)
      else
        (true, set_fixtures (g_ezctest_fixtures st ++ [mk_fixture suite None (Some f)]) st)
  end.

(** A call of one of the two registration functions, and a sequence of
    such calls made one after the other. *)
Inductive registration :=
| RegisterSetup (suite : cstr) (f : func)
| RegisterTeardown (suite : cstr) (f : func).

Definition register_fixture (r : registration) (st : state) : bool * state :=
  match r with
  | RegisterSetup suite f => ezctest_register_setup suite f st
  | RegisterTeardown suite f => ezctest_register_teardown suite f st
  end.

Definition register_fixtures (history : list registration) (st : state) : state :=
  fold_left (fun st r => snd (register_fixture r st)) history st.

(** The bindings of the table that carry a given suite name. *)
Definition bindings_for (suite : cstr) (fixtures : list ezctest_fixture_t)
  : list ezctest_fixture_t :=
  List.filter (fun fx => strcmp_eq (fixture_suite_name fx) suite) fixtures.

(** [ezctest_find_fixture]; [None] is the [NULL] result. *)
Fixpoint find_fixture_in (fixtures : list ezctest_fixture_t) (suite : cstr)
  : option ezctest_fixture_t :=
  match fixtures with
  | [] => None
  | fx :: rest =>
      if strcmp_eq (fixture_suite_name fx) suite then Some fx
      else find_fixture_in rest suite
  end.

Definition ezctest_find_fixture (suite : cstr) (st : state) : option ezctest_fixture_t :=
  find_fixture_in (g_ezctest_fixtures st) suite.

(** ** Cleanup stack *)

(** The stack is the array prefix [0 .. count-1], oldest entry first. *)
Definition ezctest_defer_add (f : option func) (d : data) (st : state) : bool * state :=
  if (EZCTEST_MAX_DEFER_CALLBACKS <=? length (g_ezctest_defer_stack st))%nat then
    (false, emit LineDeferError st)
  else
    (true, set_defer_stack (g_ezctest_defer_stack st ++ [(f, d)]) st).

(** The loop [for (i = count - 1; i >= 0; i--)] over the entries, given
    here from the last one to the first. *)
Fixpoint defer_execute_loop (entries_from_top : list (option func * data)) (st : state)
  : state :=
  match entries_from_top with
  | [] => st
  | (Some f, d) :: below => defer_execute_loop below (emit (CallCleanup f d) st)
  | (None, _) :: below => defer_execute_loop below st
  end.

Definition ezctest_defer_execute (st : state) : state :=
  defer_execute_loop (rev (g_ezctest_defer_stack st)) st.

Definition ezctest_defer_clear (st : state) : state := set_defer_stack [] st.

(** ** Assertions *)

Definition ezctest_assertion_failed (is_fatal : bool) (st : state) : state :=
  let r := g_ezctest_result st in
  let st := set_result (mk_result (total_tests r) (passed_tests r) (failed_tests r)
                                  (total_assertions r + 1) (failed_assertions r + 1)) st in
  let st := set_current_assertion_failed true st in
  let st := emit (LineFailure is_fatal) st in
  if is_fatal then set_current_failed true st else st.

Definition ezctest_assertion_passed (st : state) : state :=
  let r := g_ezctest_result st in
  set_result (mk_result (total_tests r) (passed_tests r) (failed_tests r)
                        (total_assertions r + 1) (failed_assertions r)) st.

(** How control leaves a test body: by returning, or by [longjmp] to the
    resumption point. *)
Inductive body_exit := Returned | Jumped.

(** The macros [EXPECT_TRUE], [ASSERT_TRUE] and [DEFER] expanded in a
    test body. *)
Fixpoint run_body (body : list stmt) (st : state) : outcome body_exit :=
  match body with
  | [] => Alive Returned st
  | Expect cond :: rest =>
      run_body rest (if cond then ezctest_assertion_passed st
                     else ezctest_assertion_failed false st)
  | Assert cond :: rest =>
      if cond then run_body rest (ezctest_assertion_passed st)
      else
        let st := ezctest_assertion_failed true st in
        if has_jumped st then Alive Jumped st     (* longjmp(jmp_env, 1) *)
        else Alive Returned st                    (* return; *)
  | Defer f d :: rest =>
      let (ok, st) := ezctest_defer_add (Some f) d st in
      run_body rest (if ok then st else emit LineDeferFull st)
  | Action tag :: rest => run_body rest (emit (Ran tag) st)
  | Fault sig :: _ => Died sig st
  end.

(** ** Execution engine *)

Definition call_setup (fixture : option ezctest_fixture_t) (st : state) : state :=
  match fixture with
  | Some fx => match setup fx with Some f => emit (CallSetup f) st | None => st end
  | None => st
  end.

Definition call_teardown (fixture : option ezctest_fixture_t) (st : state) : state :=
  match fixture with
  | Some fx => match teardown fx with Some f => emit (CallTeardown f) st | None => st end
  | None => st
  end.

(** [ezctest_run_test_with_exception_guard], the plain C branch: the
    value is 0 after a return of the body and 2 after a [longjmp]. *)
Definition ezctest_run_test_with_exception_guard
    (test : ezctest_info_t) (fixture : option ezctest_fixture_t) (st : state)
  : outcome Z :=
  let st := set_has_jumped true st in
  let st := call_setup fixture st in
  bind (run_body (test_func test) st)
       (fun how st => match how with
                      | Returned => Alive 0%Z st
                      | Jumped => Alive 2%Z st
                      end).

Definition current_test_failed (st : state) : bool :=
  g_ezctest_current_failed st || g_ezctest_current_assertion_failed st.

(** [ezctest_run_test] *)
Definition ezctest_run_test (test : ezctest_info_t) (st : state) : outcome unit :=
  let is_worker := (0 <=? g_ezctest_worker_index st)%Z in
  let st := set_current_failed false st in
  let st := set_current_assertion_failed false st in
  let st := ezctest_defer_clear st in
  let st := if is_worker then st
            else emit (LineRun (suite_name test) (test_name test)) st in
  let fixture := ezctest_find_fixture (suite_name test) st in
  bind (ezctest_run_test_with_exception_guard test fixture st)
       (fun exception_type st =>
          let st := set_has_jumped false st in
          let st := ezctest_defer_execute st in
          let st := ezctest_defer_clear st in
          let st := call_teardown fixture st in
          let st := if (exception_type =? 1)%Z then emit LineTerminatedByException st
                    else if (exception_type =? 2)%Z then emit LineTerminatedByAssert st
                    else st in
          let r := g_ezctest_result st in
          if current_test_failed st then
            Alive tt
              (set_result (mk_result (total_tests r) (passed_tests r) (failed_tests r + 1)
                                     (total_assertions r) (failed_assertions r))
                          (emit (LineFailed (suite_name test) (test_name test)) st))
          else
            Alive tt
              (set_result (mk_result (total_tests r) (passed_tests r + 1) (failed_tests r)
                                     (total_assertions r) (failed_assertions r))
                          (emit (LineOk (suite_name test) (test_name test)) st))).

(** Does the run select this test?  The test of the three loops over
    the registry. *)
Definition selected (cfg : ezctest_config_t) (test : ezctest_info_t) : bool :=
  enabled test && ezctest_matches_filter (suite_name test) (test_name test) (filter cfg).

(** The loop of [ezctest_worker_mode] over the registry entries still
    to visit. *)
Fixpoint worker_mode_loop
    (tests : list ezctest_info_t) (test_count worker_index : Z) (st : state)
  : outcome Z :=
  match tests with
  | [] => Alive 1%Z (emit (LineWorkerNotFound worker_index test_count) st)
  | test :: rest =>
      if negb (enabled test) then worker_mode_loop rest test_count worker_index st
      else if negb (ezctest_matches_filter (suite_name test) (test_name test)
                                           (filter (g_ezctest_config st)))
      then worker_mode_loop rest test_count worker_index st
      else if (test_count =? worker_index)%Z then
        bind (ezctest_run_test test st)
             (fun _ st => if current_test_failed st then Alive 1%Z st else Alive 0%Z st)
      else worker_mode_loop rest (test_count + 1)%Z worker_index st
  end.

Definition ezctest_worker_mode (worker_index : Z) (st : state) : outcome Z :=
  worker_mode_loop (g_ezctest_registry st) 0%Z worker_index st.

(** ** Process isolation *)

(** [ezctest_under_debugger], Linux branch: a tracer is attached when
    [/proc/self/status] shows a [TracerPid] other than 0. *)
Definition ezctest_under_debugger (env : environment) : bool :=
  match tracer_pid env with
  | Some pid => negb (pid =? 0)%Z
  | None => false
  end.

(** The decision at the head of [ezctest_run_all_tests_internal]. *)
Definition use_process_isolation
    (env : environment) (cfg : ezctest_config_t) (enabled_count : Z) : bool :=
  if (no_exec cfg =? -1)%Z then
    if (enabled_count <=? 1)%Z || ezctest_under_debugger env then false else true
  else if (no_exec cfg =? 0)%Z then true else false.

Definition reset_result (st : state) : state := set_result (mk_result 0 0 0 0 0) st.

(** [ezctest_exec_child], Linux branch, seen from the parent.  The child
    is a copy of the parent that runs the one test and exits; it shares
    the parent's output streams and nothing else.  The value is the
    child's exit code, 128 plus the signal that killed it, or -1 when
    [fork] failed. *)
Definition ezctest_exec_child
    (env : environment) (test : ezctest_info_t) (test_index : Z) (st : state)
  : Z * state :=
  let n := forks st in
  let st := set_forks (S n) st in
  if fork_fails env n then ((-1)%Z, emit LineForkFailed st)
  else
    let child := reset_result (set_worker_index test_index st) in
    match ezctest_run_test test child with
    | Alive _ child' =>
        ((if current_test_failed child' then 1 else 0)%Z, set_output (output child') st)
    | Died sig child' =>
        ((128 + Z.of_nat sig)%Z, set_output (output child') st)
    end.

(** The decoding of an abnormal exit code; [(int)0xC0000005] and the
    like are negative [int] values. *)
Definition abnormal_reason (code : Z) : exit_reason :=
  (if (128 <=? code) && (code <? 256) then ReasonSignal (code - 128)
   else if code =? 0xC0000005 - 2 ^ 32 then ReasonAccessViolation
   else if code =? 0xC0000094 - 2 ^ 32 then ReasonIntDivideByZero
   else if code =? 0xC000008C - 2 ^ 32 then ReasonArrayBounds
   else if code =? 0xC00000FD - 2 ^ 32 then ReasonStackOverflow
   else if code =? 0xC000001D - 2 ^ 32 then ReasonIllegalInstruction
   else if code =? 3 then ReasonAbort
   else if (0xC0000000 - 2 ^ 32 <=? code) && (code <=? 0xDFFFFFFF - 2 ^ 32)
        then ReasonWindowsException
   else ReasonUnknown)%Z.

Fixpoint update_nth {A : Type} (i : nat) (f : A -> A) (l : list A) : list A :=
  match l, i with
  | [], _ => []
  | x :: l', O => f x :: l'
  | x :: l', S i' => x :: update_nth i' f l'
  end.

Definition with_failed (b : bool) (t : ezctest_info_t) : ezctest_info_t :=
  mk_info (suite_name t) (test_name t) (test_func t) (enabled t) b.

(** [g_ezctest_registry[i].failed = 1] *)
Definition set_failed_at (i : nat) (st : state) : state :=
  set_registry (update_nth i (with_failed true) (g_ezctest_registry st)) st.

Definition incr_total_tests (st : state) : state :=
  let r := g_ezctest_result st in
  set_result (mk_result (total_tests r + 1) (passed_tests r) (failed_tests r)
                        (total_assertions r) (failed_assertions r)) st.

Definition incr_passed_tests (st : state) : state :=
  let r := g_ezctest_result st in
  set_result (mk_result (total_tests r) (passed_tests r + 1) (failed_tests r)
                        (total_assertions r) (failed_assertions r)) st.

Definition incr_failed_tests (st : state) : state :=
  let r := g_ezctest_result st in
  set_result (mk_result (total_tests r) (passed_tests r) (failed_tests r + 1)
                        (total_assertions r) (failed_assertions r)) st.

(** The in-process run of a test by the main loop, with the note of its
    failure in the registry. *)
Definition run_in_process (i : nat) (test : ezctest_info_t) (st : state)
  : outcome unit :=
  bind (ezctest_run_test test st)
       (fun _ st => Alive tt (if current_test_failed st then set_failed_at i st else st)).

(** The isolated branch of the main loop for the selected test at
    registry index [i], the [test_count]-th selected one. *)
Definition run_isolated
    (env : environment) (i : nat) (test : ezctest_info_t) (test_count : Z) (st : state)
  : outcome unit :=
  let st := emit (LineRun (suite_name test) (test_name test)) st in
  let (child_exit_code, st) := ezctest_exec_child env test test_count st in
  if (child_exit_code =? 0)%Z then Alive tt (incr_passed_tests st)
  else if (child_exit_code =? 1)%Z then Alive tt (set_failed_at i (incr_failed_tests st))
  else if (child_exit_code <? 0)%Z then
    run_in_process i test (emit LineFallback st)
  else
    Alive tt
      (set_failed_at i
         (incr_failed_tests
            (emits [LineAbnormal child_exit_code;
                    LineReason (abnormal_reason child_exit_code);
                    LineFailedByParent (suite_name test) (test_name test)] st))).

(** The body of the main loop for a selected test; the value is the new
    [test_count]. *)
Definition run_selected
    (env : environment) (isolation : bool) (i : nat) (test : ezctest_info_t)
    (test_count : Z) (st : state) : outcome Z :=
  let st := incr_total_tests st in
  if isolation then
    bind (run_isolated env i test test_count st)
         (fun _ st => Alive (test_count + 1)%Z st)
  else
    bind (run_in_process i test st) (fun _ st => Alive test_count st).

(** [for (i = 0; i < g_ezctest_count; i++)] with [n] turns left. *)
Fixpoint test_loop
    (env : environment) (isolation : bool) (n i : nat) (test_count : Z) (st : state)
  : outcome Z :=
  match n with
  | O => Alive test_count st
  | S n' =>
      match nth_error (g_ezctest_registry st) i with
      | None => Alive test_count st
      | Some test =>
          if negb (enabled test) then test_loop env isolation n' (S i) test_count st
          else if negb (ezctest_matches_filter (suite_name test) (test_name test)
                                               (filter (g_ezctest_config st)))
          then test_loop env isolation n' (S i) test_count st
          else
            bind (run_selected env isolation i test test_count st)
                 (fun test_count st => test_loop env isolation n' (S i) test_count st)
      end
  end.

(** The exchange of the entries at [i] and [j]. *)
Definition swap_at {A : Type} (i j : nat) (l : list A) : list A :=
  match nth_error l i, nth_error l j with
  | Some a, Some b => update_nth j (fun _ => a) (update_nth i (fun _ => b) l)
  | _, _ => l
  end.

(** [for (i = count - 1; i > 0; i--) { j = rand() % (i + 1); swap }] *)
Fixpoint shuffle_loop (rnd : nat -> nat) (i : nat) (registry : list ezctest_info_t)
  : list ezctest_info_t :=
  match i with
  | O => registry
  | S i' => shuffle_loop rnd i' (swap_at i (rnd i mod (i + 1)) registry)
  end.

(** [for (repeat = 0; repeat < g_ezctest_config.repeat; repeat++)] with
    [n] turns left. *)
Fixpoint repeat_loop
    (env : environment) (isolation : bool) (n : nat) (rep : Z) (st : state)
  : outcome unit :=
  match n with
  | O => Alive tt st
  | S n' =>
      let cfg := g_ezctest_config st in
      let st := set_registry (map (with_failed false) (g_ezctest_registry st)) st in
      let st := if (1 <? repeat cfg)%Z
                then emit (LineIteration (rep + 1) (repeat cfg)) st else st in
      let st := if shuffle cfg && (rep =? 0)%Z
                then set_registry
                       (shuffle_loop (rand env) (length (g_ezctest_registry st) - 1)
                                     (g_ezctest_registry st)) st
                else st in
      bind (test_loop env isolation (length (g_ezctest_registry st)) 0 0%Z st)
           (fun _ st => repeat_loop env isolation n' (rep + 1)%Z st)
  end.

(** The counting loop at the head of [ezctest_run_all_tests_internal]. *)
Fixpoint count_enabled (cfg : ezctest_config_t) (tests : list ezctest_info_t) : Z :=
  match tests with
  | [] => 0%Z
  | test :: rest =>
      if enabled test && ezctest_matches_filter (suite_name test) (test_name test) (filter cfg)
      then (1 + count_enabled cfg rest)%Z
      else count_enabled cfg rest
  end.

(** The summary that ends a run.  Under isolation the assertion line is
    absent: the only statement of that branch is inside [#if 0]. *)
Definition final_report (isolation : bool) (st : state) : list event :=
  let r := g_ezctest_result st in
  [LineTotalRan (total_tests r); LinePassed (passed_tests r)]
  ++ (if (0 <? failed_tests r)%Z then
        LineFailedCount (failed_tests r)
        :: map (fun t => LineFailedListed (suite_name t) (test_name t))
               (List.filter failed (g_ezctest_registry st))
      else [])
  ++ (if isolation then []
      else [LineAssertions (total_assertions r)
                           (total_assertions r - failed_assertions r)
                           (failed_assertions r)])
  ++ (if (total_tests r =? passed_tests r)%Z then [LineAllPassed (total_tests r)] else []).

(** [ezctest_run_all_tests_internal] *)
Definition ezctest_run_all_tests_internal (env : environment) (st : state)
  : outcome Z :=
  let cfg := g_ezctest_config st in
  let enabled_count := count_enabled cfg (g_ezctest_registry st) in
  if (enabled_count =? 0)%Z then Alive 0%Z (emit LineNoTests st)
  else
    let isolation := use_process_isolation env cfg enabled_count in
    let st := emit (LineRunning enabled_count (repeat cfg) isolation) st in
    bind (repeat_loop env isolation (Z.to_nat (repeat cfg)) 0%Z st)
         (fun _ st =>
            let st := emits (final_report isolation st) st in
            Alive (if (failed_tests (g_ezctest_result st) =? 0)%Z then 0 else 1)%Z st).

(** [ezctest_list_tests] *)
Fixpoint list_tests_loop
    (cfg : ezctest_config_t) (tests : list ezctest_info_t) (last_suite : cstr)
    (count : Z) (st : state) : state :=
  match tests with
  | [] => emit (LineListTotal count) st
  | test :: rest =>
      if negb (selected cfg test) then list_tests_loop cfg rest last_suite count st
      else
        let st := if strcmp_eq last_suite (suite_name test) then st
                  else emit (LineListSuite (suite_name test)) st in
        list_tests_loop cfg rest (suite_name test) (count + 1)%Z
                        (emit (LineListTest (test_name test)) st)
  end.

Definition ezctest_list_tests (st : state) : state :=
  list_tests_loop (g_ezctest_config st) (g_ezctest_registry st) [] 0%Z st.

(** [ezctest_run_all_tests] once the arguments are parsed into
    [g_ezctest_config] and [g_ezctest_worker_index]. *)
Definition ezctest_run_all_tests (env : environment) (st : state) : outcome Z :=
  if (0 <=? g_ezctest_worker_index st)%Z then
    ezctest_worker_mode (g_ezctest_worker_index st) st
  else if list_tests (g_ezctest_config st) then Alive 0%Z (ezctest_list_tests st)
  else ezctest_run_all_tests_internal env st.

(** ** Notions used to state the properties *)

(** The candidates still open at the last star: the rest of the pattern
    after it against a later start in the string. *)
Definition alternatives (star : option (cstr * cstr)) : Prop :=
  match star with
  | None => False
  | Some (star_p, star_s) => exists k, 1 <= k /\ glob_match (tl star_p) (skipn k star_s)
  end.

(** What the loop still has to decide in a state. *)
Definition pending (st : wildcard_state) : Prop :=
  glob_match (wp st) (ws st) \/ alternatives (wstar st).

(** The shape of a state that the loop reaches: since the last star the
    pattern was followed through a star-free stretch [q]. *)
Definition reachable (bound : nat) (st : wildcard_state) : Prop :=
  length (wp st) <= bound /\
  match wstar st with
  | None => True
  | Some (star_p, star_s) =>
      length (tl star_p) <= bound /\
      exists q, star_p = "*" :: q ++ wp st /\ ~ In "*" q /\
                length q <= length star_s /\ ws st = skipn (length q) star_s
  end.

Definition turns_left (bound : nat) (st : wildcard_state) : nat :=
  match wstar st with
  | None => length (ws st)
  | Some (_, star_s) => length star_s
  end * (bound + 2) + length (wp st).

Definition fixture_names (fixtures : list ezctest_fixture_t) : list cstr :=
  map fixture_suite_name fixtures.

(** What one registration call makes of the table: [assign] is the
    field assignment on a fixture found, [fresh] the fixture appended
    otherwise; [None] when the call fails. *)
Definition registered
    (fixtures : list ezctest_fixture_t) (suite : cstr)
    (assign : ezctest_fixture_t -> ezctest_fixture_t) (fresh : ezctest_fixture_t)
  : option (list ezctest_fixture_t) :=
  match update_fixture fixtures suite assign with
  | Some fixtures' => Some fixtures'
  | None =>
      if (EZCTEST_MAX_FIXTURES <=? length fixtures)%nat then None
      else Some (fixtures ++ [fresh])
  end.

(** Does control leave the body at this statement? *)
Definition aborts (s : stmt) : bool :=
  match s with
  | Assert false => true
  | Fault _ => true
  | _ => false
  end.

(** The statements of a body that control reaches: all of them up to
    and including the first that aborts. *)
Fixpoint executed (body : list stmt) : list stmt :=
  match body with
  | [] => []
  | s :: rest => if aborts s then [s] else s :: executed rest
  end.

(** The callbacks that a run of statements pushes on a cleanup stack
    that holds [n] entries. *)
Fixpoint pushed (n : nat) (ex : list stmt) : list (func * data) :=
  match ex with
  | [] => []
  | Defer f d :: rest =>
      if (EZCTEST_MAX_DEFER_CALLBACKS <=? n)%nat then pushed n rest
      else (f, d) :: pushed (S n) rest
  | _ :: rest => pushed n rest
  end.

(** The events of a run of statements. *)
Fixpoint body_trace (n : nat) (ex : list stmt) : list event :=
  match ex with
  | [] => []
  | Expect cond :: rest =>
      (if cond then [] else [LineFailure false]) ++ body_trace n rest
  | Assert cond :: rest =>
      (if cond then [] else [LineFailure true]) ++ body_trace n rest
  | Defer f d :: rest =>
      if (EZCTEST_MAX_DEFER_CALLBACKS <=? n)%nat
      then LineDeferError :: LineDeferFull :: body_trace n rest
      else body_trace (S n) rest
  | Action tag :: rest => Ran tag :: body_trace n rest
  | Fault _ :: rest => body_trace n rest
  end.

Definition is_check (s : stmt) : bool :=
  match s with Expect _ | Assert _ => true | _ => false end.

Definition is_failure (s : stmt) : bool :=
  match s with Expect false | Assert false => true | _ => false end.

Definition is_fatal_failure (s : stmt) : bool :=
  match s with Assert false => true | _ => false end.

Definition checks (ex : list stmt) : Z := Z.of_nat (length (List.filter is_check ex)).
Definition failures (ex : list stmt) : Z := Z.of_nat (length (List.filter is_failure ex)).
Definition fatal (ex : list stmt) : bool := existsb is_fatal_failure ex.

Fixpoint fault_of (ex : list stmt) : option nat :=
  match ex with
  | [] => None
  | Fault sig :: _ => Some sig
  | _ :: rest => fault_of rest
  end.

Definition final_state {A : Type} (o : outcome A) : state :=
  match o with
  | Alive _ st => st
  | Died _ st => st
  end.

Definition stack_entry (e : func * data) : option func * data := (Some (fst e), snd e).

(** The globals that no test body and no run of a test touches. *)
Definition same_globals (st st' : state) : Prop :=
  g_ezctest_registry st' = g_ezctest_registry st
  /\ g_ezctest_config st' = g_ezctest_config st
  /\ g_ezctest_fixtures st' = g_ezctest_fixtures st
  /\ g_ezctest_worker_index st' = g_ezctest_worker_index st
  /\ forks st' = forks st.

(** The effect of the executed statements [ex] of a body. *)
Definition body_effect (ex : list stmt) (st st' : state) : Prop :=
  same_globals st st'
  /\ has_jumped st' = has_jumped st
  /\ output st' = output st ++ body_trace (length (g_ezctest_defer_stack st)) ex
  /\ g_ezctest_defer_stack st'
     = g_ezctest_defer_stack st
       ++ map stack_entry (pushed (length (g_ezctest_defer_stack st)) ex)
  /\ g_ezctest_current_failed st' = g_ezctest_current_failed st || fatal ex
  /\ g_ezctest_current_assertion_failed st'
     = g_ezctest_current_assertion_failed st || (0 <? failures ex)%Z
  /\ total_tests (g_ezctest_result st') = total_tests (g_ezctest_result st)
  /\ passed_tests (g_ezctest_result st') = passed_tests (g_ezctest_result st)
  /\ failed_tests (g_ezctest_result st') = failed_tests (g_ezctest_result st)
  /\ total_assertions (g_ezctest_result st')
     = (total_assertions (g_ezctest_result st) + checks ex)%Z
  /\ failed_assertions (g_ezctest_result st')
     = (failed_assertions (g_ezctest_result st) + failures ex)%Z.

(** How the body ends, from the statements it executed. *)
Definition body_outcome (ex : list stmt) (st' : state) : outcome body_exit :=
  match fault_of ex with
  | Some sig => Died sig st'
  | None => Alive (if fatal ex then Jumped else Returned) st'
  end.

Definition run_line (worker_index : Z) (t : ezctest_info_t) : list event :=
  if (0 <=? worker_index)%Z then [] else [LineRun (suite_name t) (test_name t)].

Definition setup_call (fixture : option ezctest_fixture_t) : list event :=
  match fixture with
  | Some fx => match setup fx with Some f => [CallSetup f] | None => [] end
  | None => []
  end.

Definition teardown_call (fixture : option ezctest_fixture_t) : list event :=
  match fixture with
  | Some fx => match teardown fx with Some f => [CallTeardown f] | None => [] end
  | None => []
  end.

(** Calls of cleanup callbacks, in the order of the list. *)
Definition cleanup_calls (entries : list (func * data)) : list event :=
  map (fun e => CallCleanup (fst e) (snd e)) entries.

(** Did the test fail, from the statements it executed? *)
Definition verdict_failed (ex : list stmt) : bool := fatal ex || (0 <? failures ex)%Z.

(** Everything a test writes and calls when its body does not fault:
    start line, setup, the executed statements, the cleanup callbacks
    from the last pushed to the first, teardown, the note of a fatal
    abort, and the verdict. *)
Definition test_events (worker_index : Z) (fixture : option ezctest_fixture_t)
    (t : ezctest_info_t) : list event :=
  let ex := executed (test_func t) in
  run_line worker_index t
  ++ setup_call fixture
  ++ body_trace 0 ex
  ++ cleanup_calls (rev (pushed 0 ex))
  ++ teardown_call fixture
  ++ (if fatal ex then [LineTerminatedByAssert] else [])
  ++ [if verdict_failed ex then LineFailed (suite_name t) (test_name t)
      else LineOk (suite_name t) (test_name t)].

(** What a faulting test has written when the signal arrives. *)
Definition fault_events (worker_index : Z) (fixture : option ezctest_fixture_t)
    (t : ezctest_info_t) : list event :=
  run_line worker_index t ++ setup_call fixture ++ body_trace 0 (executed (test_func t)).

(** The state after the run of a test whose body does not fault. *)
Definition test_effect (t : ezctest_info_t) (st st' : state) : Prop :=
  let ex := executed (test_func t) in
  same_globals st st'
  /\ has_jumped st' = false
  /\ g_ezctest_defer_stack st' = []
  /\ output st'
     = output st
       ++ test_events (g_ezctest_worker_index st)
                      (ezctest_find_fixture (suite_name t) st) t
  /\ g_ezctest_current_failed st' = fatal ex
  /\ g_ezctest_current_assertion_failed st' = (0 <? failures ex)%Z
  /\ total_tests (g_ezctest_result st') = total_tests (g_ezctest_result st)
  /\ passed_tests (g_ezctest_result st')
     = (passed_tests (g_ezctest_result st) + (if verdict_failed ex then 0 else 1))%Z
  /\ failed_tests (g_ezctest_result st')
     = (failed_tests (g_ezctest_result st) + (if verdict_failed ex then 1 else 0))%Z
  /\ total_assertions (g_ezctest_result st')
     = (total_assertions (g_ezctest_result st) + checks ex)%Z
  /\ failed_assertions (g_ezctest_result st')
     = (failed_assertions (g_ezctest_result st) + failures ex)%Z.

Definition is_cleanup_call (e : event) : bool :=
  match e with CallCleanup _ _ => true | _ => false end.

Definition is_teardown_call (e : event) : bool :=
  match e with CallTeardown _ => true | _ => false end.

(** The [DEFER] statements among the executed ones, in program order. *)
Fixpoint defers (ex : list stmt) : list (func * data) :=
  match ex with
  | [] => []
  | Defer f d :: rest => (f, d) :: defers rest
  | _ :: rest => defers rest
  end.

(** The lines that speak of assertion totals: the counts, and the
    notice that they are not available. *)
Definition is_assertion_total (e : event) : bool :=
  match e with
  | LineAssertions _ _ _ => true
  | LineAssertionsNA => true
  | _ => false
  end.

(** From [st] to [st'] the output only grew, and by no line about
    assertion totals. *)
Definition quiet (st st' : state) : Prop :=
  exists events,
    output st' = output st ++ events /\ List.filter is_assertion_total events = [].

(** ** Concrete inputs *)

Definition quiet_env : environment :=
  mk_environment (fun _ => false) (Some 0%Z) (fun _ => 0).

Definition failing_fork_env : environment :=
  mk_environment (fun _ => true) None (fun _ => 0).

Definition automatic_config : ezctest_config_t :=
  mk_config None 1 false (-1) false (-1).

Definition two_tests : list ezctest_info_t :=
  [mk_info (cs "Foo") (cs "One") [] true false;
   mk_info (cs "Foo") (cs "Two") [] true false].

Definition fixture_history : list registration :=
  [RegisterSetup (cs "Database") 1; RegisterTeardown (cs "Cache") 2].

Definition fatal_test : ezctest_info_t :=
  mk_info (cs "Db") (cs "Open")
          [Action 1; Defer 7 70; Assert false; Action 2; Defer 8 80; Expect false]
          true false.

Definition state_with_teardown : state :=
  snd (ezctest_register_teardown (cs "Db") 5 initial_state).

Definition lifo_test : ezctest_info_t :=
  mk_info (cs "Res") (cs "Lifo")
          [Defer 1 10; Expect false; Defer 2 20; Defer 3 30; Assert false; Defer 4 40]
          true false.

Definition passing_test : ezctest_info_t :=
  mk_info (cs "Net") (cs "Ping") [Expect true; Action 1] true false.

Definition no_match_state : state :=
  set_config (mk_config (Some (cs "Net.*")) 1 false (-1) false (-1))
    (set_registry [mk_info (cs "Math") (cs "Add") [Expect false] true false;
                   mk_info (cs "Net") (cs "Ping") [Expect true] false false]
                  initial_state).

(** A run of two tests under forced isolation, the second of which
    fails a non-fatal assertion. *)
Definition isolated_run_env : environment :=
  mk_environment (fun _ => false) None (fun _ => 0).

Definition isolated_run_state : state :=
  set_config (mk_config None 1 false (-1) false 0)
    (set_registry [mk_info (cs "A") (cs "one") [Expect true] true false;
                   mk_info (cs "A") (cs "two") [Expect false] true false]
                  initial_state).

(** A worker invocation with ordinal 1 under the filter [A.*]; the
    disabled test in between is not counted. *)
Definition worker_state : state :=
  set_worker_index 1
    (set_config (mk_config (Some (cs "A.*")) 1 false (-1) true (-1))
       (set_registry [mk_info (cs "A") (cs "one") [Expect true] true false;
                      mk_info (cs "B") (cs "skip") [Action 1] false false;
                      mk_info (cs "A") (cs "two") [Action 2; Expect false] true false]
                     initial_state)).

(** ** Notions used to state the further properties *)

(** A filter token that starts with a minus sign excludes. *)
Definition is_negative (token : cstr) : bool :=
  match token with
  | c :: _ => Ascii.eqb c "-"
  | [] => false
  end.

(** The pattern of a token: the token itself, or what follows the minus
    sign. *)
Definition token_pattern (token : cstr) : cstr :=
  if is_negative token then tl token else token.

(** A pattern without wildcard characters. *)
Definition is_literal (p : cstr) : Prop := ~ In "*" p /\ ~ In "?" p.

(** A sequence of [ezctest_register] calls, one after the other; a call
    is the suite name, the test name and the body. *)
Definition register_tests (calls : list (cstr * cstr * list stmt)) (st : state) : state :=
  fold_left (fun st c => snd (ezctest_register (fst (fst c)) (snd (fst c)) (snd c) st))
            calls st.

(** The registry entry that a successful call makes. *)
Definition registered_test (c : cstr * cstr * list stmt) : ezctest_info_t :=
  mk_info (fst (fst c)) (snd (fst c)) (snd c) true false.

(** ** Command line: [ezctest_parse_arguments] *)

(** [strncmp(a, b, n) == 0] *)
Definition strncmp_eq (a b : cstr) (n : nat) : bool :=
  strcmp_eq (firstn n a) (firstn n b).

(** [strchr(s, c)]: the suffix that starts at the first [c]; [None] is
    the [NULL] result. *)
Fixpoint strchr (s : cstr) (c : ascii) : option cstr :=
  match s with
  | [] => None
  | x :: s' => if Ascii.eqb x c then Some s else strchr s' c
  end.

(** How parsing ends: with the globals set, with the usage text printed
    and [exit(0)], or undefined, when [eq + 1] is formed from a [NULL]
    [eq]. *)
Inductive parsed :=
| Parsed (st : state)
| HelpShown (st : state)
| ParseUndefined.

Definition with_filter (f : option cstr) (c : ezctest_config_t) : ezctest_config_t :=
  mk_config f (repeat c) (shuffle c) (color c) (list_tests c) (no_exec c).

Definition with_repeat (n : Z) (c : ezctest_config_t) : ezctest_config_t :=
  mk_config (filter c) n (shuffle c) (color c) (list_tests c) (no_exec c).

Definition with_shuffle (b : bool) (c : ezctest_config_t) : ezctest_config_t :=
  mk_config (filter c) (repeat c) b (color c) (list_tests c) (no_exec c).

Definition with_color (n : Z) (c : ezctest_config_t) : ezctest_config_t :=
  mk_config (filter c) (repeat c) (shuffle c) n (list_tests c) (no_exec c).

Definition with_list_tests (b : bool) (c : ezctest_config_t) : ezctest_config_t :=
  mk_config (filter c) (repeat c) (shuffle c) (color c) b (no_exec c).

Definition with_no_exec (n : Z) (c : ezctest_config_t) : ezctest_config_t :=
  mk_config (filter c) (repeat c) (shuffle c) (color c) (list_tests c) n.

(** The body of the loop of [ezctest_parse_arguments] for one argument.
    [atoi] is the C library's. *)
Definition parse_argument (atoi : cstr -> Z) (arg : cstr) (st : state) : parsed :=
  let cfg := g_ezctest_config st in
  if strncmp_eq arg (cs "--ezctest_filter=") 15 || strncmp_eq arg (cs "--filter=") 9 then
    match strchr arg "=" with
    | Some eq => Parsed (set_config (with_filter (Some (tl eq)) cfg) st)
    | None => ParseUndefined
    end
  else if strncmp_eq arg (cs "--ezctest_repeat=") 15 || strncmp_eq arg (cs "--repeat=") 9 then
    match strchr arg "=" with
    | Some eq =>
        let n := atoi (tl eq) in
        Parsed (set_config (with_repeat (if (n <? 1)%Z then 1%Z else n) cfg) st)
    | None => ParseUndefined
    end
  else if strcmp_eq arg (cs "--ezctest_shuffle") || strcmp_eq arg (cs "--shuffle") then
    Parsed (set_config (with_shuffle true cfg) st)
  else if strcmp_eq arg (cs "--ezctest_color=yes") || strcmp_eq arg (cs "--color=yes") then
    Parsed (set_config (with_color 1 cfg) st)
  else if strcmp_eq arg (cs "--ezctest_color=no") || strcmp_eq arg (cs "--color=no") then
    Parsed (set_config (with_color 0 cfg) st)
  else if strcmp_eq arg (cs "--ezctest_list_tests") || strcmp_eq arg (cs "--list_tests") then
    Parsed (set_config (with_list_tests true cfg) st)
  else if strcmp_eq arg (cs "--ezctest_no_exec") || strcmp_eq arg (cs "--no_exec") then
    Parsed (set_config (with_no_exec 1 cfg) st)
  else if strncmp_eq arg (cs "--ezctest_worker=") 15 then
    match strchr arg "=" with
    | Some eq => Parsed (set_worker_index (atoi (tl eq)) st)
    | None => ParseUndefined
    end
  else if strcmp_eq arg (cs "--help") || strcmp_eq arg (cs "-h") then HelpShown st
  else Parsed st.

(** [ezctest_parse_arguments] on [argv[1]] to [argv[argc - 1]]. *)
Fixpoint ezctest_parse_arguments (atoi : cstr -> Z) (args : list cstr) (st : state)
  : parsed :=
  match args with
  | [] => Parsed st
  | arg :: rest =>
      match parse_argument atoi arg st with
      | Parsed st' => ezctest_parse_arguments atoi rest st'
      | HelpShown st' => HelpShown st'
      | ParseUndefined => ParseUndefined
      end
  end.


(** ** Notions for whole runs *)

(** The registry without the failure flags. *)
Definition erase_failed (registry : list ezctest_info_t) : list ezctest_info_t :=
  map (with_failed false) registry.

(** The configuration, the fixtures and the worker index are the same. *)
Definition same_setup (st st' : state) : Prop :=
  g_ezctest_config st' = g_ezctest_config st
  /\ g_ezctest_fixtures st' = g_ezctest_fixtures st
  /\ g_ezctest_worker_index st' = g_ezctest_worker_index st.

(** From [st] to [st'] the run started [j] more tests and counted [k]
    more, each as passed or as failed, and the assertion counters grew
    together. *)
Definition counted (j k : Z) (st st' : state) : Prop :=
  let r := g_ezctest_result st in
  let r' := g_ezctest_result st' in
  total_tests r' = (total_tests r + j)%Z
  /\ (passed_tests r' + failed_tests r' = passed_tests r + failed_tests r + k)%Z
  /\ (passed_tests r <= passed_tests r')%Z
  /\ (failed_tests r <= failed_tests r')%Z
  /\ (failed_assertions r <= failed_assertions r')%Z
  /\ (failed_assertions r' - failed_assertions r
      <= total_assertions r' - total_assertions r)%Z.

(** The events of one pass over the registry when every test is run in
    the process itself. *)
Definition pass_events (st : state) (registry : list ezctest_info_t) : list event :=
  flat_map (fun t => test_events (g_ezctest_worker_index st)
                                 (ezctest_find_fixture (suite_name t) st) t)
           (List.filter (selected (g_ezctest_config st)) registry).

(** The line that opens a pass when the run is repeated. *)
Definition iteration_line (cfg : ezctest_config_t) (rep : Z) : list event :=
  if (1 <? repeat cfg)%Z then [LineIteration (rep + 1) (repeat cfg)] else [].

(** The events of [n] passes, the first of which is pass number [rep]. *)
Fixpoint passes_events (st : state) (n : nat) (rep : Z) : list event :=
  match n with
  | O => []
  | S n' =>
      iteration_line (g_ezctest_config st) rep
      ++ pass_events st (g_ezctest_registry st)
      ++ passes_events st n' (rep + 1)%Z
  end.

(** The list without its entry at index [i]. *)
Fixpoint remove_nth {A : Type} (i : nat) (l : list A) : list A :=
  match l, i with
  | [], _ => []
  | _ :: l', O => l'
  | x :: l', S i' => x :: remove_nth i' l'
  end.

(** The body of every selected test of the list ends without a fault. *)
Definition faultless (cfg : ezctest_config_t) (registry : list ezctest_info_t) : Prop :=
  Forall (fun t => selected cfg t = true -> fault_of (executed (test_func t)) = None)
         registry.

(** Every [fork] of the run succeeds. *)
Definition forks_succeed (env : environment) : Prop :=
  forall n, fork_fails env n = false.

(** The number of passes of a run. *)
Definition passes (cfg : ezctest_config_t) : nat := Z.to_nat (repeat cfg).

(** The last line of the summary is not the one that declares success. *)
Definition is_all_passed (e : event) : bool :=
  match e with LineAllPassed _ => true | _ => false end.



(** A run of three tests in the process, the second of which fails a
    non-fatal assertion, repeated twice. *)
Definition repeated_run_state : state :=
  set_config (mk_config None 2 false (-1) false 1)
    (set_registry [mk_info (cs "A") (cs "one") [Expect true] true false;
                   mk_info (cs "A") (cs "two") [Expect false; Action 1] true false;
                   mk_info (cs "B") (cs "three") [Defer 1 10; Assert true] true false]
                  initial_state).

(** A run of two tests under forced isolation, the first of which
    receives signal 11. *)
Definition crashing_run_state : state :=
  set_config (mk_config None 1 false (-1) false 0)
    (set_registry [mk_info (cs "A") (cs "crash") [Action 1; Fault 11; Action 2] true false;
                   mk_info (cs "A") (cs "fine") [Expect true] true false]
                  initial_state).

Definition repeated_run_end : state :=
  final_state (ezctest_run_all_tests_internal quiet_env repeated_run_state).

Definition crashing_test : ezctest_info_t :=
  mk_info (cs "A") (cs "crash") [Defer 1 10; Action 1; Fault 11; Action 2] true false.

(** A registry in which the one selected test faults, run in the
    process. *)
Definition faulting_run_state : state :=
  set_config (mk_config None 1 false (-1) false 1)
    (set_registry [passing_test; crashing_test] initial_state).


(** A body with two failing non-fatal assertions. *)
Definition expecting_test : ezctest_info_t :=
  mk_info (cs "E") (cs "both")
          [Expect false; Action 1; Defer 1 10; Expect false; Assert true; Action 2]
          true false.

Definition is_setup_call (e : event) : bool :=
  match e with CallSetup _ => true | _ => false end.

(** Does the test fail when it is run: by a failed assertion, or by a
    fault? *)
Definition fails (t : ezctest_info_t) : bool :=
  match fault_of (executed (test_func t)) with
  | Some _ => true
  | None => verdict_failed (executed (test_func t))
  end.

Definition failing (cfg : ezctest_config_t) (t : ezctest_info_t) : bool :=
  selected cfg t && fails t.

Definition passing (cfg : ezctest_config_t) (t : ezctest_info_t) : bool :=
  selected cfg t && negb (fails t).

Definition count_of (p : ezctest_info_t -> bool) (l : list ezctest_info_t) : Z :=
  Z.of_nat (length (List.filter p l)).

(** The failure flag set on a test that fails. *)
Definition mark (cfg : ezctest_config_t) (t : ezctest_info_t) : ezctest_info_t :=
  if failing cfg t then with_failed true t else t.

(** The registry entry with the failure flag that a pass leaves on it. *)
Definition flagged (cfg : ezctest_config_t) (t : ezctest_info_t) : ezctest_info_t :=
  with_failed (failing cfg t) t.



(** The order in which the first pass visits the registry: the flags
    are reset, then the registry is shuffled when the configuration asks
    for it. *)
Definition first_pass_order
    (env : environment) (cfg : ezctest_config_t) (registry : list ezctest_info_t)
  : list ezctest_info_t :=
  let r := erase_failed registry in
  if shuffle cfg then shuffle_loop (rand env) (length r - 1) r else r.

(** The lines of the summary that ends a run. *)
Definition is_summary_line (e : event) : bool :=
  match e with
  | LineTotalRan _ | LinePassed _ | LineFailedCount _ | LineFailedListed _ _
  | LineAssertions _ _ _ | LineAssertionsNA | LineAllPassed _ => true
  | _ => false
  end.

(** A run of one pass in the process over three tests, the second of
    which fails a non-fatal assertion. *)
Definition single_run_state : state :=
  set_config (mk_config None 1 false (-1) false 1)
    (set_registry [mk_info (cs "A") (cs "one") [Expect true] true false;
                   mk_info (cs "A") (cs "two") [Expect false; Action 1] true false;
                   mk_info (cs "B") (cs "three") [Defer 1 10; Assert true] true false]
                  initial_state).

Definition single_run_end : state :=
  final_state (ezctest_run_all_tests_internal quiet_env single_run_state).

Definition crashing_run_end : state :=
  final_state (ezctest_run_all_tests_internal isolated_run_env crashing_run_state).

(** * Properties *)

(** ** The wildcard matcher against the glob semantics *)

Section Wildcard.

Lemma skipn_after_app (run rest : cstr) : skipn (length run) (run ++ rest) = rest.
Proof. induction run as [|c run IH]; simpl; auto. Qed.

Lemma glob_nil_iff (s : cstr) : glob_match [] s <-> s = [].
Proof.
  split; intro H.
  - inversion H; reflexivity.
  - subst; constructor.
Qed.

Lemma glob_star_iff (p s : cstr) :
  glob_match ("*" :: p) s <-> exists k, glob_match p (skipn k s).
Proof.
  split.
  - intro H; inversion H; subst.
    + exists (length run). now rewrite skipn_after_app.
    + congruence.
  - intros [k H]. rewrite <- (firstn_skipn k s). now constructor.
Qed.

Lemma glob_char_iff (c : ascii) (p s : cstr) :
  c <> "*" ->
  glob_match (c :: p) s <->
  exists d s', s = d :: s' /\ (c = "?" \/ c = d) /\ glob_match p s'.
Proof.
  intro Hc; split.
  - intro H; inversion H; subst.
    + congruence.
    + eauto 6.
    + eauto 6.
  - intros (d & s' & -> & Hm & H).
    destruct (ascii_dec c "?") as [->|Hq].
    + now constructor.
    + destruct Hm as [?| ->]; [congruence|]. now constructor.
Qed.

Lemma glob_star_absorbs (p s : cstr) (k : nat) :
  glob_match ("*" :: p) (skipn k s) -> glob_match ("*" :: p) s.
Proof.
  rewrite !glob_star_iff. intros [j H]. rewrite skipn_skipn in H. eauto.
Qed.

(** A pattern prefix without a star consumes exactly its length. *)
Lemma glob_starfree_prefix (q r t : cstr) :
  ~ In "*" q -> glob_match (q ++ r) t ->
  length q <= length t /\ glob_match r (skipn (length q) t).
Proof.
  revert t; induction q as [|c q IH]; intros t Hq H; simpl in *.
  - split; [lia | exact H].
  - apply glob_char_iff in H; [|intuition congruence].
    destruct H as (d & t' & -> & _ & H).
    destruct (IH t') as [Hl Hr]; [tauto | exact H |].
    simpl; split; [lia | exact Hr].
Qed.

Lemma glob_empty_string (p : cstr) : glob_match p [] <-> skip_stars p = [].
Proof.
  induction p as [|c p IH]; simpl.
  - split; auto using glob_end.
  - destruct (Ascii.eqb_spec c "*") as [->|Hc].
    + rewrite glob_star_iff, <- IH. split.
      * intros [k H]. now rewrite skipn_nil in H.
      * intro H. exists 0. exact H.
    + split; [|discriminate].
      intro H. apply glob_char_iff in H; [|exact Hc].
      destruct H as (d & s' & E & _). discriminate.
Qed.

Lemma alternatives_shift (star_p star_s : cstr) :
  alternatives (Some (star_p, star_s)) <->
  glob_match (tl star_p) (tl star_s) \/ alternatives (Some (star_p, tl star_s)).
Proof.
  simpl; split.
  - intros (k & Hk & H). destruct k as [|[|k]]; [lia | |].
    + left. destruct star_s; simpl in *; auto.
    + right. exists (S k). split; [lia|].
      destruct star_s; simpl in *; auto.
  - intros [H | (k & Hk & H)].
    + exists 1. split; [lia|]. destruct star_s; simpl in *; auto.
    + exists (S k). split; [lia|]. destruct star_s; simpl in *; auto.
      now rewrite skipn_nil in H.
Qed.

Lemma skipn_cons_next {A : Type} (n : nat) (l : list A) (d : A) (s' : list A) :
  skipn n l = d :: s' -> n < length l /\ skipn (S n) l = s'.
Proof.
  revert l; induction n as [|n IH]; intros [|a l] H; simpl in *; try discriminate.
  - inversion H; subst; split; [lia | reflexivity].
  - destruct (IH l H) as [Hl Hs]. split; [lia|]. exact Hs.
Qed.

Lemma wildcard_step_done (bound : nat) (st : wildcard_state) (b : bool) :
  reachable bound st -> wildcard_step st = inr b -> (b = true <-> pending st).
Proof.
  destruct st as [p s star].
  unfold wildcard_step, wildcard_backtrack, reachable, pending; simpl.
  intros [Hb Hr] Hstep.
  destruct s as [|d s'].
  - inversion Hstep; subst b; clear Hstep.
    assert (Halt : alternatives star -> glob_match p []).
    { destruct star as [[star_p star_s]|]; simpl; [|tauto].
      destruct Hr as (_ & q & -> & Hq & Hlen & Hs).
      intros (k & Hk & H). simpl in H.
      apply glob_starfree_prefix in H; [|exact Hq]. destruct H as [Hl H].
      rewrite length_skipn in Hl.
      apply (f_equal (@length _)) in Hs. rewrite length_skipn in Hs. simpl in Hs.
      assert (Hq0 : length q = 0) by lia.
      assert (Hs0 : length star_s = 0) by lia.
      destruct q; [|discriminate]. destruct star_s; [|discriminate].
      now rewrite skipn_nil in H. }
    pose proof (glob_empty_string p) as Hend.
    destruct (skip_stars p) eqn:E.
    + split; [intros _; left; now apply Hend | reflexivity].
    + split; [discriminate|].
      intros [H|H]; [|apply Halt in H]; apply Hend in H; discriminate.
  - destruct p as [|c p'].
    + destruct star as [[star_p star_s]|]; [discriminate|].
      inversion Hstep; subst b. split; [discriminate|].
      intros [H|[]]. apply glob_nil_iff in H. discriminate.
    + destruct (Ascii.eqb_spec c "*") as [|Hc]; [discriminate|].
      destruct (Ascii.eqb c "?" || Ascii.eqb c d) eqn:E; [discriminate|].
      destruct star as [[star_p star_s]|]; [discriminate|].
      inversion Hstep; subst b. split; [discriminate|].
      intros [H|[]]. apply glob_char_iff in H; [|exact Hc].
      destruct H as (d0 & s0 & Heq & Hm & _). inversion Heq; subst d0 s0.
      apply orb_false_iff in E. destruct E as [E1 E2].
      apply Ascii.eqb_neq in E1, E2. destruct Hm; congruence.
Qed.

Lemma backtrack_next (bound : nat) (p s : cstr) (star : option (cstr * cstr))
    (st' : wildcard_state) :
  s <> [] -> ~ glob_match p s ->
  reachable bound (mk_wildcard_state p s star) ->
  wildcard_backtrack (mk_wildcard_state p s star) = inl st' ->
  reachable bound st' /\
  turns_left bound st' < turns_left bound (mk_wildcard_state p s star) /\
  (pending st' <-> pending (mk_wildcard_state p s star)).
Proof.
  unfold wildcard_backtrack, reachable, pending, turns_left; simpl.
  intros Hs Hno [Hb Hr] Hstep.
  destruct star as [[star_p star_s]|]; [|discriminate].
  inversion Hstep; subst st'; clear Hstep; simpl.
  destruct Hr as (Hbt & q & -> & Hq & Hlen & Hsk). simpl in *.
  assert (Hne : star_s <> []).
  { intros ->. rewrite skipn_nil in Hsk. congruence. }
  destruct star_s as [|a star_s]; [congruence|]. simpl.
  repeat split.
  - exact Hbt.
  - exact Hbt.
  - exists []. simpl. repeat split; auto; lia.
  - nia.
  - intros [H|H]; right; apply (alternatives_shift ("*" :: q ++ p) (a :: star_s)); simpl; auto.
  - intros [H|H]; [tauto|].
    apply (alternatives_shift ("*" :: q ++ p) (a :: star_s)) in H. simpl in H. exact H.
Qed.

Lemma wildcard_step_next (bound : nat) (st st' : wildcard_state) :
  reachable bound st -> wildcard_step st = inl st' ->
  reachable bound st' /\ turns_left bound st' < turns_left bound st /\
  (pending st' <-> pending st).
Proof.
  destruct st as [p s star]. intros Hreach Hstep.
  unfold wildcard_step in Hstep; simpl in Hstep.
  destruct s as [|d s']; [discriminate|].
  destruct p as [|c p'].
  - apply backtrack_next; auto; [discriminate|].
    intro H. apply glob_nil_iff in H. discriminate.
  - destruct (Ascii.eqb_spec c "*") as [->|Hc].
    + (* a star: remember it *)
      inversion Hstep; subst st'; clear Hstep.
      destruct Hreach as [Hb Hr].
      unfold reachable, pending, turns_left; simpl in *.
      repeat split.
      * lia.
      * lia.
      * exists []. simpl. repeat split; auto; lia.
      * destruct star as [[star_p star_s]|].
        -- destruct Hr as (_ & q & _ & _ & _ & Hsk).
           apply (f_equal (@length _)) in Hsk. rewrite length_skipn in Hsk.
           simpl in Hsk. nia.
        -- simpl. nia.
      * intros [H|(k & Hk & H)]; left; apply glob_star_iff; [exists 0 | exists k]; exact H.
      * intros [H|H].
        -- apply glob_star_iff in H. destruct H as [[|k] H]; [left; exact H|].
           right. exists (S k). split; [lia | exact H].
        -- destruct star as [[star_p star_s]|]; [|destruct H].
           destruct Hr as (_ & q & -> & Hq & Hlen & Hsk).
           destruct H as (k & Hk & H). simpl in H.
           apply glob_starfree_prefix in H; [|exact Hq]. destruct H as [_ H].
           rewrite skipn_skipn in H.
           replace (length q + k) with (k + length q) in H by lia.
           rewrite <- skipn_skipn, <- Hsk in H.
           apply glob_star_absorbs in H. apply glob_star_iff in H.
           destruct H as [[|j] H]; [left; exact H|].
           right. exists (S j). split; [lia | exact H].
    + destruct (Ascii.eqb c "?" || Ascii.eqb c d) eqn:E.
      * (* one character matched *)
        inversion Hstep; subst st'; clear Hstep.
        assert (Hm : c = "?" \/ c = d).
        { apply orb_true_iff in E. destruct E as [E|E]; apply Ascii.eqb_eq in E; auto. }
        destruct Hreach as [Hb Hr].
        unfold reachable, pending, turns_left; simpl in *.
        repeat split.
        -- lia.
        -- destruct star as [[star_p star_s]|]; [|exact I].
           destruct Hr as (Hbt & q & -> & Hq & Hlen & Hsk).
           split; [exact Hbt|].
           exists (q ++ [c]). rewrite <- app_assoc. simpl.
           symmetry in Hsk. apply skipn_cons_next in Hsk. destruct Hsk as [Hlt Hsk].
           rewrite length_app. simpl.
           replace (length q + 1) with (S (length q)) by lia.
           split; [reflexivity|]. split; [|split; [lia | now symmetry]].
           rewrite in_app_iff. simpl. intuition congruence.
        -- destruct star as [[star_p star_s]|]; simpl; nia.
        -- intros [H|H]; [left|right; exact H].
           apply glob_char_iff; [exact Hc|]. eauto.
        -- intros [H|H]; [left|right; exact H].
           apply glob_char_iff in H; [|exact Hc].
           destruct H as (d0 & s0 & Heq & _ & H). now inversion Heq; subst.
      * apply backtrack_next; auto; [discriminate|].
        intro H. apply glob_char_iff in H; [|exact Hc].
        destruct H as (d0 & s0 & Heq & Hm & _). inversion Heq; subst d0 s0.
        apply orb_false_iff in E. destruct E as [E1 E2].
        apply Ascii.eqb_neq in E1, E2. destruct Hm; congruence.
Qed.

Lemma wildcard_run_decides (bound fuel : nat) :
  forall st, reachable bound st -> turns_left bound st < fuel ->
  exists b, wildcard_run fuel st = Some b /\ (b = true <-> pending st).
Proof.
  induction fuel as [|fuel IH]; intros st Hreach Hfuel; [lia|].
  simpl. destruct (wildcard_step st) as [st'|b] eqn:Hstep.
  - destruct (wildcard_step_next bound st st' Hreach Hstep) as (Hr' & Hlt & Hp).
    destruct (IH st' Hr') as (b & Hrun & Hb); [lia|].
    exists b. split; [exact Hrun|]. now rewrite Hb.
  - exists b. split; [reflexivity|].
    exact (wildcard_step_done bound st b Hreach Hstep).
Qed.

(** The loop of [ezctest_wildcard_match] ends within [wildcard_fuel]
    turns, and its result is the glob semantics. *)
Lemma wildcard_run_total (pattern str : cstr) :
  wildcard_run (wildcard_fuel pattern str) (wildcard_init pattern str)
  = Some (ezctest_wildcard_match pattern str)
  /\ (ezctest_wildcard_match pattern str = true <-> glob_match pattern str).
Proof.
  destruct (wildcard_run_decides (length pattern) (wildcard_fuel pattern str)
              (wildcard_init pattern str)) as (b & Hrun & Hb).
  - unfold reachable, wildcard_init; simpl. split; [lia | exact I].
  - unfold turns_left, wildcard_fuel, wildcard_init; simpl. lia.
  - unfold ezctest_wildcard_match. rewrite Hrun. split; [reflexivity|].
    rewrite Hb. unfold pending, wildcard_init; simpl. tauto.
Qed.

Lemma wildcard_match_glob (pattern str : cstr) :
  ezctest_wildcard_match pattern str = true <-> glob_match pattern str.
Proof. exact (proj2 (wildcard_run_total pattern str)). Qed.

End Wildcard.

(** ** The filter *)

Section Filter.

Lemma split_on_no_delimiter (d : ascii) (s : cstr) :
  ~ In d s -> split_on d s = [s].
Proof.
  induction s as [|c s IH]; simpl; intro H; [reflexivity|].
  destruct (Ascii.eqb_spec c d) as [->|Hc]; [tauto|].
  rewrite IH by tauto. reflexivity.
Qed.

Lemma strtok_single_token (d : ascii) (s : cstr) :
  s <> [] -> ~ In d s -> strtok_tokens d s = [s].
Proof.
  intros Hne Hd. unfold strtok_tokens. rewrite split_on_no_delimiter by exact Hd.
  destruct s; [congruence | reflexivity].
Qed.

Lemma full_name_fits (suite test : cstr) :
  length suite < EZCTEST_MAX_NAME_LENGTH ->
  length test < EZCTEST_MAX_NAME_LENGTH ->
  full_name suite test = suite ++ "." :: test.
Proof.
  unfold full_name, EZCTEST_MAX_NAME_LENGTH. intros Hs Ht.
  apply firstn_all2. rewrite length_app. simpl. lia.
Qed.

Lemma filter_copy_fits (f : cstr) :
  length f < EZCTEST_MAX_NAME_LENGTH * 4 -> filter_copy f = f.
Proof.
  unfold filter_copy, EZCTEST_MAX_NAME_LENGTH. intro H.
  apply firstn_all2. lia.
Qed.

(** A filter that is one positive pattern asks the wildcard matcher
    about the qualified name. *)
Lemma single_pattern_filter (suite test pattern : cstr) :
  length suite < EZCTEST_MAX_NAME_LENGTH ->
  length test < EZCTEST_MAX_NAME_LENGTH ->
  length pattern < EZCTEST_MAX_NAME_LENGTH * 4 ->
  pattern <> [] -> ~ In ":" pattern -> hd_error pattern <> Some "-" ->
  ezctest_matches_filter suite test (Some pattern)
  = ezctest_wildcard_match pattern (suite ++ "." :: test).
Proof.
  intros Hs Ht Hp Hne Hcolon Hneg.
  destruct pattern as [|c pattern]; [congruence|].
  unfold ezctest_matches_filter.
  rewrite filter_copy_fits, full_name_fits, strtok_single_token by assumption.
  simpl filter_scan.
  destruct (Ascii.eqb_spec c "-") as [->|Hc]; [simpl in Hneg; congruence|].
  now destruct (ezctest_wildcard_match (c :: pattern) (suite ++ "." :: test)).
Qed.

(** The first token whose pattern matches decides: a positive one
    accepts, whatever follows it. *)
Lemma filter_scan_positive_first (token : cstr) (rest : list cstr) (name : cstr) :
  hd_error token <> Some "-" ->
  ezctest_wildcard_match token name = true ->
  filter_scan (token :: rest) name = true.
Proof.
  intros Hneg Hm. simpl. destruct token as [|c body].
  - now rewrite Hm.
  - destruct (Ascii.eqb_spec c "-") as [->|Hc]; [simpl in Hneg; congruence|].
    now rewrite Hm.
Qed.

End Filter.

(** C1. For the filter "Foo.*:-Foo.Slow*" the code accepts Foo.SlowOne:
    the positive token Foo.* is scanned first, matches, and returns 1
    before the negative token is looked at.  Foo.FastOne is accepted and
    Bar.Anything rejected.  (The documented use "*:-*Slow*" meant to
    leave the slow tests out accepts them for the same reason.) *)
Theorem C1_filter_positive_token_wins_first :
  ezctest_matches_filter (cs "Foo") (cs "SlowOne") (Some (cs "Foo.*:-Foo.Slow*")) = true
  /\ ezctest_matches_filter (cs "Foo") (cs "FastOne") (Some (cs "Foo.*:-Foo.Slow*")) = true
  /\ ezctest_matches_filter (cs "Bar") (cs "Anything") (Some (cs "Foo.*:-Foo.Slow*")) = false
  /\ ezctest_matches_filter (cs "Suite") (cs "SlowCase") (Some (cs "*:-*Slow*")) = true
  /\ ezctest_matches_filter (cs "Foo") (cs "SlowOne") (Some (cs "-Foo.Slow*:Foo.*")) = false.
Proof. vm_compute. repeat split. Qed.

(** C2. The wildcard matcher ends and computes the glob semantics for
    every pattern and string; a filter that is a single pattern is
    matched against the qualified name suite.test, and so is every
    token of a longer filter (names within EZCTEST_MAX_NAME_LENGTH, the
    filter within its buffer); an empty or absent filter accepts every
    name. *)
Theorem C2_wildcard_is_glob_on_qualified_name :
  forall pattern str suite test : cstr,
    (wildcard_run (wildcard_fuel pattern str) (wildcard_init pattern str)
     = Some (ezctest_wildcard_match pattern str)
     /\ (ezctest_wildcard_match pattern str = true <-> glob_match pattern str))
    /\ (length suite < EZCTEST_MAX_NAME_LENGTH ->
        length test < EZCTEST_MAX_NAME_LENGTH ->
        length pattern < EZCTEST_MAX_NAME_LENGTH * 4 ->
        pattern <> [] -> ~ In ":" pattern -> hd_error pattern <> Some "-" ->
        (ezctest_matches_filter suite test (Some pattern) = true
         <-> glob_match pattern (suite ++ "." :: test)))
    /\ (length suite < EZCTEST_MAX_NAME_LENGTH ->
        length test < EZCTEST_MAX_NAME_LENGTH ->
        length pattern < EZCTEST_MAX_NAME_LENGTH * 4 ->
        pattern <> [] ->
        ezctest_matches_filter suite test (Some pattern)
        = filter_scan (strtok_tokens ":" pattern) (suite ++ "." :: test))
    /\ ezctest_matches_filter suite test (Some []) = true
    /\ ezctest_matches_filter suite test None = true.
Proof.
  intros pattern str suite test. split; [apply wildcard_run_total|].
  split; [|split; [|split; reflexivity]].
  - intros Hs Ht Hp Hne Hcolon Hneg.
    rewrite single_pattern_filter by assumption.
    apply wildcard_match_glob.
  - intros Hs Ht Hp Hne. destruct pattern as [|c pattern]; [congruence|].
    unfold ezctest_matches_filter.
    now rewrite filter_copy_fits, full_name_fits by assumption.
Qed.

Lemma C2_witness :
  ezctest_matches_filter (cs "Foo") (cs "FastOne") (Some (cs "F?o.*One")) = true
  <-> glob_match (cs "F?o.*One") (cs "Foo" ++ "." :: cs "FastOne").
Proof.
  apply (proj1 (proj2 (C2_wildcard_is_glob_on_qualified_name
                         (cs "F?o.*One") (cs "Foo.FastOne") (cs "Foo") (cs "FastOne")))).
  - vm_compute; lia.
  - vm_compute; lia.
  - vm_compute; lia.
  - discriminate.
  - vm_compute. intuition discriminate.
  - discriminate.
Defined.

(** ** The isolation decision *)

Lemma count_enabled_selected (cfg : ezctest_config_t) (tests : list ezctest_info_t) :
  count_enabled cfg tests = Z.of_nat (length (List.filter (selected cfg) tests)).
Proof.
  induction tests as [|t tests IH]; [reflexivity|].
  cbn [count_enabled List.filter]. unfold selected at 1.
  destruct (enabled t && ezctest_matches_filter (suite_name t) (test_name t) (filter cfg));
    cbn [length]; rewrite IH; lia.
Qed.

Lemma under_debugger_tracer (env : environment) :
  ezctest_under_debugger env = true
  <-> exists pid, tracer_pid env = Some pid /\ pid <> 0%Z.
Proof.
  unfold ezctest_under_debugger. destruct (tracer_pid env) as [pid|].
  - rewrite negb_true_iff, Z.eqb_neq. split; [eauto|].
    intros (pid' & E & H). now inversion E; subst.
  - split; [discriminate|]. intros (pid & E & _). discriminate.
Qed.

(** C5. An explicit setting is obeyed: no_exec = 0 turns isolation on,
    any other explicit value turns it off.  In automatic mode (-1)
    isolation is on exactly when more than one enabled test matches the
    filter and no debugger is attached. *)
Theorem C5_isolation_decision :
  forall (env : environment) (cfg : ezctest_config_t) (tests : list ezctest_info_t),
    let matching := List.filter (selected cfg) tests in
    let on := use_process_isolation env cfg (count_enabled cfg tests) in
    (no_exec cfg = 0%Z -> on = true)
    /\ (no_exec cfg <> 0%Z -> no_exec cfg <> (-1)%Z -> on = false)
    /\ (no_exec cfg = (-1)%Z ->
        (on = true <-> 1 < length matching /\ ezctest_under_debugger env = false))
    /\ (no_exec cfg = (-1)%Z -> length matching <= 1 -> on = false)
    /\ (no_exec cfg = (-1)%Z -> ezctest_under_debugger env = true -> on = false).
Proof.
  intros env cfg tests matching on. subst on.
  rewrite count_enabled_selected. fold matching.
  unfold use_process_isolation.
  destruct (Z.leb_spec (Z.of_nat (length matching)) 1) as [Hle|Hgt];
    destruct (ezctest_under_debugger env);
    destruct (Z.eqb_spec (no_exec cfg) (-1)) as [E1|E1];
    destruct (Z.eqb_spec (no_exec cfg) 0) as [E0|E0];
    simpl; repeat split; intros; try reflexivity; try congruence; try lia;
    try (exfalso; lia).
Qed.

Lemma C5_witness :
  use_process_isolation quiet_env automatic_config
    (count_enabled automatic_config two_tests) = true
  <-> 1 < length (List.filter (selected automatic_config) two_tests)
      /\ ezctest_under_debugger quiet_env = false.
Proof.
  apply (proj1 (proj2 (proj2 (C5_isolation_decision quiet_env automatic_config two_tests)))).
  reflexivity.
Defined.

(** ** The fixture table *)

Section Fixtures.

Lemma strcmp_eq_true (a b : cstr) : strcmp_eq a b = true <-> a = b.
Proof.
  unfold strcmp_eq. destruct (list_eq_dec ascii_dec a b); split; congruence.
Qed.

Lemma bindings_for_absent (suite : cstr) (fixtures : list ezctest_fixture_t) :
  bindings_for suite fixtures = [] <-> ~ In suite (fixture_names fixtures).
Proof.
  induction fixtures as [|fx rest IH]; simpl; [tauto|].
  destruct (strcmp_eq (fixture_suite_name fx) suite) eqn:E.
  - apply strcmp_eq_true in E. split; [discriminate | tauto].
  - assert (fixture_suite_name fx <> suite).
    { intro H. apply strcmp_eq_true in H. congruence. }
    tauto.
Qed.

Lemma update_fixture_absent (fixtures : list ezctest_fixture_t) (suite : cstr)
    (assign : ezctest_fixture_t -> ezctest_fixture_t) :
  update_fixture fixtures suite assign = None <-> bindings_for suite fixtures = [].
Proof.
  induction fixtures as [|fx rest IH]; simpl; [tauto|].
  destruct (strcmp_eq (fixture_suite_name fx) suite); [split; discriminate|].
  destruct (update_fixture rest suite assign); [|tauto].
  split; [discriminate|]. intro H. apply IH in H. discriminate.
Qed.

Lemma update_fixture_present (fixtures fixtures' : list ezctest_fixture_t)
    (suite : cstr) (assign : ezctest_fixture_t -> ezctest_fixture_t) :
  (forall fx, fixture_suite_name (assign fx) = fixture_suite_name fx) ->
  NoDup (fixture_names fixtures) ->
  update_fixture fixtures suite assign = Some fixtures' ->
  fixture_names fixtures' = fixture_names fixtures
  /\ exists old, bindings_for suite fixtures = [old]
                 /\ bindings_for suite fixtures' = [assign old].
Proof.
  intros Hname. revert fixtures'.
  induction fixtures as [|fx rest IH]; simpl; intros fixtures' Hnd Hupd; [discriminate|].
  inversion Hnd as [|? ? Hnotin Hnd']; subst.
  destruct (strcmp_eq (fixture_suite_name fx) suite) eqn:E.
  - inversion Hupd; subst fixtures'; clear Hupd. simpl.
    rewrite Hname, E. apply strcmp_eq_true in E. subst suite.
    apply bindings_for_absent in Hnotin. rewrite Hnotin. eauto.
  - destruct (update_fixture rest suite assign) as [rest'|] eqn:Hrest; [|discriminate].
    inversion Hupd; subst fixtures'; clear Hupd. simpl. rewrite E.
    destruct (IH rest' Hnd' eq_refl) as (Hn & old & H1 & H2).
    split; [now rewrite Hn | eauto].
Qed.

Lemma registered_binding (fixtures fixtures' : list ezctest_fixture_t) (suite : cstr)
    (assign : ezctest_fixture_t -> ezctest_fixture_t) (fresh : ezctest_fixture_t) :
  (forall fx, fixture_suite_name (assign fx) = fixture_suite_name fx) ->
  fixture_suite_name fresh = suite ->
  NoDup (fixture_names fixtures) ->
  registered fixtures suite assign fresh = Some fixtures' ->
  NoDup (fixture_names fixtures')
  /\ ((bindings_for suite fixtures = [] /\ bindings_for suite fixtures' = [fresh])
      \/ exists old, bindings_for suite fixtures = [old]
                     /\ bindings_for suite fixtures' = [assign old]).
Proof.
  intros Hname Hfresh Hnd. unfold registered.
  destruct (update_fixture fixtures suite assign) as [fs|] eqn:Hupd.
  - intro H; inversion H; subst fs; clear H.
    destruct (update_fixture_present _ _ _ _ Hname Hnd Hupd) as (Hn & old & H1 & H2).
    split; [now rewrite Hn | eauto].
  - destruct (EZCTEST_MAX_FIXTURES <=? length fixtures)%nat; [discriminate|].
    intro H; inversion H; subst fixtures'; clear H.
    apply update_fixture_absent in Hupd.
    split.
    + unfold fixture_names. rewrite map_app. simpl. rewrite Hfresh.
      apply NoDup_app; [exact Hnd | repeat constructor; simpl; tauto |].
      intros n Hin [<-|[]]. now apply bindings_for_absent in Hupd.
    + left. split; [exact Hupd|].
      unfold bindings_for in *. rewrite filter_app, Hupd. simpl.
      rewrite Hfresh. now rewrite (proj2 (strcmp_eq_true suite suite) eq_refl).
Qed.

Lemma register_setup_registered (suite : cstr) (f : func) (st : state) :
  match registered (g_ezctest_fixtures st) suite (with_setup f)
                   (mk_fixture suite (Some f) None) with
  | Some fixtures' =>
      fst (ezctest_register_setup suite f st) = true
      /\ g_ezctest_fixtures (snd (ezctest_register_setup suite f st)) = fixtures'
  | None =>
      fst (ezctest_register_setup suite f st) = false
      /\ g_ezctest_fixtures (snd (ezctest_register_setup suite f st)) = g_ezctest_fixtures st
  end.
Proof.
  unfold registered, ezctest_register_setup.
  destruct (update_fixture (g_ezctest_fixtures st) suite (with_setup f)); [simpl; auto|].
  destruct (EZCTEST_MAX_FIXTURES <=? length (g_ezctest_fixtures st))%nat; simpl; auto.
Qed.

Lemma register_teardown_registered (suite : cstr) (f : func) (st : state) :
  match registered (g_ezctest_fixtures st) suite (with_teardown f)
                   (mk_fixture suite None (Some f)) with
  | Some fixtures' =>
      fst (ezctest_register_teardown suite f st) = true
      /\ g_ezctest_fixtures (snd (ezctest_register_teardown suite f st)) = fixtures'
  | None =>
      fst (ezctest_register_teardown suite f st) = false
      /\ g_ezctest_fixtures (snd (ezctest_register_teardown suite f st)) = g_ezctest_fixtures st
  end.
Proof.
  unfold registered, ezctest_register_teardown.
  destruct (update_fixture (g_ezctest_fixtures st) suite (with_teardown f)); [simpl; auto|].
  destruct (EZCTEST_MAX_FIXTURES <=? length (g_ezctest_fixtures st))%nat; simpl; auto.
Qed.

Lemma binding_name (suite : cstr) (fixtures : list ezctest_fixture_t)
    (fx : ezctest_fixture_t) :
  bindings_for suite fixtures = [fx] -> fixture_suite_name fx = suite.
Proof.
  intro H. assert (Hin : In fx (bindings_for suite fixtures)) by (rewrite H; now left).
  apply filter_In in Hin. now apply strcmp_eq_true.
Qed.

Lemma register_fixture_nodup (r : registration) (st : state) :
  NoDup (fixture_names (g_ezctest_fixtures st)) ->
  NoDup (fixture_names (g_ezctest_fixtures (snd (register_fixture r st)))).
Proof.
  intro Hnd. destruct r as [suite f|suite f]; simpl.
  - pose proof (register_setup_registered suite f st) as H.
    destruct (registered _ _ _ _) as [fs|] eqn:E; destruct H as [_ ->]; [|exact Hnd].
    now apply registered_binding in E.
  - pose proof (register_teardown_registered suite f st) as H.
    destruct (registered _ _ _ _) as [fs|] eqn:E; destruct H as [_ ->]; [|exact Hnd].
    now apply registered_binding in E.
Qed.

Lemma register_fixtures_nodup (history : list registration) (st : state) :
  NoDup (fixture_names (g_ezctest_fixtures st)) ->
  NoDup (fixture_names (g_ezctest_fixtures (register_fixtures history st))).
Proof.
  revert st. induction history as [|r history IH]; intros st Hnd; simpl; [exact Hnd|].
  apply IH. now apply register_fixture_nodup.
Qed.

(** Two registrations for the same suite, the first of which succeeds:
    the second succeeds too and the suite has the one binding that both
    assignments made. *)
Lemma registered_twice (fs0 fs1 : list ezctest_fixture_t) (suite : cstr)
    (assign1 assign2 : ezctest_fixture_t -> ezctest_fixture_t)
    (fresh1 fresh2 : ezctest_fixture_t) :
  (forall fx, fixture_suite_name (assign1 fx) = fixture_suite_name fx) ->
  (forall fx, fixture_suite_name (assign2 fx) = fixture_suite_name fx) ->
  fixture_suite_name fresh1 = suite ->
  fixture_suite_name fresh2 = suite ->
  NoDup (fixture_names fs0) ->
  registered fs0 suite assign1 fresh1 = Some fs1 ->
  exists fs2 fx,
    registered fs1 suite assign2 fresh2 = Some fs2
    /\ NoDup (fixture_names fs2)
    /\ bindings_for suite fs2 = [assign2 fx]
    /\ (fx = fresh1 \/ exists old, fixture_suite_name old = suite /\ fx = assign1 old).
Proof.
  intros Hn1 Hn2 Hf1 Hf2 Hnd Hreg1.
  destruct (registered_binding _ _ _ _ _ Hn1 Hf1 Hnd Hreg1) as [Hnd1 Hb1].
  assert (Hfx : exists fx, bindings_for suite fs1 = [fx]
                 /\ (fx = fresh1 \/ exists old, fixture_suite_name old = suite
                                              /\ fx = assign1 old)).
  { destruct Hb1 as [[_ H]|(old & Ho & H)]; [eauto|].
    exists (assign1 old). split; [exact H|]. right. exists old.
    split; [now apply binding_name in Ho | reflexivity]. }
  destruct Hfx as (fx & Hb & Hshape).
  destruct (registered fs1 suite assign2 fresh2) as [fs2|] eqn:Hreg2.
  - exists fs2, fx. split; [reflexivity|].
    destruct (registered_binding _ _ _ _ _ Hn2 Hf2 Hnd1 Hreg2) as [Hnd2 Hb2].
    split; [exact Hnd2|]. split; [|exact Hshape].
    destruct Hb2 as [[H _]|(old & Ho & H)]; [congruence|].
    rewrite Hb in Ho. now inversion Ho; subst.
  - unfold registered in Hreg2.
    destruct (update_fixture fs1 suite assign2) eqn:Hupd; [discriminate|].
    apply update_fixture_absent in Hupd. congruence.
Qed.

End Fixtures.

(** C9. In a table built by registration calls no two bindings share a
    suite name.  When a setup registration for a suite succeeds, the
    teardown registration that follows it succeeds as well and leaves
    exactly one binding for the suite, with the setup and the teardown
    both set; the same holds with the two calls in the other order. *)
Theorem C9_one_binding_with_both_callbacks :
  forall (history : list registration) (suite : cstr) (f g : func),
    let st0 := register_fixtures history initial_state in
    NoDup (fixture_names (g_ezctest_fixtures st0))
    /\ (fst (ezctest_register_setup suite f st0) = true ->
        let st1 := snd (ezctest_register_setup suite f st0) in
        let st2 := snd (ezctest_register_teardown suite g st1) in
        fst (ezctest_register_teardown suite g st1) = true
        /\ bindings_for suite (g_ezctest_fixtures st2)
           = [mk_fixture suite (Some f) (Some g)]
        /\ NoDup (fixture_names (g_ezctest_fixtures st2)))
    /\ (fst (ezctest_register_teardown suite g st0) = true ->
        let st1 := snd (ezctest_register_teardown suite g st0) in
        let st2 := snd (ezctest_register_setup suite f st1) in
        fst (ezctest_register_setup suite f st1) = true
        /\ bindings_for suite (g_ezctest_fixtures st2)
           = [mk_fixture suite (Some f) (Some g)]
        /\ NoDup (fixture_names (g_ezctest_fixtures st2))).
Proof.
  intros history suite f g st0.
  assert (Hnd : NoDup (fixture_names (g_ezctest_fixtures st0))).
  { apply register_fixtures_nodup. constructor. }
  split; [exact Hnd|]. split.
  - intros Hok st1 st2.
    pose proof (register_setup_registered suite f st0) as H1.
    destruct (registered _ _ _ _) as [fs1|] eqn:E1; [|destruct H1; congruence].
    destruct H1 as [_ H1]. fold st1 in H1.
    destruct (registered_twice _ _ suite (with_setup f) (with_teardown g)
                (mk_fixture suite (Some f) None) (mk_fixture suite None (Some g))
                (fun _ => eq_refl) (fun _ => eq_refl) eq_refl eq_refl Hnd E1)
      as (fs2 & fx & E2 & Hnd2 & Hb & Hshape).
    pose proof (register_teardown_registered suite g st1) as H2.
    rewrite H1, E2 in H2. destruct H2 as [Hok2 H2]. fold st2 in H2.
    rewrite H2. split; [exact Hok2|]. split; [|exact Hnd2].
    rewrite Hb. destruct Hshape as [->|(old & <- & ->)]; reflexivity.
  - intros Hok st1 st2.
    pose proof (register_teardown_registered suite g st0) as H1.
    destruct (registered _ _ _ _) as [fs1|] eqn:E1; [|destruct H1; congruence].
    destruct H1 as [_ H1]. fold st1 in H1.
    destruct (registered_twice _ _ suite (with_teardown g) (with_setup f)
                (mk_fixture suite None (Some g)) (mk_fixture suite (Some f) None)
                (fun _ => eq_refl) (fun _ => eq_refl) eq_refl eq_refl Hnd E1)
      as (fs2 & fx & E2 & Hnd2 & Hb & Hshape).
    pose proof (register_setup_registered suite f st1) as H2.
    rewrite H1, E2 in H2. destruct H2 as [Hok2 H2]. fold st2 in H2.
    rewrite H2. split; [exact Hok2|]. split; [|exact Hnd2].
    rewrite Hb. destruct Hshape as [->|(old & <- & ->)]; reflexivity.
Qed.

Lemma C9_witness :
  fst (ezctest_register_teardown (cs "Cache") 4
         (snd (ezctest_register_setup (cs "Cache") 3
                 (register_fixtures fixture_history initial_state)))) = true
  /\ bindings_for (cs "Cache")
       (g_ezctest_fixtures
          (snd (ezctest_register_teardown (cs "Cache") 4
                  (snd (ezctest_register_setup (cs "Cache") 3
                          (register_fixtures fixture_history initial_state))))))
     = [mk_fixture (cs "Cache") (Some 3) (Some 4)]
  /\ NoDup (fixture_names
              (g_ezctest_fixtures
                 (snd (ezctest_register_teardown (cs "Cache") 4
                         (snd (ezctest_register_setup (cs "Cache") 3
                                 (register_fixtures fixture_history initial_state))))))).
Proof.
  apply (proj1 (proj2 (C9_one_binding_with_both_callbacks fixture_history (cs "Cache") 3 4))).
  reflexivity.
Defined.

(** ** What a test body does *)

Section Body.

Lemma body_effect_nil (st : state) : body_effect [] st st.
Proof.
  unfold body_effect, same_globals, checks, failures, fatal; simpl.
  rewrite !app_nil_r, !orb_false_r, !Z.add_0_r. tauto.
Qed.

Lemma body_trace_cons (n : nat) (s : stmt) (ex : list stmt) :
  body_trace n (s :: ex)
  = body_trace n [s] ++ body_trace (n + length (pushed n [s])) ex.
Proof.
  destruct s as [[|]|[|]|f d|tag|sig]; cbn [body_trace pushed length app];
    rewrite ?Nat.add_0_r; try reflexivity.
  destruct (EZCTEST_MAX_DEFER_CALLBACKS <=? n)%nat; cbn [length app];
    rewrite ?Nat.add_0_r, ?Nat.add_1_r; reflexivity.
Qed.

Lemma pushed_cons (n : nat) (s : stmt) (ex : list stmt) :
  pushed n (s :: ex) = pushed n [s] ++ pushed (n + length (pushed n [s])) ex.
Proof.
  destruct s as [[|]|[|]|f d|tag|sig]; cbn [body_trace pushed length app];
    rewrite ?Nat.add_0_r; try reflexivity.
  destruct (EZCTEST_MAX_DEFER_CALLBACKS <=? n)%nat; cbn [length app];
    rewrite ?Nat.add_0_r, ?Nat.add_1_r; reflexivity.
Qed.

Lemma checks_cons (s : stmt) (ex : list stmt) :
  checks (s :: ex) = (checks [s] + checks ex)%Z.
Proof. unfold checks; simpl. destruct (is_check s); simpl length; lia. Qed.

Lemma failures_cons (s : stmt) (ex : list stmt) :
  failures (s :: ex) = (failures [s] + failures ex)%Z.
Proof. unfold failures; simpl. destruct (is_failure s); simpl length; lia. Qed.

Lemma failures_nonneg (ex : list stmt) : (0 <= failures ex)%Z.
Proof. unfold failures; lia. Qed.

Lemma fatal_cons (s : stmt) (ex : list stmt) :
  fatal (s :: ex) = fatal [s] || fatal ex.
Proof. unfold fatal; simpl. now rewrite orb_false_r. Qed.

Lemma some_failure_cons (s : stmt) (ex : list stmt) :
  (0 <? failures (s :: ex))%Z = (0 <? failures [s])%Z || (0 <? failures ex)%Z.
Proof.
  rewrite failures_cons.
  pose proof (failures_nonneg [s]). pose proof (failures_nonneg ex).
  destruct (Z.ltb_spec 0 (failures [s])), (Z.ltb_spec 0 (failures ex)); simpl;
    [apply Z.ltb_lt | apply Z.ltb_lt | apply Z.ltb_lt | apply Z.ltb_ge]; lia.
Qed.

(** The effect of a statement followed by the effect of the rest. *)
Lemma body_effect_step (s : stmt) (ex : list stmt) (st st1 st' : state) :
  body_effect [s] st st1 -> body_effect ex st1 st' -> body_effect (s :: ex) st st'.
Proof.
  unfold body_effect, same_globals.
  intros ((G1 & G2 & G3 & G4 & G5) & Hj & Ho & Hs & Hf & Ha & Ht & Hp & Hx & Hc & Hn)
         ((G1' & G2' & G3' & G4' & G5') & Hj' & Ho' & Hs' & Hf' & Ha' & Ht' & Hp' & Hx'
          & Hc' & Hn').
  assert (Hlen : length (g_ezctest_defer_stack st1)
                 = length (g_ezctest_defer_stack st)
                   + length (pushed (length (g_ezctest_defer_stack st)) [s])).
  { rewrite Hs, length_app, length_map. reflexivity. }
  rewrite Hlen in Ho', Hs'.
  repeat split; try congruence.
  - rewrite Ho', Ho, (body_trace_cons _ s ex), app_assoc. reflexivity.
  - rewrite Hs', Hs, (pushed_cons _ s ex), map_app, app_assoc. reflexivity.
  - rewrite Hf', Hf, (fatal_cons s ex), orb_assoc. reflexivity.
  - rewrite Ha', Ha, (some_failure_cons s ex), orb_assoc. reflexivity.
  - rewrite Hc', Hc, (checks_cons s ex). lia.
  - rewrite Hn', Hn, (failures_cons s ex). lia.
Qed.

Lemma body_effect_expect (cond : bool) (st : state) :
  body_effect [Expect cond] st
    (if cond then ezctest_assertion_passed st else ezctest_assertion_failed false st).
Proof.
  unfold body_effect, same_globals, checks, failures, fatal.
  destruct cond; simpl; rewrite ?app_nil_r, ?orb_false_r, ?orb_true_r, ?Z.add_0_r;
    repeat split; reflexivity.
Qed.

Lemma body_effect_assert (cond : bool) (st : state) :
  body_effect [Assert cond] st
    (if cond then ezctest_assertion_passed st else ezctest_assertion_failed true st).
Proof.
  unfold body_effect, same_globals, checks, failures, fatal.
  destruct cond; simpl; rewrite ?app_nil_r, ?orb_false_r, ?orb_true_r, ?Z.add_0_r;
    repeat split; reflexivity.
Qed.

Lemma body_effect_defer (f : func) (d : data) (st : state) :
  body_effect [Defer f d] st
    (let (ok, st1) := ezctest_defer_add (Some f) d st in
     if ok then st1 else emit LineDeferFull st1).
Proof.
  unfold body_effect, same_globals, checks, failures, fatal, ezctest_defer_add.
  cbn [pushed body_trace].
  destruct (EZCTEST_MAX_DEFER_CALLBACKS <=? length (g_ezctest_defer_stack st))%nat;
    simpl; rewrite ?app_nil_r, ?orb_false_r, ?Z.add_0_r, <- ?app_assoc;
    repeat split; reflexivity.
Qed.

Lemma body_effect_action (tag : nat) (st : state) :
  body_effect [Action tag] st (emit (Ran tag) st).
Proof.
  unfold body_effect, same_globals, checks, failures, fatal.
  simpl; rewrite ?app_nil_r, ?orb_false_r, ?Z.add_0_r; repeat split; reflexivity.
Qed.

Lemma body_effect_fault (sig : nat) (st : state) : body_effect [Fault sig] st st.
Proof.
  unfold body_effect, same_globals, checks, failures, fatal.
  simpl; rewrite ?app_nil_r, ?orb_false_r, ?Z.add_0_r; repeat split; reflexivity.
Qed.

(** [run_body] in one equation: with the resumption point armed, the
    body ends as its executed statements say, in a state that shows
    their effect and nothing else. *)
Lemma run_body_effect (body : list stmt) :
  forall st, has_jumped st = true ->
    run_body body st = body_outcome (executed body) (final_state (run_body body st))
    /\ body_effect (executed body) st (final_state (run_body body st)).
Proof.
  induction body as [|s body IH]; intros st Hj.
  - split; [reflexivity | apply body_effect_nil].
  - destruct s as [cond|cond|f d|tag|sig].
    + cbn [run_body executed aborts].
      set (st1 := if cond then _ else _).
      pose proof (body_effect_expect cond st) as H1. fold st1 in H1.
      destruct (IH st1) as [He Hb].
      { destruct H1 as (_ & -> & _). exact Hj. }
      split.
      * rewrite He at 1. unfold body_outcome. cbn [fault_of].
        rewrite fatal_cons. destruct cond; reflexivity.
      * eapply body_effect_step; eassumption.
    + destruct cond.
      * cbn [run_body executed aborts].
        pose proof (body_effect_assert true st) as H1. cbn iota in H1.
        destruct (IH (ezctest_assertion_passed st)) as [He Hb].
        { destruct H1 as (_ & -> & _). exact Hj. }
        split.
        -- rewrite He at 1. unfold body_outcome. cbn [fault_of].
           rewrite fatal_cons. reflexivity.
        -- eapply body_effect_step; eassumption.
      * cbn [run_body executed aborts].
        pose proof (body_effect_assert false st) as H1. cbn iota in H1.
        assert (Hj1 : has_jumped (ezctest_assertion_failed true st) = true).
        { destruct H1 as (_ & -> & _). exact Hj. }
        cbv zeta. rewrite Hj1. cbn [final_state]. split; [reflexivity | exact H1].
    + cbn [run_body executed aborts].
      pose proof (body_effect_defer f d st) as H1.
      destruct (ezctest_defer_add (Some f) d st) as [ok st0].
      set (st1 := if ok then _ else _) in *.
      destruct (IH st1) as [He Hb].
      { destruct H1 as (_ & -> & _). exact Hj. }
      split.
      * rewrite He at 1. unfold body_outcome. cbn [fault_of].
        rewrite fatal_cons. reflexivity.
      * eapply body_effect_step; eassumption.
    + cbn [run_body executed aborts].
      pose proof (body_effect_action tag st) as H1.
      destruct (IH (emit (Ran tag) st)) as [He Hb].
      { destruct H1 as (_ & -> & _). exact Hj. }
      split.
      * rewrite He at 1. unfold body_outcome. cbn [fault_of].
        rewrite fatal_cons. reflexivity.
      * eapply body_effect_step; eassumption.
    + cbn [run_body executed aborts final_state].
      split; [reflexivity | apply body_effect_fault].
Qed.

End Body.

(** ** What the run of one test does *)

Section RunTest.

Lemma emits_nil (st : state) : emits [] st = st.
Proof. destruct st; unfold emits, set_output; simpl. now rewrite app_nil_r. Qed.

Lemma emits_emits (l1 l2 : list event) (st : state) :
  emits l2 (emits l1 st) = emits (l1 ++ l2) st.
Proof. unfold emits, set_output; simpl. now rewrite app_assoc. Qed.

Lemma call_setup_emits (fixture : option ezctest_fixture_t) (st : state) :
  call_setup fixture st = emits (setup_call fixture) st.
Proof.
  destruct fixture as [[n [s|] t]|]; simpl; try reflexivity; symmetry; apply emits_nil.
Qed.

Lemma call_teardown_emits (fixture : option ezctest_fixture_t) (st : state) :
  call_teardown fixture st = emits (teardown_call fixture) st.
Proof.
  destruct fixture as [[n s [t|]]|]; simpl; try reflexivity; symmetry; apply emits_nil.
Qed.

Lemma defer_execute_loop_emits (entries : list (func * data)) (st : state) :
  defer_execute_loop (map stack_entry entries) st = emits (cleanup_calls entries) st.
Proof.
  revert st. induction entries as [|[f d] entries IH]; intro st; simpl.
  - symmetry; apply emits_nil.
  - rewrite IH. apply (emits_emits [CallCleanup f d]).
Qed.

(** [ezctest_run_test] in one statement: the process dies exactly when
    the body reaches a faulting statement; otherwise the run comes back
    and has the effect [test_effect]. *)
Lemma run_test_effect (t : ezctest_info_t) (st : state) :
  let ex := executed (test_func t) in
  let st' := final_state (ezctest_run_test t st) in
  match fault_of ex with
  | Some sig =>
      ezctest_run_test t st = Died sig st'
      /\ output st'
         = output st
           ++ fault_events (g_ezctest_worker_index st)
                           (ezctest_find_fixture (suite_name t) st) t
  | None =>
      ezctest_run_test t st = Alive tt st' /\ test_effect t st st'
  end.
Proof.
  intros ex st'. subst st'. unfold ezctest_run_test, ezctest_run_test_with_exception_guard.
  set (fx := ezctest_find_fixture (suite_name t) _).
  assert (Hfx : fx = ezctest_find_fixture (suite_name t) st).
  { subst fx. unfold ezctest_find_fixture.
    destruct (0 <=? g_ezctest_worker_index st)%Z; reflexivity. }
  set (st_b := call_setup fx _).
  assert (Hj : has_jumped st_b = true).
  { subst st_b. rewrite call_setup_emits. reflexivity. }
  destruct (run_body_effect (test_func t) st_b Hj) as [He Hb].
  fold ex in He, Hb.
  set (st2 := final_state (run_body (test_func t) st_b)) in *.
  rewrite He. clear He. unfold body_outcome.
  assert (Hb0 : g_ezctest_defer_stack st_b = []).
  { subst st_b. rewrite call_setup_emits.
    destruct (0 <=? g_ezctest_worker_index st)%Z; reflexivity. }
  assert (Hob : output st_b
                = output st ++ run_line (g_ezctest_worker_index st) t ++ setup_call fx).
  { subst st_b. rewrite call_setup_emits. unfold run_line. simpl.
    destruct (0 <=? g_ezctest_worker_index st)%Z; simpl;
      rewrite <- ?app_assoc; reflexivity. }
  destruct Hb as ((G1 & G2 & G3 & G4 & G5) & Hj2 & Ho & Hs & Hf & Ha & Ht & Hp & Hx
                  & Hc & Hn).
  rewrite Hb0 in Ho, Hs. simpl in Ho, Hs. rewrite Hob in Ho.
  destruct (fault_of ex) as [sig|].
  - simpl. split; [reflexivity|].
    rewrite Ho, <- Hfx. unfold fault_events. fold ex. now rewrite <- !app_assoc.
  - cbn [bind].
    assert (Hgb : g_ezctest_registry st_b = g_ezctest_registry st
                  /\ g_ezctest_config st_b = g_ezctest_config st
                  /\ g_ezctest_fixtures st_b = g_ezctest_fixtures st
                  /\ g_ezctest_worker_index st_b = g_ezctest_worker_index st
                  /\ forks st_b = forks st
                  /\ g_ezctest_result st_b = g_ezctest_result st
                  /\ g_ezctest_current_failed st_b = false
                  /\ g_ezctest_current_assertion_failed st_b = false).
    { subst st_b. rewrite call_setup_emits.
      destruct (0 <=? g_ezctest_worker_index st)%Z; simpl; tauto. }
    destruct Hgb as (B1 & B2 & B3 & B4 & B5 & B6 & B7 & B8).
    rewrite B1 in G1. rewrite B2 in G2. rewrite B3 in G3. rewrite B4 in G4.
    rewrite B5 in G5. rewrite B6 in Ht, Hp, Hx, Hc, Hn. rewrite B7 in Hf.
    rewrite B8 in Ha. simpl in Hf, Ha.
    clearbody st2. clear Hj Hb0 Hob B1 B2 B3 B4 B5 B6 B7 B8 Hj2. clearbody fx. subst fx.
    unfold test_effect, same_globals, test_events, verdict_failed. fold ex.
    destruct (fatal ex) eqn:Efatal; cbn [bind]; cbv zeta;
      unfold ezctest_defer_execute; cbn [g_ezctest_defer_stack set_has_jumped];
      rewrite Hs, <- map_rev, defer_execute_loop_emits, call_teardown_emits;
      unfold current_test_failed, ezctest_defer_clear; simpl;
      rewrite ?Hf, ?Ha; simpl;
      destruct (0 <? failures ex)%Z eqn:Efail; cbn [final_state];
      (split; [reflexivity|]); simpl;
      rewrite ?Hf, ?Ha, ?Ht, ?Hp, ?Hx, ?Hc, ?Hn, ?Ho, ?G1, ?G2, ?G3, ?G4, ?G5,
        <- ?app_assoc;
      simpl; rewrite ?Z.add_0_r;
      repeat split; reflexivity.
Qed.

End RunTest.

(** ** Fatal assertions and the cleanup stack *)

Section Cleanup.

Lemma executed_abort_free (body : list stmt) :
  Forall (fun s => aborts s = false) body -> executed body = body.
Proof.
  induction 1 as [|s body Hs _ IH]; simpl; [reflexivity|]. now rewrite Hs, IH.
Qed.

Lemma executed_until_fatal (pre post : list stmt) :
  Forall (fun s => aborts s = false) pre ->
  executed (pre ++ Assert false :: post) = pre ++ [Assert false].
Proof.
  induction 1 as [|s pre Hs _ IH]; simpl; [reflexivity|]. now rewrite Hs, IH.
Qed.

Lemma fault_of_abort_free (pre : list stmt) (last : list stmt) :
  Forall (fun s => aborts s = false) pre ->
  fault_of (pre ++ last) = fault_of last.
Proof.
  induction 1 as [|s pre Hs _ IH]; simpl; [reflexivity|].
  destruct s; try exact IH. discriminate.
Qed.

Lemma body_trace_app (a b : list stmt) :
  forall n, body_trace n (a ++ b)
            = body_trace n a ++ body_trace (n + length (pushed n a)) b.
Proof.
  induction a as [|s a IH]; intro n.
  - simpl. now rewrite Nat.add_0_r.
  - rewrite <- app_comm_cons, (body_trace_cons n s (a ++ b)), IH.
    rewrite (body_trace_cons n s a), (pushed_cons n s a), length_app.
    now rewrite <- app_assoc, Nat.add_assoc.
Qed.

Lemma pushed_app (a b : list stmt) :
  forall n, pushed n (a ++ b) = pushed n a ++ pushed (n + length (pushed n a)) b.
Proof.
  induction a as [|s a IH]; intro n.
  - simpl. now rewrite Nat.add_0_r.
  - rewrite <- app_comm_cons, (pushed_cons n s (a ++ b)), IH.
    rewrite (pushed_cons n s a), length_app.
    now rewrite <- app_assoc, Nat.add_assoc.
Qed.

Lemma checks_app (a b : list stmt) : checks (a ++ b) = (checks a + checks b)%Z.
Proof. unfold checks. rewrite filter_app, length_app. lia. Qed.

Lemma failures_app (a b : list stmt) : failures (a ++ b) = (failures a + failures b)%Z.
Proof. unfold failures. rewrite filter_app, length_app. lia. Qed.

Lemma fatal_app (a b : list stmt) : fatal (a ++ b) = fatal a || fatal b.
Proof. unfold fatal. apply existsb_app. Qed.

(** The stack takes the first [EZCTEST_MAX_DEFER_CALLBACKS] callbacks
    and refuses the others. *)
Lemma pushed_defers (ex : list stmt) :
  forall n, pushed n ex = firstn (EZCTEST_MAX_DEFER_CALLBACKS - n) (defers ex).
Proof.
  induction ex as [|s ex IH]; intro n; [now rewrite firstn_nil|].
  destruct s as [c|c|f d|tag|sig]; cbn [pushed defers]; try apply IH.
  destruct (Nat.leb_spec EZCTEST_MAX_DEFER_CALLBACKS n) as [Hfull|Hroom].
  - rewrite IH. replace (EZCTEST_MAX_DEFER_CALLBACKS - n) with 0 by lia. reflexivity.
  - rewrite IH.
    replace (EZCTEST_MAX_DEFER_CALLBACKS - n)
      with (S (EZCTEST_MAX_DEFER_CALLBACKS - S n)) by lia.
    reflexivity.
Qed.

Lemma body_trace_no_callback (ex : list stmt) :
  forall n, List.filter is_cleanup_call (body_trace n ex) = []
            /\ List.filter is_teardown_call (body_trace n ex) = [].
Proof.
  induction ex as [|s ex IH]; intro n; [split; reflexivity|].
  destruct s as [[|]|[|]|f d|tag|sig]; cbn [body_trace app List.filter
    is_cleanup_call is_teardown_call]; try apply IH.
  destruct (EZCTEST_MAX_DEFER_CALLBACKS <=? n)%nat;
    cbn [List.filter is_cleanup_call is_teardown_call]; apply IH.
Qed.

Lemma cleanup_calls_filter (entries : list (func * data)) :
  List.filter is_cleanup_call (cleanup_calls entries) = cleanup_calls entries
  /\ List.filter is_teardown_call (cleanup_calls entries) = [].
Proof.
  induction entries as [|e entries [IH1 IH2]]; simpl; [split; reflexivity|].
  now rewrite IH1, IH2.
Qed.

(** Among the events of a test the cleanup calls are the pushed
    callbacks from the last to the first, and the teardown call is the
    one of the suite's fixture. *)
Lemma test_events_callbacks (w : Z) (fixture : option ezctest_fixture_t)
    (t : ezctest_info_t) :
  List.filter is_cleanup_call (test_events w fixture t)
  = cleanup_calls (rev (pushed 0 (executed (test_func t))))
  /\ List.filter is_teardown_call (test_events w fixture t) = teardown_call fixture.
Proof.
  unfold test_events. rewrite !filter_app.
  destruct (body_trace_no_callback (executed (test_func t)) 0) as [-> ->].
  destruct (cleanup_calls_filter (rev (pushed 0 (executed (test_func t))))) as [-> ->].
  unfold run_line.
  destruct (0 <=? w)%Z, (fatal (executed (test_func t))),
    (verdict_failed (executed (test_func t)));
    destruct fixture as [[n [s|] [d|]]|]; simpl; rewrite ?app_nil_r; split; reflexivity.
Qed.

End Cleanup.

(** C4. Whatever way the body is left without a fault (it returns, with
    or without failed non-fatal assertions, or a fatal assertion jumps
    out of it), the run of the test comes back and the cleanup calls it
    made are exactly the callbacks pushed by the executed DEFER
    statements, each once, from the last pushed to the first.  The stack
    holds the first EZCTEST_MAX_DEFER_CALLBACKS of them; a DEFER beyond
    that is refused and pushes nothing. *)
Theorem C4_cleanup_calls_in_reverse_order :
  forall (t : ezctest_info_t) (st : state),
    let ex := executed (test_func t) in
    fault_of ex = None ->
    exists st' events,
      ezctest_run_test t st = Alive tt st'
      /\ output st' = output st ++ events
      /\ List.filter is_cleanup_call events
         = cleanup_calls (rev (firstn EZCTEST_MAX_DEFER_CALLBACKS (defers ex)))
      /\ g_ezctest_defer_stack st' = []
      /\ (Forall (fun s => aborts s = false) (test_func t) -> ex = test_func t)
      /\ (forall pre post,
             Forall (fun s => aborts s = false) pre ->
             test_func t = pre ++ Assert false :: post ->
             ex = pre ++ [Assert false] /\ defers ex = defers pre).
Proof.
  intros t st ex Hfault.
  pose proof (run_test_effect t st) as H. cbv zeta in H. fold ex in H.
  rewrite Hfault in H. destruct H as [Hrun Heff].
  destruct Heff as (_ & _ & Hstack & Hout & _).
  eexists. eexists. split; [exact Hrun|]. split; [exact Hout|].
  split.
  - rewrite (proj1 (test_events_callbacks _ _ _)). fold ex.
    rewrite pushed_defers, Nat.sub_0_r. reflexivity.
  - split; [exact Hstack|]. split.
    + intro Hfree. now apply executed_abort_free.
    + intros pre post Hpre Hbody. subst ex. rewrite Hbody.
      rewrite executed_until_fatal by exact Hpre. split; [reflexivity|].
      clear. induction pre as [|s pre IH]; [reflexivity|].
      destruct s; simpl; now rewrite ?IH.
Qed.

Lemma C4_witness :
  exists st' events,
    ezctest_run_test lifo_test initial_state = Alive tt st'
    /\ output st' = output initial_state ++ events
    /\ List.filter is_cleanup_call events
       = [CallCleanup 3 30; CallCleanup 2 20; CallCleanup 1 10].
Proof.
  destruct (C4_cleanup_calls_in_reverse_order lifo_test initial_state eq_refl)
    as (st' & events & Hrun & Hout & Hcalls & _).
  exists st', events. split; [exact Hrun|]. split; [exact Hout | exact Hcalls].
Defined.

Example cleanup_order_example :
  let t := mk_info (cs "Res") (cs "Lifo")
             [Defer 1 10; Defer 2 20; Defer 3 30] true false in
  List.filter is_cleanup_call (output (final_state (ezctest_run_test t initial_state)))
  = [CallCleanup 3 30; CallCleanup 2 20; CallCleanup 1 10].
Proof. vm_compute. reflexivity. Qed.

(** C3. A test whose body reaches a failing fatal assertion after the
    statements [pre]: the failure is recorded, nothing of what follows
    the assertion in the body ([post]) is executed or counted, the
    cleanup callbacks pushed by [pre] and the teardown of the suite are
    each called once, the test is reported and counted as failed, and
    the run of the test comes back to its caller. *)
Theorem C3_fatal_assertion_skips_rest_of_body :
  forall (t : ezctest_info_t) (st : state) (pre post : list stmt),
    test_func t = pre ++ Assert false :: post ->
    Forall (fun s => aborts s = false) pre ->
    let fixture := ezctest_find_fixture (suite_name t) st in
    exists st' events,
      ezctest_run_test t st = Alive tt st'
      /\ output st' = output st ++ events
      /\ events
         = run_line (g_ezctest_worker_index st) t
           ++ setup_call fixture
           ++ body_trace 0 pre
           ++ [LineFailure true]
           ++ cleanup_calls (rev (pushed 0 pre))
           ++ teardown_call fixture
           ++ [LineTerminatedByAssert; LineFailed (suite_name t) (test_name t)]
      /\ List.filter is_teardown_call events = teardown_call fixture
      /\ List.filter is_cleanup_call events = cleanup_calls (rev (pushed 0 pre))
      /\ failed_assertions (g_ezctest_result st')
         = (failed_assertions (g_ezctest_result st) + failures pre + 1)%Z
      /\ total_assertions (g_ezctest_result st')
         = (total_assertions (g_ezctest_result st) + checks pre + 1)%Z
      /\ g_ezctest_current_failed st' = true
      /\ failed_tests (g_ezctest_result st') = (failed_tests (g_ezctest_result st) + 1)%Z
      /\ passed_tests (g_ezctest_result st') = passed_tests (g_ezctest_result st)
      /\ g_ezctest_registry st' = g_ezctest_registry st.
Proof.
  intros t st pre post Hbody Hpre fixture.
  pose proof (run_test_effect t st) as H. cbv zeta in H.
  assert (Hex : executed (test_func t) = pre ++ [Assert false]).
  { rewrite Hbody. now apply executed_until_fatal. }
  assert (Hfatal : fatal (pre ++ [Assert false]) = true).
  { rewrite fatal_app. apply orb_true_r. }
  rewrite Hex, (fault_of_abort_free pre [Assert false] Hpre) in H. cbn [fault_of] in H.
  destruct H as [Hrun Heff].
  pose proof (test_events_callbacks (g_ezctest_worker_index st) fixture t) as [Hc Ht].
  unfold test_effect in Heff. unfold test_events in Heff, Hc, Ht.
  rewrite Hex in Heff, Hc, Ht. unfold verdict_failed in Heff, Hc, Ht.
  rewrite Hfatal in Heff, Hc, Ht. cbn [orb] in Heff, Hc, Ht.
  rewrite body_trace_app, pushed_app in Heff, Hc, Ht.
  cbn [body_trace pushed app] in Heff, Hc, Ht.
  rewrite failures_app, checks_app, !app_nil_r in Heff.
  rewrite !app_nil_r in Hc, Ht.
  rewrite <- !app_assoc in Heff, Hc, Ht. cbn [app] in Heff, Hc, Ht.
  destruct Heff as ((G1 & _) & _ & _ & Hout & Hf & _ & _ & Hp & Hx & Hn & Hm).
  fold fixture in Hout.
  exists (final_state (ezctest_run_test t st)). eexists.
  split; [exact Hrun|]. split; [exact Hout|]. split; [reflexivity|].
  split; [exact Ht|]. split; [exact Hc|].
  unfold failures, checks in *. cbn [List.filter is_failure is_check length] in *.
  repeat split; try assumption; lia.
Qed.

Lemma C3_witness :
  exists st' events,
    ezctest_run_test fatal_test state_with_teardown = Alive tt st'
    /\ output st' = output state_with_teardown ++ events
    /\ events = [LineRun (cs "Db") (cs "Open"); Ran 1; LineFailure true;
                 CallCleanup 7 70; CallTeardown 5; LineTerminatedByAssert;
                 LineFailed (cs "Db") (cs "Open")]
    /\ failed_tests (g_ezctest_result st') = 1%Z.
Proof.
  destruct (C3_fatal_assertion_skips_rest_of_body fatal_test state_with_teardown
              [Action 1; Defer 7 70] [Action 2; Defer 8 80; Expect false] eq_refl)
    as (st' & events & Hrun & Hout & Hev & _ & _ & _ & _ & _ & Hfailed & _).
  - repeat constructor.
  - exists st', events. split; [exact Hrun|]. split; [exact Hout|].
    split; [exact Hev | exact Hfailed].
Defined.

(** ** Worker mode *)

Lemma worker_mode_loop_nth (tests : list ezctest_info_t) (st : state) :
  forall (k : nat) (test_count : Z),
    worker_mode_loop tests test_count (test_count + Z.of_nat k) st
    = match nth_error (List.filter (selected (g_ezctest_config st)) tests) k with
      | Some t =>
          bind (ezctest_run_test t st)
               (fun _ st' => if current_test_failed st' then Alive 1%Z st'
                             else Alive 0%Z st')
      | None =>
          Alive 1%Z
            (emit (LineWorkerNotFound
                     (test_count + Z.of_nat k)
                     (test_count
                      + Z.of_nat (length (List.filter (selected (g_ezctest_config st))
                                                      tests))))
                  st)
      end.
Proof.
  induction tests as [|t tests IH]; intros k test_count.
  - simpl. destruct k; simpl; now rewrite Z.add_0_r.
  - cbn [worker_mode_loop List.filter].
    assert (Hsel : selected (g_ezctest_config st) t
                   = enabled t && ezctest_matches_filter (suite_name t) (test_name t)
                                    (filter (g_ezctest_config st))) by reflexivity.
    destruct (enabled t); cbn [negb andb] in *; [|rewrite Hsel; apply IH].
    destruct (ezctest_matches_filter (suite_name t) (test_name t)
                                     (filter (g_ezctest_config st)));
      cbn [negb]; rewrite Hsel; [|apply IH].
    destruct k as [|k].
    + rewrite Z.add_0_r, Z.eqb_refl. reflexivity.
    + destruct (Z.eqb_spec test_count (test_count + Z.of_nat (S k))) as [E|_]; [lia|].
      replace (test_count + Z.of_nat (S k))%Z with (test_count + 1 + Z.of_nat k)%Z by lia.
      rewrite IH. cbn [nth_error length].
      replace (test_count + 1 + Z.of_nat (length (List.filter
                 (selected (g_ezctest_config st)) tests)))%Z
        with (test_count + Z.of_nat (S (length (List.filter
                 (selected (g_ezctest_config st)) tests))))%Z by lia.
      reflexivity.
Qed.

(** The entry point hands a worker its ordinal. *)
Lemma run_all_tests_worker (env : environment) (st : state) :
  (0 <= g_ezctest_worker_index st)%Z ->
  ezctest_run_all_tests env st = ezctest_worker_mode (g_ezctest_worker_index st) st.
Proof.
  intro H. unfold ezctest_run_all_tests.
  now destruct (Z.leb_spec 0 (g_ezctest_worker_index st)); [|lia].
Qed.

(** C6. The invocation with worker ordinal k ([ezctest_run_all_tests]
    once [g_ezctest_worker_index] holds k) is the worker mode for k,
    whatever else the configuration asks for, and it runs the k-th of
    the enabled, filter-matching tests in registry order and nothing
    else: its state afterwards is that of the run of this one test.  The
    exit code is 0 when the test passed and 1 when it failed.  (A body
    that faults kills the worker with its signal; an ordinal beyond the
    selected tests runs no test and gives exit code 1.) *)
Theorem C6_worker_runs_the_kth_selected_test :
  forall (env : environment) (k : nat) (st : state),
    g_ezctest_worker_index st = Z.of_nat k ->
    let chosen := List.filter (selected (g_ezctest_config st)) (g_ezctest_registry st) in
    ezctest_run_all_tests env st = ezctest_worker_mode (Z.of_nat k) st
    /\ match nth_error chosen k with
       | Some t =>
           let ex := executed (test_func t) in
           match fault_of ex with
           | None =>
               exists st',
                 ezctest_run_all_tests env st
                 = Alive (if verdict_failed ex then 1 else 0)%Z st'
                 /\ ezctest_run_test t st = Alive tt st'
                 /\ test_effect t st st'
           | Some sig =>
               exists st',
                 ezctest_run_all_tests env st = Died sig st'
                 /\ ezctest_run_test t st = Died sig st'
           end
       | None =>
           ezctest_run_all_tests env st
           = Alive 1%Z (emit (LineWorkerNotFound (Z.of_nat k) (Z.of_nat (length chosen))) st)
       end.
Proof.
  intros env k st Hk chosen.
  assert (Hentry : ezctest_run_all_tests env st = ezctest_worker_mode (Z.of_nat k) st).
  { rewrite <- Hk. apply run_all_tests_worker. lia. }
  split; [exact Hentry|]. rewrite Hentry. unfold ezctest_worker_mode.
  pose proof (worker_mode_loop_nth (g_ezctest_registry st) st k 0) as H.
  rewrite !Z.add_0_l in H. fold chosen in H. rewrite H. clear H.
  destruct (nth_error chosen k) as [t|]; [|reflexivity].
  pose proof (run_test_effect t st) as H. cbv zeta in H. cbv zeta.
  destruct (fault_of (executed (test_func t))) as [sig|].
  - destruct H as [Hrun _]. eexists. rewrite Hrun. split; reflexivity.
  - destruct H as [Hrun Heff]. eexists. rewrite Hrun. cbn [bind].
    split; [|split; [reflexivity | exact Heff]].
    destruct Heff as (_ & _ & _ & _ & Hf & Ha & _).
    unfold current_test_failed, verdict_failed. rewrite Hf, Ha.
    now destruct (fatal _ || (0 <? failures _)%Z).
Qed.

Lemma C6_witness :
  exists st',
    ezctest_run_all_tests isolated_run_env worker_state = Alive 1%Z st'
    /\ ezctest_run_test (mk_info (cs "A") (cs "two") [Action 2; Expect false] true false)
                        worker_state
       = Alive tt st'
    /\ output st' = [Ran 2; LineFailure false; LineFailed (cs "A") (cs "two")].
Proof.
  destruct (C6_worker_runs_the_kth_selected_test isolated_run_env 1 worker_state eq_refl)
    as (_ & st' & Hrun & Htest & Heff).
  exists st'. split; [exact Hrun|]. split; [exact Htest|].
  destruct Heff as (_ & _ & _ & Hout & _). exact Hout.
Defined.

Example worker_mode_example :
  let reg := [mk_info (cs "A") (cs "one") [Expect true] true false;
              mk_info (cs "B") (cs "skip") [Action 1] false false;
              mk_info (cs "A") (cs "two") [Action 2; Expect false] true false] in
  let st := set_worker_index 1
              (set_config (mk_config (Some (cs "A.*")) 1 false (-1) false (-1))
                          (set_registry reg initial_state)) in
  let env := mk_environment (fun _ => false) None (fun _ => 0) in
  match ezctest_run_all_tests env st with
  | Alive code st' => code = 1%Z /\ output st' = [Ran 2; LineFailure false;
                                                 LineFailed (cs "A") (cs "two")]
  | Died _ _ => False
  end.
Proof. vm_compute. split; reflexivity. Qed.

(** ** The main loop *)

(** C10. When no enabled test matches the filter the run says so and
    returns 0; nothing else happens: no test is run and no counter
    changes. *)
Theorem C10_no_matching_test_is_success :
  forall (env : environment) (st : state),
    (forall t, In t (g_ezctest_registry st) -> selected (g_ezctest_config st) t = false) ->
    ezctest_run_all_tests_internal env st = Alive 0%Z (emit LineNoTests st)
    /\ g_ezctest_result (emit LineNoTests st) = g_ezctest_result st
    /\ g_ezctest_registry (emit LineNoTests st) = g_ezctest_registry st
    /\ output (emit LineNoTests st) = output st ++ [LineNoTests].
Proof.
  intros env st Hnone. unfold ezctest_run_all_tests_internal.
  rewrite count_enabled_selected.
  assert (E : List.filter (selected (g_ezctest_config st)) (g_ezctest_registry st) = []).
  { induction (g_ezctest_registry st) as [|t l IH]; [reflexivity|].
    simpl. rewrite Hnone by now left.
    apply IH. intros t' Hin. apply Hnone. now right. }
  rewrite E. simpl. repeat split.
Qed.

Lemma C10_witness :
  ezctest_run_all_tests_internal quiet_env no_match_state
  = Alive 0%Z (emit LineNoTests no_match_state)
  /\ g_ezctest_result (emit LineNoTests no_match_state) = g_ezctest_result no_match_state
  /\ g_ezctest_registry (emit LineNoTests no_match_state)
     = g_ezctest_registry no_match_state
  /\ output (emit LineNoTests no_match_state) = output no_match_state ++ [LineNoTests].
Proof.
  apply (C10_no_matching_test_is_success quiet_env no_match_state).
  intros t [<-|[<-|[]]]; reflexivity.
Defined.

(** C7. When [fork] fails for a test dispatched under isolation, the
    parent records nothing for the child; it runs the test in its own
    process with [ezctest_run_test], and what is recorded is the verdict
    of that run: a passing test is counted as passed and its failure
    flag is left alone, a failing one is counted as failed and flagged.
    (A body that faults then takes the parent process with it.) *)
Theorem C7_spawn_failure_falls_back_in_process :
  forall (env : environment) (i : nat) (t : ezctest_info_t) (test_count : Z) (st : state),
    fork_fails env (forks st) = true ->
    let st1 := emit LineFallback
                 (emit LineForkFailed
                    (set_forks (S (forks st))
                       (emit (LineRun (suite_name t) (test_name t)) st))) in
    let ex := executed (test_func t) in
    run_isolated env i t test_count st = run_in_process i t st1
    /\ g_ezctest_result st1 = g_ezctest_result st
    /\ g_ezctest_registry st1 = g_ezctest_registry st
    /\ match fault_of ex with
       | None =>
           exists st2 final,
             ezctest_run_test t st1 = Alive tt st2
             /\ test_effect t st1 st2
             /\ run_isolated env i t test_count st = Alive tt final
             /\ final = (if verdict_failed ex then set_failed_at i st2 else st2)
             /\ passed_tests (g_ezctest_result final)
                = (passed_tests (g_ezctest_result st)
                   + (if verdict_failed ex then 0 else 1))%Z
             /\ failed_tests (g_ezctest_result final)
                = (failed_tests (g_ezctest_result st)
                   + (if verdict_failed ex then 1 else 0))%Z
             /\ g_ezctest_registry final
                = (if verdict_failed ex
                   then update_nth i (with_failed true) (g_ezctest_registry st)
                   else g_ezctest_registry st)
       | Some sig =>
           exists st2, run_isolated env i t test_count st = Died sig st2
       end.
Proof.
  intros env i t test_count st Hfork st1 ex.
  assert (Hiso : run_isolated env i t test_count st = run_in_process i t st1).
  { unfold run_isolated, ezctest_exec_child. cbn [forks set_forks emit set_output].
    rewrite Hfork. reflexivity. }
  split; [exact Hiso|]. split; [reflexivity|]. split; [reflexivity|].
  rewrite Hiso. unfold run_in_process.
  pose proof (run_test_effect t st1) as H. cbv zeta in H. fold ex in H.
  destruct (fault_of ex) as [sig|].
  - destruct H as [Hrun _]. rewrite Hrun. eexists. reflexivity.
  - destruct H as [Hrun Heff]. rewrite Hrun. cbn [bind].
    assert (Hv : current_test_failed (final_state (ezctest_run_test t st1))
                 = verdict_failed ex).
    { destruct Heff as (_ & _ & _ & _ & Hf & Ha & _).
      unfold current_test_failed, verdict_failed. fold ex in Hf, Ha. now rewrite Hf, Ha. }
    rewrite Hv. eexists. eexists.
    split; [reflexivity|]. split; [exact Heff|]. split; [reflexivity|].
    split; [reflexivity|].
    destruct Heff as ((G1 & _) & _ & _ & _ & _ & _ & _ & Hp & Hx & _).
    fold ex in Hp, Hx.
    destruct (verdict_failed ex); cbn [set_failed_at set_registry g_ezctest_result
      g_ezctest_registry]; rewrite ?Hp, ?Hx, ?G1; repeat split; reflexivity.
Qed.

Lemma C7_witness :
  exists final,
    run_isolated failing_fork_env 0 passing_test 0%Z
                 (set_registry [passing_test] initial_state) = Alive tt final
    /\ passed_tests (g_ezctest_result final) = 1%Z
    /\ failed_tests (g_ezctest_result final) = 0%Z
    /\ g_ezctest_registry final = [passing_test].
Proof.
  destruct (C7_spawn_failure_falls_back_in_process failing_fork_env 0 passing_test 0%Z
              (set_registry [passing_test] initial_state) eq_refl)
    as (_ & _ & _ & st2 & final & _ & _ & Hrun & _ & Hp & Hx & Hreg).
  exists final. split; [exact Hrun|]. split; [exact Hp|]. split; [exact Hx | exact Hreg].
Defined.

(** ** The final report under isolation *)

Section Report.

Lemma quiet_refl (st st' : state) : output st' = output st -> quiet st st'.
Proof. intro H. exists []. now rewrite app_nil_r. Qed.

Lemma quiet_trans (st1 st2 st3 : state) : quiet st1 st2 -> quiet st2 st3 -> quiet st1 st3.
Proof.
  intros (e1 & H1 & F1) (e2 & H2 & F2). exists (e1 ++ e2).
  rewrite H2, H1, app_assoc, filter_app, F1, F2. split; reflexivity.
Qed.

Lemma quiet_emits (events : list event) (st st' : state) :
  List.filter is_assertion_total events = [] ->
  output st' = output st ++ events -> quiet st st'.
Proof. intros F H. exists events. split; assumption. Qed.

Lemma quiet_bind {A B : Type} (m : outcome A) (k : A -> state -> outcome B) (st : state) :
  quiet st (final_state m) ->
  (forall a st1, m = Alive a st1 -> quiet st1 (final_state (k a st1))) ->
  quiet st (final_state (bind m k)).
Proof.
  intros Hm Hk. destruct m as [a st1|sig st1]; simpl in *; [|exact Hm].
  eapply quiet_trans; [exact Hm | now apply Hk].
Qed.

Lemma body_trace_quiet (ex : list stmt) :
  forall n, List.filter is_assertion_total (body_trace n ex) = [].
Proof.
  induction ex as [|s ex IH]; intro n; [reflexivity|].
  destruct s as [[|]|[|]|f d|tag|sig];
    cbn [body_trace app List.filter is_assertion_total]; try apply IH.
  destruct (EZCTEST_MAX_DEFER_CALLBACKS <=? n)%nat;
    cbn [List.filter is_assertion_total]; apply IH.
Qed.

Lemma cleanup_calls_quiet (entries : list (func * data)) :
  List.filter is_assertion_total (cleanup_calls entries) = [].
Proof. induction entries as [|e entries IH]; simpl; auto. Qed.

Lemma test_events_quiet (w : Z) (fixture : option ezctest_fixture_t) (t : ezctest_info_t) :
  List.filter is_assertion_total (test_events w fixture t) = []
  /\ List.filter is_assertion_total (fault_events w fixture t) = [].
Proof.
  unfold test_events, fault_events, run_line. rewrite !filter_app.
  rewrite body_trace_quiet, cleanup_calls_quiet.
  destruct (0 <=? w)%Z, (fatal (executed (test_func t))),
    (verdict_failed (executed (test_func t)));
    destruct fixture as [[n [s|] [d|]]|]; simpl; split; reflexivity.
Qed.

Lemma run_test_quiet (t : ezctest_info_t) (st : state) :
  quiet st (final_state (ezctest_run_test t st)).
Proof.
  pose proof (run_test_effect t st) as H. cbv zeta in H.
  destruct (fault_of (executed (test_func t))).
  - destruct H as [_ Hout]. eapply quiet_emits; [|exact Hout]. apply test_events_quiet.
  - destruct H as [_ (_ & _ & _ & Hout & _)].
    eapply quiet_emits; [|exact Hout]. apply test_events_quiet.
Qed.

Lemma exec_child_quiet (env : environment) (t : ezctest_info_t) (k : Z) (st : state) :
  quiet st (snd (ezctest_exec_child env t k st)).
Proof.
  unfold ezctest_exec_child.
  destruct (fork_fails env (forks st)).
  - apply (quiet_emits [LineForkFailed]); reflexivity.
  - pose proof (run_test_quiet t (reset_result (set_worker_index k
                                    (set_forks (S (forks st)) st)))) as (e & H & F).
    destruct (ezctest_run_test t _) as [u child'|sig child']; simpl in *;
      exists e; split; assumption.
Qed.

Lemma run_in_process_quiet (i : nat) (t : ezctest_info_t) (st : state) :
  quiet st (final_state (run_in_process i t st)).
Proof.
  unfold run_in_process. apply quiet_bind; [apply run_test_quiet|].
  intros _ st1 _. simpl. destruct (current_test_failed st1); now apply quiet_refl.
Qed.

Lemma run_isolated_quiet (env : environment) (i : nat) (t : ezctest_info_t)
    (k : Z) (st : state) :
  quiet st (final_state (run_isolated env i t k st)).
Proof.
  unfold run_isolated.
  pose proof (exec_child_quiet env t k (emit (LineRun (suite_name t) (test_name t)) st))
    as Hchild.
  destruct (ezctest_exec_child env t k _) as [code st1]. simpl in Hchild.
  assert (H0 : quiet st st1).
  { eapply quiet_trans; [|exact Hchild].
    apply (quiet_emits [LineRun (suite_name t) (test_name t)]); reflexivity. }
  destruct (code =? 0)%Z; [eapply quiet_trans; [exact H0 | now apply quiet_refl]|].
  destruct (code =? 1)%Z; [eapply quiet_trans; [exact H0 | now apply quiet_refl]|].
  destruct (code <? 0)%Z.
  - eapply quiet_trans; [exact H0|].
    eapply quiet_trans; [|apply run_in_process_quiet].
    apply (quiet_emits [LineFallback]); reflexivity.
  - eapply quiet_trans; [exact H0|]. simpl.
    eapply quiet_emits; [|reflexivity]. reflexivity.
Qed.

Lemma run_selected_quiet (env : environment) (isolation : bool) (i : nat)
    (t : ezctest_info_t) (k : Z) (st : state) :
  quiet st (final_state (run_selected env isolation i t k st)).
Proof.
  unfold run_selected. destruct isolation.
  - apply quiet_bind.
    + eapply quiet_trans; [|apply run_isolated_quiet]. now apply quiet_refl.
    + intros; now apply quiet_refl.
  - apply quiet_bind.
    + eapply quiet_trans; [|apply run_in_process_quiet]. now apply quiet_refl.
    + intros; now apply quiet_refl.
Qed.

Lemma test_loop_quiet (env : environment) (isolation : bool) (n : nat) :
  forall (i : nat) (k : Z) (st : state),
    quiet st (final_state (test_loop env isolation n i k st)).
Proof.
  induction n as [|n IH]; intros i k st; simpl; [now apply quiet_refl|].
  destruct (nth_error (g_ezctest_registry st) i) as [t|]; [|now apply quiet_refl].
  destruct (negb (enabled t)); [apply IH|].
  destruct (negb (ezctest_matches_filter _ _ _)); [apply IH|].
  apply quiet_bind; [apply run_selected_quiet|]. intros; apply IH.
Qed.

Lemma repeat_loop_quiet (env : environment) (isolation : bool) (n : nat) :
  forall (rep : Z) (st : state),
    quiet st (final_state (repeat_loop env isolation n rep st)).
Proof.
  induction n as [|n IH]; intros rep st; [now apply quiet_refl|].
  cbn [repeat_loop]. cbv zeta.
  set (st1 := if shuffle _ && _ then _ else _).
  assert (H1 : quiet st st1).
  { subst st1.
    destruct (shuffle (g_ezctest_config st) && (rep =? 0)%Z),
             (1 <? repeat (g_ezctest_config st))%Z; simpl;
      (now apply quiet_refl) || (eapply quiet_emits; [|reflexivity]; reflexivity). }
  eapply quiet_trans; [exact H1|].
  apply quiet_bind; [apply test_loop_quiet|]. intros; apply IH.
Qed.

Lemma final_report_isolated_quiet (st : state) :
  List.filter is_assertion_total (final_report true st) = [].
Proof.
  unfold final_report. rewrite !filter_app.
  assert (H : forall l : list ezctest_info_t,
             List.filter is_assertion_total
               (map (fun t => LineFailedListed (suite_name t) (test_name t)) l) = []).
  { induction l; simpl; auto. }
  destruct (0 <? failed_tests (g_ezctest_result st))%Z,
           (total_tests (g_ezctest_result st) =? passed_tests (g_ezctest_result st))%Z;
    simpl; rewrite ?H; reflexivity.
Qed.

End Report.

(** C8.  Under isolation the final report shows the test-level counts
    and no line about assertion totals at all: neither counts nor the
    notice that they are unavailable (its only print statement is under
    [#if 0]).  The same holds for everything the run writes. *)
Theorem C8_isolated_report_has_no_assertion_line :
  forall (env : environment) (st : state) (code : Z) (st' : state),
    let cfg := g_ezctest_config st in
    let n := count_enabled cfg (g_ezctest_registry st) in
    n <> 0%Z ->
    use_process_isolation env cfg n = true ->
    ezctest_run_all_tests_internal env st = Alive code st' ->
    exists before st_end,
      output st' = output st ++ before ++ final_report true st_end
      /\ g_ezctest_result st' = g_ezctest_result st_end
      /\ List.filter is_assertion_total (before ++ final_report true st_end) = []
      /\ In (LineTotalRan (total_tests (g_ezctest_result st'))) (final_report true st_end)
      /\ In (LinePassed (passed_tests (g_ezctest_result st'))) (final_report true st_end)
      /\ ~ In LineAssertionsNA (before ++ final_report true st_end).
Proof.
  intros env st code st' cfg n Hn Hiso Hrun.
  unfold ezctest_run_all_tests_internal in Hrun. fold cfg n in Hrun.
  destruct (Z.eqb_spec n 0) as [|_]; [contradiction|].
  rewrite Hiso in Hrun.
  pose proof (repeat_loop_quiet env true (Z.to_nat (repeat cfg)) 0
                (emit (LineRunning n (repeat cfg) true) st)) as (mid & Hmid & Fmid).
  destruct (repeat_loop env true _ _ _) as [u st_end|sig st_end]; [|discriminate].
  cbn [bind] in Hrun. inversion Hrun; subst code st'; clear Hrun.
  cbn [final_state] in Hmid.
  exists (LineRunning n (repeat cfg) true :: mid), st_end.
  assert (Hq : List.filter is_assertion_total
                 ((LineRunning n (repeat cfg) true :: mid) ++ final_report true st_end)
               = []).
  { rewrite filter_app, final_report_isolated_quiet. simpl. now rewrite Fmid. }
  split.
  - cbn [emits set_output output]. rewrite Hmid. cbn [emit set_output output].
    now rewrite <- !app_assoc.
  - split; [reflexivity|]. split; [exact Hq|].
    split; [left; reflexivity|]. split; [right; left; reflexivity|].
    intro Hin.
    assert (In LineAssertionsNA (List.filter is_assertion_total
              ((LineRunning n (repeat cfg) true :: mid) ++ final_report true st_end))).
    { apply filter_In. split; [exact Hin | reflexivity]. }
    rewrite Hq in H. destruct H.
Qed.

Lemma C8_witness :
  exists before st_end,
    output (final_state (ezctest_run_all_tests_internal isolated_run_env isolated_run_state))
    = output isolated_run_state ++ before ++ final_report true st_end
    /\ g_ezctest_result
         (final_state (ezctest_run_all_tests_internal isolated_run_env isolated_run_state))
       = g_ezctest_result st_end
    /\ List.filter is_assertion_total (before ++ final_report true st_end) = []
    /\ In (LineTotalRan
             (total_tests (g_ezctest_result
                (final_state (ezctest_run_all_tests_internal isolated_run_env
                                                             isolated_run_state)))))
          (final_report true st_end)
    /\ In (LinePassed
             (passed_tests (g_ezctest_result
                (final_state (ezctest_run_all_tests_internal isolated_run_env
                                                             isolated_run_state)))))
          (final_report true st_end)
    /\ ~ In LineAssertionsNA (before ++ final_report true st_end).
Proof.
  apply (C8_isolated_report_has_no_assertion_line isolated_run_env isolated_run_state 1%Z).
  - vm_compute. discriminate.
  - reflexivity.
  - vm_compute. reflexivity.
Defined.

(** The run above, line by line: the report ends after the list of
    failed tests; no line marks the assertion totals as unavailable. *)
Lemma C8_counterexample :
  use_process_isolation isolated_run_env (g_ezctest_config isolated_run_state)
    (count_enabled (g_ezctest_config isolated_run_state)
                   (g_ezctest_registry isolated_run_state)) = true
  /\ output (final_state (ezctest_run_all_tests_internal isolated_run_env
                                                         isolated_run_state))
     = [LineRunning 2 1 true;
        LineRun (cs "A") (cs "one"); LineOk (cs "A") (cs "one");
        LineRun (cs "A") (cs "two"); LineFailure false; LineFailed (cs "A") (cs "two");
        LineTotalRan 2; LinePassed 1; LineFailedCount 1;
        LineFailedListed (cs "A") (cs "two")]
  /\ ~ In LineAssertionsNA
         (output (final_state (ezctest_run_all_tests_internal isolated_run_env
                                                              isolated_run_state))).
Proof.
  split; [reflexivity|]. split; [vm_compute; reflexivity|].
  vm_compute. intuition discriminate.
Qed.

(** * Further properties *)

(** ** The filter, token by token *)

Section FilterTokens.

Lemma filter_scan_cons (token : cstr) (rest : list cstr) (name : cstr) :
  filter_scan (token :: rest) name
  = if ezctest_wildcard_match (token_pattern token) name
    then negb (is_negative token)
    else filter_scan rest name.
Proof.
  unfold token_pattern, is_negative. simpl. destruct token as [|c body].
  - now destruct (ezctest_wildcard_match [] name).
  - destruct (Ascii.eqb c "-"); simpl;
      now destruct (ezctest_wildcard_match _ name).
Qed.

Lemma filter_scan_first_match (tokens : list cstr) (name : cstr) :
  filter_scan tokens name = true
  <-> exists before token after,
        tokens = before ++ token :: after
        /\ is_negative token = false
        /\ ezctest_wildcard_match token name = true
        /\ Forall (fun t => ezctest_wildcard_match (token_pattern t) name = false) before.
Proof.
  induction tokens as [|t rest IH].
  - simpl. split; [discriminate|].
    intros (before & token & after & E & _). now destruct before.
  - rewrite filter_scan_cons.
    destruct (ezctest_wildcard_match (token_pattern t) name) eqn:Em.
    + split.
      * intro Hpos. apply negb_true_iff in Hpos.
        exists [], t, rest. repeat split; auto.
        unfold token_pattern in Em. now rewrite Hpos in Em.
      * intros (before & token & after & E & Hpos & Hm & Hbefore).
        destruct before as [|b before]; simpl in E; inversion E; subst.
        -- now rewrite Hpos.
        -- inversion Hbefore; subst. congruence.
    + rewrite IH. split.
      * intros (before & token & after & E & Hpos & Hm & Hbefore).
        exists (t :: before), token, after. subst rest. repeat split; auto.
      * intros (before & token & after & E & Hpos & Hm & Hbefore).
        destruct before as [|b before]; simpl in E; inversion E; subst.
        -- unfold token_pattern in Em. rewrite Hpos in Em. congruence.
        -- inversion Hbefore; subst. exists before, token, after. repeat split; auto.
Qed.

Lemma split_on_nonempty (d : ascii) (s : cstr) : split_on d s <> [].
Proof.
  destruct s as [|c s]; simpl; [discriminate|].
  destruct (Ascii.eqb c d); [discriminate|].
  destruct (split_on d s); discriminate.
Qed.

Lemma split_on_app (d : ascii) (a b : cstr) :
  split_on d (a ++ d :: b) = split_on d a ++ split_on d b.
Proof.
  induction a as [|c a IH]; simpl.
  - now rewrite Ascii.eqb_refl.
  - destruct (Ascii.eqb c d); [now rewrite IH|].
    rewrite IH. pose proof (split_on_nonempty d a) as Hne.
    destruct (split_on d a) as [|t ts]; [congruence | reflexivity].
Qed.

Lemma split_on_fields (d : ascii) (s : cstr) :
  Forall (fun t => ~ In d t) (split_on d s).
Proof.
  induction s as [|c s IH]; simpl.
  - constructor; [tauto | constructor].
  - destruct (Ascii.eqb_spec c d) as [->|Hc].
    + constructor; [tauto | exact IH].
    + destruct (split_on d s) as [|t ts]; inversion IH; subst;
        constructor; simpl; intuition congruence.
Qed.

End FilterTokens.

(** The tokens that [strtok] hands to the filter loop are never empty
    and hold no separator, and the tokens of two filters joined by a
    colon are the tokens of the first followed by those of the second. *)
Theorem strtok_tokens_shape :
  forall (d : ascii) (a b : cstr),
    Forall (fun t => t <> [] /\ ~ In d t) (strtok_tokens d a)
    /\ strtok_tokens d (a ++ d :: b) = strtok_tokens d a ++ strtok_tokens d b.
Proof.
  intros d a b. unfold strtok_tokens. split.
  - apply Forall_forall. intros t Hin. apply filter_In in Hin. destruct Hin as [Hin Hne].
    split.
    + intros ->. discriminate.
    + pose proof (split_on_fields d a) as H. rewrite Forall_forall in H. now apply H.
  - now rewrite split_on_app, filter_app.
Qed.

(** [ezctest_matches_filter] accepts a name exactly when the first token
    whose pattern matches the name (as a glob) is a positive one: every
    token before it, positive or negative, fails to match.  The name is
    the qualified name as the buffer holds it, the tokens those of the
    filter as copied. *)
Theorem filter_first_matching_token_decides :
  forall (suite test f : cstr),
    f <> [] ->
    ezctest_matches_filter suite test (Some f) = true
    <-> exists before token after,
          strtok_tokens ":" (filter_copy f) = before ++ token :: after
          /\ is_negative token = false
          /\ glob_match token (full_name suite test)
          /\ Forall (fun t => ~ glob_match (token_pattern t) (full_name suite test))
                    before.
Proof.
  intros suite test f Hne. destruct f as [|c f]; [congruence|].
  unfold ezctest_matches_filter. rewrite filter_scan_first_match.
  split; intros (before & token & after & E & Hpos & Hm & Hbefore);
    exists before, token, after; repeat split; auto.
  - now apply wildcard_match_glob.
  - eapply Forall_impl; [|exact Hbefore]. intros t Ht Hg.
    apply wildcard_match_glob in Hg. congruence.
  - now apply wildcard_match_glob.
  - eapply Forall_impl; [|exact Hbefore]. intros t Ht.
    destruct (ezctest_wildcard_match (token_pattern t) (full_name suite test)) eqn:E';
      [|reflexivity].
    apply wildcard_match_glob in E'. contradiction.
Qed.

Lemma filter_first_matching_token_decides_witness :
  ezctest_matches_filter (cs "Foo") (cs "Fast") (Some (cs "-*Slow*:Foo.*")) = true
  <-> exists before token after,
        strtok_tokens ":" (filter_copy (cs "-*Slow*:Foo.*")) = before ++ token :: after
        /\ is_negative token = false
        /\ glob_match token (full_name (cs "Foo") (cs "Fast"))
        /\ Forall (fun t => ~ glob_match (token_pattern t) (full_name (cs "Foo") (cs "Fast")))
                  before.
Proof.
  apply (filter_first_matching_token_decides (cs "Foo") (cs "Fast") (cs "-*Slow*:Foo.*")).
  discriminate.
Defined.

(** A filter without a positive token rejects every name: one made of
    negative patterns only, or of separators only.  (Only the empty or
    absent filter accepts everything.) *)
Theorem filter_without_positive_token_rejects_all :
  forall (suite test f : cstr),
    f <> [] ->
    Forall (fun t => is_negative t = true) (strtok_tokens ":" (filter_copy f)) ->
    ezctest_matches_filter suite test (Some f) = false.
Proof.
  intros suite test f Hne Hneg.
  destruct (ezctest_matches_filter suite test (Some f)) eqn:E; [|reflexivity].
  destruct f as [|c f]; [congruence|].
  unfold ezctest_matches_filter in E. apply filter_scan_first_match in E.
  destruct E as (before & token & after & E & Hpos & _).
  rewrite Forall_forall in Hneg. rewrite (Hneg token) in Hpos; [discriminate|].
  rewrite E. apply in_or_app. right. now left.
Qed.

Lemma filter_without_positive_token_rejects_all_witness :
  ezctest_matches_filter (cs "Foo") (cs "Fast") (Some (cs "-*Slow*:-Bar.*")) = false
  /\ ezctest_matches_filter (cs "Foo") (cs "Fast") (Some (cs "::")) = false.
Proof.
  split.
  - apply (filter_without_positive_token_rejects_all (cs "Foo") (cs "Fast")
             (cs "-*Slow*:-Bar.*")); [discriminate | repeat constructor].
  - apply (filter_without_positive_token_rejects_all (cs "Foo") (cs "Fast") (cs "::"));
      [discriminate | constructor].
Defined.

(** The filter sees the first 255 characters of suite.test and the
    first 511 characters of the filter, and nothing beyond: names that
    agree up to there get the same answer from every filter, and in a
    suite whose name fills the buffer the test name plays no part. *)
Theorem filter_sees_truncated_name_and_filter :
  forall (suite test suite' test' : cstr) (f : option cstr) (g tail : cstr),
    (firstn (EZCTEST_MAX_NAME_LENGTH * 2 - 1) (suite ++ "." :: test)
     = firstn (EZCTEST_MAX_NAME_LENGTH * 2 - 1) (suite' ++ "." :: test') ->
     ezctest_matches_filter suite test f = ezctest_matches_filter suite' test' f)
    /\ (EZCTEST_MAX_NAME_LENGTH * 2 - 1 <= length suite ->
        ezctest_matches_filter suite test f = ezctest_matches_filter suite test' f)
    /\ (length g = EZCTEST_MAX_NAME_LENGTH * 4 - 1 ->
        ezctest_matches_filter suite test (Some (g ++ tail))
        = ezctest_matches_filter suite test (Some g)).
Proof.
  intros suite test suite' test' f g tail.
  assert (H1 : firstn (EZCTEST_MAX_NAME_LENGTH * 2 - 1) (suite ++ "." :: test)
               = firstn (EZCTEST_MAX_NAME_LENGTH * 2 - 1) (suite' ++ "." :: test') ->
               ezctest_matches_filter suite test f = ezctest_matches_filter suite' test' f).
  { intro H. destruct f as [[|c f]|]; try reflexivity.
    unfold ezctest_matches_filter, full_name. now rewrite H. }
  split; [exact H1|]. split.
  - intro Hlen. destruct f as [[|c f]|]; try reflexivity.
    unfold ezctest_matches_filter, full_name.
    rewrite !firstn_app.
    replace (EZCTEST_MAX_NAME_LENGTH * 2 - 1 - length suite) with 0 by lia.
    reflexivity.
  - intro Hlen. unfold ezctest_matches_filter.
    assert (Hcopy : filter_copy (g ++ tail) = filter_copy g).
    { unfold filter_copy. rewrite firstn_app, Hlen, Nat.sub_diag. simpl.
      now rewrite app_nil_r. }
    destruct g as [|c g]; [discriminate Hlen|].
    simpl app. now rewrite <- Hcopy.
Qed.

Lemma filter_sees_truncated_name_and_filter_witness :
  ezctest_matches_filter (List.repeat "s" 255) (cs "one") (Some (cs "*.one"))
  = ezctest_matches_filter (List.repeat "s" 255) (cs "two") (Some (cs "*.one")).
Proof.
  apply (proj1 (proj2 (filter_sees_truncated_name_and_filter
                         (List.repeat "s" 255) (cs "one") [] (cs "two")
                         (Some (cs "*.one")) [] []))).
  rewrite repeat_length. vm_compute. lia.
Defined.

(** ** Patterns without wildcards *)

Section Literal.

Lemma glob_literal_iff (p s : cstr) : is_literal p -> (glob_match p s <-> p = s).
Proof.
  unfold is_literal. revert s. induction p as [|c p IH]; intros s [Hs Hq].
  - rewrite glob_nil_iff. split; congruence.
  - simpl in Hs, Hq. rewrite glob_char_iff by tauto. split.
    + intros (d & s' & -> & [E|E] & H); [tauto|]. subst d.
      apply IH in H; [now subst | tauto].
    + intros <-. exists c, p. split; [reflexivity|]. split; [now right|].
      apply IH; [tauto | reflexivity].
Qed.

Lemma glob_literal_prefix (p s : cstr) :
  is_literal p -> (glob_match (p ++ ["*"]) s <-> exists rest, s = p ++ rest).
Proof.
  unfold is_literal. revert s. induction p as [|c p IH]; intros s [Hs Hq].
  - simpl. split; [eauto|]. intros _. apply glob_star_iff.
    exists (length s). rewrite skipn_all. constructor.
  - simpl in Hs, Hq. cbn [app]. rewrite glob_char_iff by tauto. split.
    + intros (d & s' & -> & [E|E] & H); [tauto|]. subst d.
      apply IH in H; [|tauto]. destruct H as [rest ->]. now exists rest.
    + intros [rest ->]. exists c, (p ++ rest). split; [reflexivity|].
      split; [now right|]. apply IH; [tauto | eauto].
Qed.

Lemma glob_literal_suffix (p s : cstr) :
  is_literal p -> (glob_match ("*" :: p) s <-> exists front, s = front ++ p).
Proof.
  intro Hlit. rewrite glob_star_iff. split.
  - intros [k H]. apply glob_literal_iff in H; [|exact Hlit].
    exists (firstn k s). now rewrite H, firstn_skipn.
  - intros [front ->]. exists (length front). rewrite skipn_after_app.
    now apply glob_literal_iff.
Qed.

End Literal.

(** A pattern without [*] and [?] matches its own text and nothing
    else; followed by a star it matches exactly the strings that begin
    with it, and preceded by a star exactly those that end with it. *)
Theorem wildcard_literal_patterns :
  forall (p s : cstr),
    is_literal p ->
    (ezctest_wildcard_match p s = true <-> p = s)
    /\ (ezctest_wildcard_match (p ++ ["*"]) s = true <-> exists rest, s = p ++ rest)
    /\ (ezctest_wildcard_match ("*" :: p) s = true <-> exists front, s = front ++ p).
Proof.
  intros p s Hlit. rewrite !wildcard_match_glob.
  split; [now apply glob_literal_iff|].
  split; [now apply glob_literal_prefix | now apply glob_literal_suffix].
Qed.

Lemma wildcard_literal_patterns_witness :
  ezctest_wildcard_match (cs "Math.Add") (cs "Math.Add") = true
  <-> cs "Math.Add" = cs "Math.Add".
Proof.
  apply (proj1 (wildcard_literal_patterns (cs "Math.Add") (cs "Math.Add")
                  ltac:(split; vm_compute; intuition discriminate))).
Defined.

(** ** The two registration tables *)

Section Tables.

Lemma register_tests_closed (calls : list (cstr * cstr * list stmt)) :
  forall st,
    g_ezctest_registry (register_tests calls st)
    = g_ezctest_registry st
      ++ firstn (EZCTEST_MAX_TESTS - length (g_ezctest_registry st))
                (map registered_test calls).
Proof.
  induction calls as [|c calls IH]; intro st.
  - simpl. now rewrite firstn_nil, app_nil_r.
  - cbn [register_tests fold_left map]. fold (register_tests calls).
    rewrite IH. unfold ezctest_register.
    destruct (Nat.leb_spec EZCTEST_MAX_TESTS (length (g_ezctest_registry st)))
      as [Hfull|Hroom].
    + cbn [snd emit set_output g_ezctest_registry].
      replace (EZCTEST_MAX_TESTS - length (g_ezctest_registry st)) with 0 by lia.
      reflexivity.
    + cbn [snd set_registry g_ezctest_registry].
      rewrite length_app, <- app_assoc. cbn [length app].
      replace (EZCTEST_MAX_TESTS - length (g_ezctest_registry st))
        with (S (EZCTEST_MAX_TESTS - (length (g_ezctest_registry st) + 1))) by lia.
      reflexivity.
Qed.

Lemma find_fixture_updated (fixtures fixtures' : list ezctest_fixture_t) (suite : cstr)
    (assign : ezctest_fixture_t -> ezctest_fixture_t) :
  (forall fx, fixture_suite_name (assign fx) = fixture_suite_name fx) ->
  update_fixture fixtures suite assign = Some fixtures' ->
  (exists old, find_fixture_in fixtures suite = Some old
               /\ find_fixture_in fixtures' suite = Some (assign old))
  /\ (forall other, other <> suite ->
        find_fixture_in fixtures' other = find_fixture_in fixtures other)
  /\ length fixtures' = length fixtures.
Proof.
  intro Hname. revert fixtures'.
  induction fixtures as [|fx rest IH]; simpl; intros fixtures' Hupd; [discriminate|].
  destruct (strcmp_eq (fixture_suite_name fx) suite) eqn:E.
  - inversion Hupd; subst fixtures'; clear Hupd. simpl. rewrite Hname, E.
    split; [eauto|]. split; [|reflexivity].
    intros other Hother. apply strcmp_eq_true in E.
    destruct (strcmp_eq (fixture_suite_name fx) other) eqn:E'; [|reflexivity].
    apply strcmp_eq_true in E'. congruence.
  - destruct (update_fixture rest suite assign) as [rest'|]; [|discriminate].
    inversion Hupd; subst fixtures'; clear Hupd. simpl. rewrite E.
    destruct (IH rest' eq_refl) as (Hold & Hother & Hlen).
    split; [exact Hold|]. split; [|now rewrite Hlen].
    intros other Ho. destruct (strcmp_eq (fixture_suite_name fx) other); auto.
Qed.

Lemma find_fixture_unbound (fixtures : list ezctest_fixture_t) (suite : cstr)
    (assign : ezctest_fixture_t -> ezctest_fixture_t) :
  update_fixture fixtures suite assign = None <-> find_fixture_in fixtures suite = None.
Proof.
  induction fixtures as [|fx rest IH]; simpl; [tauto|].
  destruct (strcmp_eq (fixture_suite_name fx) suite); [split; discriminate|].
  destruct (update_fixture rest suite assign); [|tauto].
  split; [discriminate|]. intro H. apply IH in H. discriminate.
Qed.

Lemma find_fixture_appended (fixtures : list ezctest_fixture_t) (fresh : ezctest_fixture_t)
    (suite : cstr) :
  find_fixture_in (fixtures ++ [fresh]) suite
  = match find_fixture_in fixtures suite with
    | Some fx => Some fx
    | None => if strcmp_eq (fixture_suite_name fresh) suite then Some fresh else None
    end.
Proof.
  induction fixtures as [|fx rest IH]; simpl; [reflexivity|].
  destruct (strcmp_eq (fixture_suite_name fx) suite); [reflexivity | exact IH].
Qed.

(** One registration, seen through the lookup. *)
Lemma registered_lookup (fixtures : list ezctest_fixture_t) (suite : cstr)
    (assign : ezctest_fixture_t -> ezctest_fixture_t) (fresh : ezctest_fixture_t) :
  (forall fx, fixture_suite_name (assign fx) = fixture_suite_name fx) ->
  fixture_suite_name fresh = suite ->
  match registered fixtures suite assign fresh with
  | Some fixtures' =>
      find_fixture_in fixtures' suite
      = Some (match find_fixture_in fixtures suite with
              | Some old => assign old
              | None => fresh
              end)
      /\ (forall other, other <> suite ->
            find_fixture_in fixtures' other = find_fixture_in fixtures other)
      /\ length fixtures' <= Nat.max (length fixtures) EZCTEST_MAX_FIXTURES
  | None =>
      find_fixture_in fixtures suite = None
      /\ EZCTEST_MAX_FIXTURES <= length fixtures
  end.
Proof.
  intros Hname Hfresh. unfold registered.
  destruct (update_fixture fixtures suite assign) as [fs|] eqn:Hupd.
  - destruct (find_fixture_updated _ _ _ _ Hname Hupd) as ((old & H1 & H2) & Ho & Hlen).
    rewrite H1. split; [exact H2|]. split; [exact Ho | lia].
  - apply find_fixture_unbound in Hupd.
    destruct (Nat.leb_spec EZCTEST_MAX_FIXTURES (length fixtures)) as [Hfull|Hroom].
    + split; assumption.
    + rewrite Hupd. split; [|split].
      * rewrite find_fixture_appended, Hupd, Hfresh.
        now rewrite (proj2 (strcmp_eq_true suite suite) eq_refl).
      * intros other Hother. rewrite find_fixture_appended, Hfresh.
        destruct (find_fixture_in fixtures other); [reflexivity|].
        destruct (strcmp_eq suite other) eqn:E; [|reflexivity].
        apply strcmp_eq_true in E. congruence.
      * rewrite length_app. simpl. lia.
Qed.

End Tables.

(** [ezctest_register] keeps the tests in the order of the calls and
    never holds more than EZCTEST_MAX_TESTS of them: after any sequence
    of calls the registry is what it was, followed by the first tests
    that still fit, each enabled and not failed; a call succeeds
    exactly when the registry has room, and a refused call leaves the
    registry as it is. *)
Theorem register_keeps_order_within_capacity :
  forall (calls : list (cstr * cstr * list stmt)) (suite test : cstr)
         (body : list stmt) (st : state),
    g_ezctest_registry (register_tests calls st)
    = g_ezctest_registry st
      ++ firstn (EZCTEST_MAX_TESTS - length (g_ezctest_registry st))
                (map registered_test calls)
    /\ length (g_ezctest_registry (register_tests calls initial_state))
       <= EZCTEST_MAX_TESTS
    /\ fst (ezctest_register suite test body st)
       = (length (g_ezctest_registry st) <? EZCTEST_MAX_TESTS)%nat
    /\ g_ezctest_registry (snd (ezctest_register suite test body st))
       = (if fst (ezctest_register suite test body st)
          then g_ezctest_registry st ++ [mk_info suite test body true false]
          else g_ezctest_registry st).
Proof.
  intros calls suite test body st.
  split; [apply register_tests_closed|]. split.
  - rewrite register_tests_closed. unfold initial_state.
    cbn [g_ezctest_registry length app]. rewrite length_firstn. lia.
  - unfold ezctest_register.
    destruct (Nat.leb_spec EZCTEST_MAX_TESTS (length (g_ezctest_registry st)));
      destruct (Nat.ltb_spec (length (g_ezctest_registry st)) EZCTEST_MAX_TESTS);
      try lia; split; reflexivity.
Qed.

(** What a setup or teardown registration does to the lookup by suite
    name.  When it succeeds, [ezctest_find_fixture] finds for the suite
    a fixture that carries the new callback and keeps the other callback
    of the fixture found before (none when the suite was unbound).  When
    it fails, the suite is unbound and the table is full.  The lookup of
    every other suite is unchanged either way. *)
Theorem fixture_lookup_after_registration :
  forall (suite : cstr) (f : func) (st : state),
    let old := ezctest_find_fixture suite st in
    let rs := ezctest_register_setup suite f st in
    let rt := ezctest_register_teardown suite f st in
    (if fst rs
     then ezctest_find_fixture suite (snd rs)
          = Some (mk_fixture suite (Some f)
                    (match old with Some fx => teardown fx | None => None end))
     else old = None
          /\ EZCTEST_MAX_FIXTURES <= length (g_ezctest_fixtures st)
          /\ g_ezctest_fixtures (snd rs) = g_ezctest_fixtures st)
    /\ (if fst rt
        then ezctest_find_fixture suite (snd rt)
             = Some (mk_fixture suite
                       (match old with Some fx => setup fx | None => None end)
                       (Some f))
        else old = None
             /\ EZCTEST_MAX_FIXTURES <= length (g_ezctest_fixtures st)
             /\ g_ezctest_fixtures (snd rt) = g_ezctest_fixtures st)
    /\ (forall other, other <> suite ->
          ezctest_find_fixture other (snd rs) = ezctest_find_fixture other st
          /\ ezctest_find_fixture other (snd rt) = ezctest_find_fixture other st).
Proof.
  intros suite f st. cbv zeta. unfold ezctest_find_fixture.
  assert (Hold : forall fx, find_fixture_in (g_ezctest_fixtures st) suite = Some fx ->
                            fixture_suite_name fx = suite).
  { induction (g_ezctest_fixtures st) as [|x l IH]; simpl; intros fx H; [discriminate|].
    destruct (strcmp_eq (fixture_suite_name x) suite) eqn:E; [|now apply IH].
    inversion H; subst. now apply strcmp_eq_true. }
  pose proof (register_setup_registered suite f st) as Hs.
  pose proof (registered_lookup (g_ezctest_fixtures st) suite (with_setup f)
                (mk_fixture suite (Some f) None) (fun _ => eq_refl) eq_refl) as Ls.
  pose proof (register_teardown_registered suite f st) as Ht.
  pose proof (registered_lookup (g_ezctest_fixtures st) suite (with_teardown f)
                (mk_fixture suite None (Some f)) (fun _ => eq_refl) eq_refl) as Lt.
  destruct (find_fixture_in (g_ezctest_fixtures st) suite) as [fx|] eqn:Eold.
  - pose proof (Hold fx eq_refl) as Hname.
    destruct (registered _ _ (with_setup f) _) as [fs|];
      [|destruct Ls; discriminate].
    destruct (registered _ _ (with_teardown f) _) as [ft|];
      [|destruct Lt; discriminate].
    destruct Hs as [-> ->], Ht as [-> ->].
    destruct Ls as (Ls1 & Ls2 & _), Lt as (Lt1 & Lt2 & _).
    rewrite Ls1, Lt1. unfold with_setup, with_teardown. rewrite Hname.
    split; [reflexivity|]. split; [reflexivity|].
    intros other Hother. split; auto.
  - destruct (registered _ _ (with_setup f) _) as [fs|];
      destruct (registered _ _ (with_teardown f) _) as [ft|];
      destruct Hs as [-> ->], Ht as [-> ->];
      repeat match goal with
             | H : _ /\ _ |- _ => destruct H
             end;
      (split; [solve [assumption | auto] | split; [solve [assumption | auto]|]]);
      intros other Hother; split; auto.
Qed.

(** The fixture table never outgrows EZCTEST_MAX_FIXTURES, whatever
    registrations are made. *)
Theorem fixture_table_bounded :
  forall (history : list registration),
    length (g_ezctest_fixtures (register_fixtures history initial_state))
    <= EZCTEST_MAX_FIXTURES.
Proof.
  intro history.
  assert (H : forall st, length (g_ezctest_fixtures st) <= EZCTEST_MAX_FIXTURES ->
              length (g_ezctest_fixtures (register_fixtures history st))
              <= EZCTEST_MAX_FIXTURES).
  { induction history as [|r history IH]; intros st Hst; [exact Hst|].
    simpl. apply IH. destruct r as [suite f|suite f]; simpl.
    - pose proof (register_setup_registered suite f st) as Hr.
      pose proof (registered_lookup (g_ezctest_fixtures st) suite (with_setup f)
                    (mk_fixture suite (Some f) None) (fun _ => eq_refl) eq_refl) as L.
      destruct (registered _ _ _ _); destruct Hr as [_ ->]; [|exact Hst].
      destruct L as (_ & _ & L). lia.
    - pose proof (register_teardown_registered suite f st) as Hr.
      pose proof (registered_lookup (g_ezctest_fixtures st) suite (with_teardown f)
                    (mk_fixture suite None (Some f)) (fun _ => eq_refl) eq_refl) as L.
      destruct (registered _ _ _ _); destruct Hr as [_ ->]; [|exact Hst].
      destruct L as (_ & _ & L). lia. }
  apply H. simpl. unfold EZCTEST_MAX_FIXTURES. lia.
Qed.

(** ** The command line *)

Lemma strncmp_prefix (lit rest : cstr) (n : nat) :
  n <= length lit -> strncmp_eq (lit ++ rest) lit n = true.
Proof.
  intro Hn. unfold strncmp_eq. apply strcmp_eq_true.
  rewrite firstn_app. replace (n - length lit) with 0 by lia.
  simpl. apply app_nil_r.
Qed.

Lemma strchr_skips (p rest : cstr) (c : ascii) :
  ~ In c p -> strchr (p ++ rest) c = strchr rest c.
Proof.
  induction p as [|x p IH]; simpl; intro H; [reflexivity|].
  destruct (Ascii.eqb_spec x c) as [->|_]; [tauto|]. apply IH. tauto.
Qed.

Lemma strchr_absent (s : cstr) (c : ascii) : strchr s c = None <-> ~ In c s.
Proof.
  induction s as [|x s IH]; simpl; [tauto|].
  destruct (Ascii.eqb_spec x c) as [->|Hx].
  - split; [discriminate | tauto].
  - rewrite IH. intuition congruence.
Qed.

Section CommandLine.

Variable atoi : cstr -> Z.



Lemma parse_arguments_app (a b : list cstr) (st : state) :
  ezctest_parse_arguments atoi (a ++ b) st
  = match ezctest_parse_arguments atoi a st with
    | Parsed st' => ezctest_parse_arguments atoi b st'
    | other => other
    end.
Proof.
  revert st. induction a as [|arg a IH]; intro st; simpl; [reflexivity|].
  destruct (parse_argument atoi arg st); auto.
Qed.

Lemma parse_filter_option (pattern : cstr) (st : state) :
  parse_argument atoi (cs "--filter=" ++ pattern) st
  = Parsed (set_config (with_filter (Some pattern) (g_ezctest_config st)) st)
  /\ parse_argument atoi (cs "--ezctest_filter=" ++ pattern) st
     = Parsed (set_config (with_filter (Some pattern) (g_ezctest_config st)) st).
Proof.
  unfold parse_argument. split.
  - rewrite (strncmp_prefix (cs "--filter=") pattern 9) by (vm_compute; lia).
    rewrite orb_true_r.
    change (cs "--filter=" ++ pattern) with (cs "--filter" ++ "=" :: pattern).
    rewrite strchr_skips by (vm_compute; intuition discriminate).
    reflexivity.
  - replace (strncmp_eq (cs "--ezctest_filter=" ++ pattern) (cs "--ezctest_filter=") 15)
      with true
      by (symmetry; apply (strncmp_prefix (cs "--ezctest_filter=") pattern 15);
          vm_compute; lia).
    cbn [orb].
    change (cs "--ezctest_filter=" ++ pattern)
      with (cs "--ezctest_filter" ++ "=" :: pattern).
    rewrite strchr_skips by (vm_compute; intuition discriminate).
    reflexivity.
Qed.

End CommandLine.



(** The filter option carries the pattern through unchanged, in both
    spellings, and when every argument is read the filter is that of
    the last filter option; the repeat option stores [atoi] of its
    value, or 1 when that is below 1. *)
Theorem filter_option_sets_the_filter :
  forall (atoi : cstr -> Z) (args : list cstr) (pattern value : cstr) (st st' : state),
    (ezctest_parse_arguments atoi args st = Parsed st' ->
     ezctest_parse_arguments atoi (args ++ [cs "--filter=" ++ pattern]) st
     = Parsed (set_config (with_filter (Some pattern) (g_ezctest_config st')) st')
     /\ ezctest_parse_arguments atoi (args ++ [cs "--ezctest_filter=" ++ pattern]) st
        = Parsed (set_config (with_filter (Some pattern) (g_ezctest_config st')) st'))
    /\ parse_argument atoi (cs "--repeat=" ++ value) st
       = Parsed (set_config (with_repeat (Z.max 1 (atoi value)) (g_ezctest_config st)) st).
Proof.
  intros atoi args pattern value st st'. split.
  - intro H. rewrite !parse_arguments_app, H. cbn [ezctest_parse_arguments].
    destruct (parse_filter_option atoi pattern st') as [-> ->]. split; reflexivity.
  - unfold parse_argument.
    replace (strncmp_eq (cs "--repeat=" ++ value) (cs "--ezctest_filter=") 15) with false
      by (unfold strncmp_eq, strcmp_eq;
          destruct (list_eq_dec _ _ _) as [E|_]; [vm_compute in E; inversion E | reflexivity]).
    replace (strncmp_eq (cs "--repeat=" ++ value) (cs "--filter=") 9) with false
      by (unfold strncmp_eq, strcmp_eq;
          destruct (list_eq_dec _ _ _) as [E|_]; [vm_compute in E; inversion E | reflexivity]).
    rewrite (strncmp_prefix (cs "--repeat=") value 9) by (vm_compute; lia).
    rewrite orb_true_r. cbn [orb].
    change (cs "--repeat=" ++ value) with (cs "--repeat" ++ "=" :: value).
    rewrite strchr_skips by (vm_compute; intuition discriminate).
    cbn [strchr Ascii.eqb Bool.eqb tl]. cbv zeta.
    destruct (Z.ltb_spec (atoi value) 1); do 3 f_equal; lia.
Qed.

Lemma filter_option_sets_the_filter_witness :
  ezctest_parse_arguments (fun _ => 3%Z)
    ([cs "--shuffle"; cs "--filter=Old*"] ++ [cs "--filter=" ++ cs "Math.*"]) initial_state
  = Parsed (set_config
              (with_filter (Some (cs "Math.*"))
                 (with_filter (Some (cs "Old*"))
                    (with_shuffle true (g_ezctest_config initial_state))))
              initial_state).
Proof.
  apply (proj1 (proj1 (filter_option_sets_the_filter
                         (fun _ => 3%Z) [cs "--shuffle"; cs "--filter=Old*"]
                         (cs "Math.*") [] initial_state
                         (set_config
                            (with_filter (Some (cs "Old*"))
                               (with_shuffle true (g_ezctest_config initial_state)))
                            initial_state))
                      eq_refl)).
Defined.

(** The long options for filter, repeat and worker are recognised by
    their first 15 characters only: any argument that begins with
    --ezctest_filte is read as a filter option, and its filter is what
    follows its first equals sign, whatever stands between; when such
    an argument holds no equals sign, [eq + 1] is formed from a NULL
    pointer and the result is undefined. *)
Theorem long_options_match_on_fifteen_characters :
  forall (atoi : cstr -> Z) (rest : cstr) (st : state),
    parse_argument atoi (cs "--ezctest_filte" ++ rest) st
    = match strchr rest "=" with
      | Some eq => Parsed (set_config (with_filter (Some (tl eq)) (g_ezctest_config st)) st)
      | None => ParseUndefined
      end
    /\ parse_argument atoi (cs "--ezctest_worke" ++ rest) st
       = match strchr rest "=" with
         | Some eq => Parsed (set_worker_index (atoi (tl eq)) st)
         | None => ParseUndefined
         end
    /\ (~ In "=" rest ->
        parse_argument atoi (cs "--ezctest_repea" ++ rest) st = ParseUndefined).
Proof.
  intros atoi rest st. unfold parse_argument.
  assert (Hpre : forall lit15 lit17 : cstr,
             length lit15 = 15 -> firstn 15 lit17 = lit15 ->
             strncmp_eq (lit15 ++ rest) lit17 15 = true).
  { intros lit15 lit17 Hlen Hfirst. unfold strncmp_eq. apply strcmp_eq_true.
    rewrite firstn_app, Hlen, Nat.sub_diag, firstn_O, app_nil_r, Hfirst.
    apply firstn_all2. lia. }
  assert (Hno : forall lit15 lit : cstr, forall n,
             firstn n lit15 <> firstn n lit -> n <= length lit15 ->
             strncmp_eq (lit15 ++ rest) lit n = false).
  { intros lit15 lit n Hdiff Hn. unfold strncmp_eq, strcmp_eq.
    destruct (list_eq_dec _ _ _) as [E|_]; [|reflexivity].
    rewrite firstn_app in E. replace (n - length lit15) with 0 in E by lia.
    rewrite firstn_O, app_nil_r in E. contradiction. }
  assert (Hstr : forall lit15 lit : cstr,
             length lit15 = 15 -> length lit <> 15 + length rest \/ firstn 15 lit <> lit15 ->
             strcmp_eq (lit15 ++ rest) lit = false).
  { intros lit15 lit Hlen Hd. unfold strcmp_eq.
    destruct (list_eq_dec _ _ _) as [E|_]; [|reflexivity].
    destruct Hd as [Hd|Hd]; exfalso; apply Hd.
    - rewrite <- E, length_app. lia.
    - rewrite <- E, firstn_app, Hlen, Nat.sub_diag, firstn_O, app_nil_r.
      apply firstn_all2. lia. }
  split; [|split].
  - rewrite (Hpre (cs "--ezctest_filte") (cs "--ezctest_filter=")) by reflexivity.
    cbn [orb]. rewrite strchr_skips by (vm_compute; intuition discriminate).
    reflexivity.
  - rewrite (Hno (cs "--ezctest_worke") (cs "--ezctest_filter=") 15),
            (Hno (cs "--ezctest_worke") (cs "--filter=") 9),
            (Hno (cs "--ezctest_worke") (cs "--ezctest_repeat=") 15),
            (Hno (cs "--ezctest_worke") (cs "--repeat=") 9)
      by (vm_compute; (discriminate || lia)).
    rewrite !Hstr by (try reflexivity; right; vm_compute; discriminate).
    rewrite (Hpre (cs "--ezctest_worke") (cs "--ezctest_worker=")) by reflexivity.
    cbn [orb]. rewrite strchr_skips by (vm_compute; intuition discriminate).
    reflexivity.
  - intro Hnone.
    rewrite (Hno (cs "--ezctest_repea") (cs "--ezctest_filter=") 15),
            (Hno (cs "--ezctest_repea") (cs "--filter=") 9)
      by (vm_compute; (discriminate || lia)).
    rewrite (Hpre (cs "--ezctest_repea") (cs "--ezctest_repeat=")) by reflexivity.
    cbn [orb]. rewrite strchr_skips by (vm_compute; intuition discriminate).
    apply strchr_absent in Hnone. now rewrite Hnone.
Qed.

Lemma long_options_match_on_fifteen_characters_witness :
  parse_argument (fun _ => 0%Z) (cs "--ezctest_repea" ++ cs "t") initial_state
  = ParseUndefined.
Proof.
  apply (proj2 (proj2 (long_options_match_on_fifteen_characters
                         (fun _ => 0%Z) (cs "t") initial_state))).
  vm_compute. intuition discriminate.
Defined.

(** ** Whole runs *)

Section Runs.

Lemma run_test_alive (t : ezctest_info_t) (st st' : state) (u : unit) :
  ezctest_run_test t st = Alive u st' ->
  fault_of (executed (test_func t)) = None /\ test_effect t st st'.
Proof.
  intro Hrun. pose proof (run_test_effect t st) as H. cbv zeta in H.
  destruct (fault_of (executed (test_func t))).
  - destruct H as [H _]. congruence.
  - destruct H as [H Heff]. rewrite Hrun in H, Heff. cbn [final_state] in Heff.
    split; [reflexivity | exact Heff].
Qed.

Lemma failures_le_checks (ex : list stmt) : (0 <= failures ex <= checks ex)%Z.
Proof.
  unfold failures, checks. split; [lia|]. apply inj_le.
  induction ex as [|s ex IH]; simpl; [lia|].
  destruct s as [[|]|[|]|f d|tag|sig]; simpl; lia.
Qed.

Lemma counted_refl (st st' : state) :
  g_ezctest_result st' = g_ezctest_result st -> counted 0 0 st st'.
Proof. unfold counted. intros ->. cbv zeta. repeat split; lia. Qed.

Lemma counted_trans (j1 k1 j2 k2 : Z) (st1 st2 st3 : state) :
  counted j1 k1 st1 st2 -> counted j2 k2 st2 st3 -> counted (j1 + j2) (k1 + k2) st1 st3.
Proof. unfold counted. cbv zeta. intros H1 H2. repeat split; lia. Qed.

Lemma same_setup_refl (st st' : state) :
  g_ezctest_config st' = g_ezctest_config st ->
  g_ezctest_fixtures st' = g_ezctest_fixtures st ->
  g_ezctest_worker_index st' = g_ezctest_worker_index st ->
  same_setup st st'.
Proof. unfold same_setup. tauto. Qed.

Lemma same_setup_trans (st1 st2 st3 : state) :
  same_setup st1 st2 -> same_setup st2 st3 -> same_setup st1 st3.
Proof. unfold same_setup. intuition congruence. Qed.

(** The run of one test in the process. *)
Lemma run_in_process_step (i : nat) (t : ezctest_info_t) (st st' : state) (u : unit) :
  run_in_process i t st = Alive u st' ->
  same_setup st st'
  /\ (g_ezctest_registry st' = g_ezctest_registry st
      \/ g_ezctest_registry st'
         = update_nth i (with_failed true) (g_ezctest_registry st))
  /\ counted 0 1 st st'
  /\ fault_of (executed (test_func t)) = None
  /\ output st'
     = output st ++ test_events (g_ezctest_worker_index st)
                                (ezctest_find_fixture (suite_name t) st) t.
Proof.
  unfold run_in_process. intro H.
  destruct (ezctest_run_test t st) as [u1 st1|sig st1] eqn:Hrun; [|discriminate].
  apply run_test_alive in Hrun. destruct Hrun as [Hfault Heff].
  cbn [bind] in H. inversion H; subst st'; clear H.
  destruct Heff as ((G1 & G2 & G3 & G4 & G5) & _ & _ & Hout & _ & _ & Ht & Hp & Hx
                    & Hc & Hn).
  pose proof (failures_le_checks (executed (test_func t))) as Hle.
  assert (Hcount : counted 0 1 st st1).
  { unfold counted. cbv zeta. rewrite Ht, Hp, Hx, Hc, Hn.
    destruct (verdict_failed _); repeat split; lia. }
  destruct (current_test_failed st1).
  - split; [now apply same_setup_refl|]. split; [right; simpl; now rewrite G1|].
    split; [exact Hcount|]. split; [exact Hfault | exact Hout].
  - split; [now apply same_setup_refl|]. split; [now left|].
    split; [exact Hcount|]. split; [exact Hfault | exact Hout].
Qed.

(** What [ezctest_exec_child] leaves in the parent: the output and the
    count of forks, and nothing else. *)
Lemma exec_child_parent (env : environment) (t : ezctest_info_t) (k : Z) (st : state) :
  exists o, snd (ezctest_exec_child env t k st) = set_output o (set_forks (S (forks st)) st).
Proof.
  unfold ezctest_exec_child. destruct (fork_fails env (forks st)).
  - eexists. reflexivity.
  - destruct (ezctest_run_test t _); eexists; reflexivity.
Qed.

Lemma run_isolated_step (env : environment) (i : nat) (t : ezctest_info_t) (k : Z)
    (st st' : state) (u : unit) :
  run_isolated env i t k st = Alive u st' ->
  same_setup st st'
  /\ (g_ezctest_registry st' = g_ezctest_registry st
      \/ g_ezctest_registry st'
         = update_nth i (with_failed true) (g_ezctest_registry st))
  /\ counted 0 1 st st'.
Proof.
  unfold run_isolated.
  destruct (exec_child_parent env t k (emit (LineRun (suite_name t) (test_name t)) st))
    as [o Ho].
  destruct (ezctest_exec_child env t k _) as [code st1]. simpl in Ho. subst st1.
  destruct (code =? 0)%Z; [|destruct (code =? 1)%Z; [|destruct (code <? 0)%Z]].
  - intro H; inversion H; subst st'. split; [now apply same_setup_refl|].
    split; [now left|]. unfold counted; simpl. repeat split; lia.
  - intro H; inversion H; subst st'. split; [now apply same_setup_refl|].
    split; [now right|]. unfold counted; simpl. repeat split; lia.
  - intro H. apply run_in_process_step in H.
    destruct H as (Hs & Hr & Hc & _). split; [exact Hs|]. split; [exact Hr | exact Hc].
  - intro H; inversion H; subst st'. split; [now apply same_setup_refl|].
    split; [now right|]. unfold counted; simpl. repeat split; lia.
Qed.

Lemma run_selected_step (env : environment) (isolation : bool) (i : nat)
    (t : ezctest_info_t) (k k' : Z) (st st' : state) :
  run_selected env isolation i t k st = Alive k' st' ->
  same_setup st st'
  /\ (g_ezctest_registry st' = g_ezctest_registry st
      \/ g_ezctest_registry st'
         = update_nth i (with_failed true) (g_ezctest_registry st))
  /\ counted 1 1 st st'.
Proof.
  unfold run_selected. destruct isolation.
  - destruct (run_isolated env i t k (incr_total_tests st)) as [u st1|] eqn:E;
      [|discriminate].
    intro H; inversion H; subst. apply run_isolated_step in E.
    destruct E as (Hs & Hr & Hc). split; [exact Hs|]. split; [exact Hr|].
    unfold counted in *. simpl in *. cbv zeta in *. repeat split; lia.
  - destruct (run_in_process i t (incr_total_tests st)) as [u st1|] eqn:E;
      [|discriminate].
    intro H; inversion H; subst. apply run_in_process_step in E.
    destruct E as (Hs & Hr & Hc & _). split; [exact Hs|]. split; [exact Hr|].
    unfold counted in *. simpl in *. cbv zeta in *. repeat split; lia.
Qed.

End Runs.

(** ** The shuffle *)

Section Shuffle.

Context {A : Type}.

Lemma nth_error_update_nth (f : A -> A) (l : list A) :
  forall i j,
    nth_error (update_nth i f l) j
    = if Nat.eqb j i then option_map f (nth_error l j) else nth_error l j.
Proof.
  induction l as [|x l IH]; intros i j.
  - destruct i as [|i], j as [|j]; simpl; try reflexivity.
    now destruct (Nat.eqb j i).
  - destruct i as [|i], j as [|j]; simpl; try reflexivity. apply IH.
Qed.

Lemma permutation_remove_nth (l : list A) :
  forall i a, nth_error l i = Some a -> Permutation l (a :: remove_nth i l).
Proof.
  induction l as [|x l IH]; intros i a H; [destruct i; discriminate|].
  destruct i as [|i]; simpl in *.
  - inversion H; subst. reflexivity.
  - rewrite (IH i a H) at 1. apply perm_swap.
Qed.

Lemma remove_nth_update_nth (f : A -> A) (l : list A) :
  forall i, remove_nth i (update_nth i f l) = remove_nth i l.
Proof.
  induction l as [|x l IH]; intro i; [now destruct i|].
  destruct i; simpl; [reflexivity | now rewrite IH].
Qed.

Lemma swap_at_permutation (i j : nat) (l : list A) : Permutation (swap_at i j l) l.
Proof.
  unfold swap_at.
  destruct (nth_error l i) as [a|] eqn:Ei; [|reflexivity].
  destruct (nth_error l j) as [b|] eqn:Ej; [|reflexivity].
  set (l1 := update_nth i (fun _ => b) l).
  assert (H1i : nth_error l1 i = Some b).
  { subst l1. now rewrite nth_error_update_nth, Nat.eqb_refl, Ei. }
  assert (H1j : nth_error l1 j = Some b).
  { subst l1. rewrite nth_error_update_nth.
    destruct (Nat.eqb j i); [now rewrite Ej | exact Ej]. }
  assert (H2j : nth_error (update_nth j (fun _ => a) l1) j = Some a).
  { now rewrite nth_error_update_nth, Nat.eqb_refl, H1j. }
  rewrite (permutation_remove_nth _ j a H2j), remove_nth_update_nth.
  rewrite (permutation_remove_nth l i a Ei).
  apply perm_skip.
  apply (Permutation_cons_inv (a := b)).
  rewrite <- (permutation_remove_nth l1 j b H1j).
  rewrite (permutation_remove_nth l1 i b H1i).
  subst l1. now rewrite remove_nth_update_nth.
Qed.

End Shuffle.

Lemma shuffle_loop_permutation (rnd : nat -> nat) (i : nat) :
  forall registry : list ezctest_info_t,
    Permutation (shuffle_loop rnd i registry) registry.
Proof.
  induction i as [|i IH]; intro registry; simpl; [reflexivity|].
  rewrite IH. apply swap_at_permutation.
Qed.

Lemma count_enabled_permutation (cfg : ezctest_config_t) (l l' : list ezctest_info_t) :
  Permutation l l' -> count_enabled cfg l = count_enabled cfg l'.
Proof.
  intro H. rewrite !count_enabled_selected. f_equal. apply Permutation_length.
  induction H; simpl.
  - reflexivity.
  - destruct (selected cfg x); auto.
  - destruct (selected cfg x), (selected cfg y); auto using perm_swap.
  - etransitivity; eassumption.
Qed.

(** The shuffle only reorders: whatever [rand] returns, the registry
    after it holds the same tests as before, each as often as before,
    and as many of them are selected by the filter. *)
Theorem shuffle_is_a_permutation :
  forall (rnd : nat -> nat) (i : nat) (registry : list ezctest_info_t)
         (cfg : ezctest_config_t),
    Permutation (shuffle_loop rnd i registry) registry
    /\ length (shuffle_loop rnd i registry) = length registry
    /\ count_enabled cfg (shuffle_loop rnd i registry) = count_enabled cfg registry.
Proof.
  intros rnd i registry cfg.
  pose proof (shuffle_loop_permutation rnd i registry) as H.
  split; [exact H|]. split; [now apply Permutation_length|].
  now apply count_enabled_permutation.
Qed.

(** ** The loops of a run *)

Section Loops.

Variable env : environment.

Lemma nth_error_skipn_cons {A : Type} (l : list A) :
  forall i t, nth_error l i = Some t -> skipn i l = t :: skipn (S i) l.
Proof.
  induction l as [|x l IH]; intros i t H; [destruct i; discriminate|].
  destruct i as [|i]; simpl in *; [now inversion H | now apply IH].
Qed.

Lemma skipn_update_nth {A : Type} (f : A -> A) (l : list A) :
  forall i, skipn (S i) (update_nth i f l) = skipn (S i) l.
Proof.
  induction l as [|x l IH]; intro i; [now destruct i|].
  destruct i as [|i]; [reflexivity|]. cbn [update_nth]. apply (IH i).
Qed.

Lemma erase_update_nth (b : bool) (l : list ezctest_info_t) :
  forall i, erase_failed (update_nth i (with_failed b) l) = erase_failed l.
Proof.
  induction l as [|x l IH]; intro i; [now destruct i|].
  destruct i as [|i]; simpl; [reflexivity | now rewrite IH].
Qed.

Lemma erase_erase (l : list ezctest_info_t) :
  erase_failed (erase_failed l) = erase_failed l.
Proof. unfold erase_failed. rewrite map_map. reflexivity. Qed.

Lemma count_enabled_erase (cfg : ezctest_config_t) (l : list ezctest_info_t) :
  count_enabled cfg (erase_failed l) = count_enabled cfg l.
Proof. induction l as [|t l IH]; simpl; [reflexivity | now rewrite IH]. Qed.

Lemma count_enabled_nonneg (cfg : ezctest_config_t) (l : list ezctest_info_t) :
  (0 <= count_enabled cfg l)%Z.
Proof. rewrite count_enabled_selected. lia. Qed.

Lemma pass_events_erase (st : state) (l : list ezctest_info_t) :
  pass_events st (erase_failed l) = pass_events st l.
Proof.
  unfold pass_events. induction l as [|t l IH]; [reflexivity|].
  cbn [erase_failed map List.filter].
  change (selected (g_ezctest_config st) (with_failed false t))
    with (selected (g_ezctest_config st) t).
  destruct (selected (g_ezctest_config st) t); [|exact IH].
  cbn [flat_map]. f_equal. exact IH.
Qed.

Lemma pass_events_same_setup (st st' : state) (l : list ezctest_info_t) :
  same_setup st st' -> pass_events st' l = pass_events st l.
Proof.
  intros (Hc & Hf & Hw). unfold pass_events, ezctest_find_fixture.
  now rewrite Hc, Hf, Hw.
Qed.

Lemma erase_same_count (cfg : ezctest_config_t) (l l' : list ezctest_info_t) :
  erase_failed l' = erase_failed l -> count_enabled cfg l' = count_enabled cfg l.
Proof.
  intro H. now rewrite <- (count_enabled_erase cfg l'), H, count_enabled_erase.
Qed.

(** One selected test of the main loop, in either mode. *)
Lemma run_selected_effect (isolation : bool) (i : nat) (t : ezctest_info_t)
    (k k' : Z) (st st' : state) :
  run_selected env isolation i t k st = Alive k' st' ->
  same_setup st st'
  /\ (g_ezctest_registry st' = g_ezctest_registry st
      \/ g_ezctest_registry st'
         = update_nth i (with_failed true) (g_ezctest_registry st))
  /\ counted 1 1 st st'
  /\ (isolation = false ->
      output st'
      = output st ++ test_events (g_ezctest_worker_index st)
                                 (ezctest_find_fixture (suite_name t) st) t).
Proof.
  intro H. destruct (run_selected_step env isolation i t k k' st st' H) as (Hs & Hr & Hc).
  split; [exact Hs|]. split; [exact Hr|]. split; [exact Hc|].
  intros ->. unfold run_selected in H.
  destruct (run_in_process i t (incr_total_tests st)) as [u st1|] eqn:E; [|discriminate].
  inversion H; subst. apply run_in_process_step in E.
  destruct E as (_ & _ & _ & _ & Hout). exact Hout.
Qed.

(** The inner loop from index [i] on, with [n] turns left. *)
Lemma test_loop_effect (isolation : bool) (n : nat) :
  forall (i : nat) (k k' : Z) (st st' : state),
    test_loop env isolation n i k st = Alive k' st' ->
    let visited := firstn n (skipn i (g_ezctest_registry st)) in
    let c := count_enabled (g_ezctest_config st) visited in
    same_setup st st'
    /\ erase_failed (g_ezctest_registry st') = erase_failed (g_ezctest_registry st)
    /\ counted c c st st'
    /\ (isolation = false -> output st' = output st ++ pass_events st visited).
Proof.
  induction n as [|n IH]; intros i k k' st st' H.
  - simpl in H. inversion H; subst. cbn [firstn count_enabled].
    split; [now apply same_setup_refl|]. split; [reflexivity|].
    split; [now apply counted_refl|]. intros _. symmetry. apply app_nil_r.
  - cbn [test_loop] in H.
    destruct (nth_error (g_ezctest_registry st) i) as [t|] eqn:Enth.
    + rewrite (nth_error_skipn_cons _ _ _ Enth). cbn [firstn count_enabled].
      assert (Hsel : selected (g_ezctest_config st) t
                     = enabled t && ezctest_matches_filter (suite_name t) (test_name t)
                                      (filter (g_ezctest_config st))) by reflexivity.
      destruct (enabled t) eqn:Een; cbn [negb andb] in *.
      * destruct (ezctest_matches_filter (suite_name t) (test_name t)
                    (filter (g_ezctest_config st))) eqn:Em; cbn [negb] in *.
        -- destruct (run_selected env isolation i t k st) as [k1 st1|] eqn:Esel;
             [|discriminate].
           cbn [bind] in H.
           destruct (run_selected_effect isolation i t k k1 st st1 Esel)
             as (Hs1 & Hr1 & Hc1 & Ho1).
           specialize (IH (S i) k1 k' st1 st' H). cbv zeta in IH.
           assert (Hskip : skipn (S i) (g_ezctest_registry st1)
                           = skipn (S i) (g_ezctest_registry st)).
           { destruct Hr1 as [->| ->]; [reflexivity | apply skipn_update_nth]. }
           assert (Herase : erase_failed (g_ezctest_registry st1)
                            = erase_failed (g_ezctest_registry st)).
           { destruct Hr1 as [->| ->]; [reflexivity | apply erase_update_nth]. }
           rewrite Hskip in IH. destruct Hs1 as (Hcfg & Hfx & Hw).
           rewrite Hcfg in IH. destruct IH as (Hs & Hr & Hc & Ho).
           split; [apply (same_setup_trans st st1 st'); [repeat split; assumption | exact Hs]|].
           split; [now rewrite Hr|]. split.
           ++ apply (counted_trans 1 1 _ _ st st1 st'); assumption.
           ++ intro Hiso. rewrite (Ho Hiso), (Ho1 Hiso), <- app_assoc.
              unfold pass_events at 2. cbn [List.filter]. rewrite Hsel.
              cbn [flat_map]. f_equal. f_equal.
              apply pass_events_same_setup. repeat split; assumption.
        -- specialize (IH (S i) k k' st st' H). cbv zeta in IH.
           destruct IH as (Hs & Hr & Hc & Ho).
           split; [exact Hs|]. split; [exact Hr|]. split; [exact Hc|].
           intro Hiso. rewrite (Ho Hiso). unfold pass_events. cbn [List.filter].
           now rewrite Hsel.
      * specialize (IH (S i) k k' st st' H). cbv zeta in IH.
        destruct IH as (Hs & Hr & Hc & Ho).
        split; [exact Hs|]. split; [exact Hr|]. split; [exact Hc|].
        intro Hiso. rewrite (Ho Hiso). unfold pass_events. cbn [List.filter].
        now rewrite Hsel.
    + inversion H; subst.
      assert (Hnil : skipn i (g_ezctest_registry st') = []).
      { apply skipn_all2. now apply nth_error_None. }
      rewrite Hnil, firstn_nil. cbn [count_enabled].
      split; [now apply same_setup_refl|]. split; [reflexivity|].
      split; [now apply counted_refl|]. intros _. symmetry. apply app_nil_r.
Qed.

End Loops.

Section Passes.

Variable env : environment.

Lemma passes_events_same (st st1 : state) (n : nat) :
  same_setup st st1 ->
  erase_failed (g_ezctest_registry st1) = erase_failed (g_ezctest_registry st) ->
  forall rep, passes_events st1 n rep = passes_events st n rep.
Proof.
  intros Hs He. induction n as [|n IH]; intro rep; [reflexivity|].
  cbn [passes_events]. rewrite IH. destruct Hs as (Hc & Hf & Hw).
  rewrite Hc. f_equal. f_equal.
  rewrite (pass_events_same_setup st st1) by (repeat split; assumption).
  now rewrite <- pass_events_erase, He, pass_events_erase.
Qed.

(** The outer loop with [n] passes left. *)
Lemma repeat_loop_effect (isolation : bool) (n : nat) :
  forall (rep : Z) (st st' : state),
    repeat_loop env isolation n rep st = Alive tt st' ->
    let c := count_enabled (g_ezctest_config st) (g_ezctest_registry st) in
    same_setup st st'
    /\ Permutation (erase_failed (g_ezctest_registry st'))
                   (erase_failed (g_ezctest_registry st))
    /\ counted (Z.of_nat n * c) (Z.of_nat n * c) st st'
    /\ (shuffle (g_ezctest_config st) = false ->
        erase_failed (g_ezctest_registry st') = erase_failed (g_ezctest_registry st))
    /\ (isolation = false -> shuffle (g_ezctest_config st) = false ->
        output st' = output st ++ passes_events st n rep).
Proof.
  induction n as [|n IH]; intros rep st st' H.
  - simpl in H. inversion H; subst. cbv zeta.
    split; [now apply same_setup_refl|]. split; [reflexivity|].
    split; [now apply counted_refl|]. split; [reflexivity|].
    intros _ _. symmetry. apply app_nil_r.
  - cbn [repeat_loop] in H. cbv zeta in H.
    set (st_a := set_registry (map (with_failed false) (g_ezctest_registry st)) st) in H.
    set (st_b := if (1 <? repeat (g_ezctest_config st))%Z then _ else st_a) in H.
    set (st_c := if shuffle (g_ezctest_config st) && (rep =? 0)%Z then _ else st_b) in H.
    assert (Hb : same_setup st st_b
                 /\ g_ezctest_registry st_b = erase_failed (g_ezctest_registry st)
                 /\ g_ezctest_result st_b = g_ezctest_result st
                 /\ output st_b
                    = output st ++ iteration_line (g_ezctest_config st) rep).
    { subst st_b st_a. unfold iteration_line.
      destruct (1 <? repeat (g_ezctest_config st))%Z; simpl;
        rewrite ?app_nil_r; repeat split; reflexivity. }
    destruct Hb as (Hsb & Hrb & Hresb & Hob).
    assert (Hc : same_setup st st_c
                 /\ Permutation (g_ezctest_registry st_c)
                                (erase_failed (g_ezctest_registry st))
                 /\ g_ezctest_result st_c = g_ezctest_result st
                 /\ output st_c = output st_b
                 /\ (shuffle (g_ezctest_config st) = false -> st_c = st_b)).
    { subst st_c. destruct (shuffle (g_ezctest_config st) && (rep =? 0)%Z) eqn:Esh.
      - split; [exact Hsb|]. split.
        + cbn [set_registry g_ezctest_registry]. rewrite <- Hrb.
          apply shuffle_loop_permutation.
        + split; [exact Hresb|]. split; [reflexivity|].
          intro Hno. rewrite Hno in Esh. discriminate.
      - split; [exact Hsb|]. split; [now rewrite Hrb|].
        split; [exact Hresb|]. split; reflexivity. }
    destruct Hc as (Hsc & Hpc & Hresc & Hoc & Hnoshuffle).
    rewrite Hob in Hoc.
    assert (Hreg_c : shuffle (g_ezctest_config st) = false ->
                     g_ezctest_registry st_c = erase_failed (g_ezctest_registry st)).
    { intro Hno. now rewrite (Hnoshuffle Hno). }
    clearbody st_c. clear Hnoshuffle. clearbody st_b. clear st_a Hsb Hrb Hresb Hob.
    destruct (test_loop env isolation (length (g_ezctest_registry st_c)) 0 0 st_c)
      as [k1 st1|] eqn:Eloop; [|discriminate].
    cbn [bind] in H.
    pose proof (test_loop_effect env isolation _ _ _ _ _ _ Eloop) as Hl.
    cbv zeta in Hl. cbn [skipn] in Hl. rewrite firstn_all in Hl.
    destruct Hl as (Hs1 & He1 & Hc1 & Ho1).
    specialize (IH (rep + 1)%Z st1 st' H). cbv zeta in IH.
    destruct IH as (Hs & Hp & Hcnt & Hkeep & Ho).
    destruct Hsc as (Hcfg & Hfx & Hw).
    assert (Hss : same_setup st st1).
    { apply (same_setup_trans st st_c st1); [repeat split; assumption | exact Hs1]. }
    assert (Hcount_c : count_enabled (g_ezctest_config st) (g_ezctest_registry st_c)
                       = count_enabled (g_ezctest_config st) (g_ezctest_registry st)).
    { rewrite (count_enabled_permutation _ _ _ Hpc). apply count_enabled_erase. }
    assert (Hcount_1 : count_enabled (g_ezctest_config st1) (g_ezctest_registry st1)
                       = count_enabled (g_ezctest_config st) (g_ezctest_registry st)).
    { destruct Hss as (-> & _). rewrite <- Hcount_c. now apply erase_same_count. }
    rewrite Hcfg, Hcount_c in Hc1. rewrite Hcount_1 in Hcnt.
    cbv zeta.
    split; [apply (same_setup_trans st st1 st'); assumption|].
    split.
    + rewrite Hp, He1. unfold erase_failed at 1 2.
      rewrite (Permutation_map (with_failed false) Hpc).
      fold (erase_failed (erase_failed (g_ezctest_registry st))).
      now rewrite erase_erase.
    + split.
      * pose proof (counted_trans _ _ _ _ st st1 st'
                      ltac:(unfold counted in *; cbv zeta in *;
                            rewrite <- ?Hresc; exact Hc1) Hcnt) as Hsum.
        replace (Z.of_nat (S n) * count_enabled (g_ezctest_config st)
                                                (g_ezctest_registry st))%Z
          with (count_enabled (g_ezctest_config st) (g_ezctest_registry st)
                + Z.of_nat n * count_enabled (g_ezctest_config st)
                                             (g_ezctest_registry st))%Z by lia.
        exact Hsum.
      * assert (Hno1 : shuffle (g_ezctest_config st) = false ->
                       shuffle (g_ezctest_config st1) = false).
        { destruct Hss as (-> & _). tauto. }
        split.
        { intro Hno. rewrite (Hkeep (Hno1 Hno)), He1, (Hreg_c Hno). apply erase_erase. }
        intros Hiso Hno. specialize (Hno1 Hno).
        rewrite (Ho Hiso Hno1), (Ho1 Hiso), Hoc, <- !app_assoc.
        cbn [passes_events]. f_equal. f_equal.
        specialize (Hreg_c Hno).
        f_equal.
        -- rewrite (pass_events_same_setup st st_c) by (repeat split; assumption).
           now rewrite Hreg_c, pass_events_erase.
        -- apply passes_events_same; [exact Hss|].
           now rewrite He1, Hreg_c, erase_erase.
Qed.

End Passes.

(** ** Whole runs: counters and exit code *)

Section WholeRun.

Variable env : environment.

Lemma run_internal_effect (st st' : state) (code : Z) :
  ezctest_run_all_tests_internal env st = Alive code st' ->
  let cfg := g_ezctest_config st in
  let c := count_enabled cfg (g_ezctest_registry st) in
  let n := Z.of_nat (passes cfg) in
  same_setup st st'
  /\ Permutation (erase_failed (g_ezctest_registry st'))
                 (erase_failed (g_ezctest_registry st))
  /\ counted (n * c) (n * c) st st'
  /\ (c = 0%Z -> code = 0%Z /\ st' = emit LineNoTests st)
  /\ (c <> 0%Z ->
      code = (if (failed_tests (g_ezctest_result st') =? 0)%Z then 0 else 1)%Z /\
      exists st1,
        repeat_loop env (use_process_isolation env cfg c) (passes cfg) 0
                    (emit (LineRunning c (repeat cfg) (use_process_isolation env cfg c)) st)
        = Alive tt st1
        /\ g_ezctest_result st' = g_ezctest_result st1
        /\ g_ezctest_registry st' = g_ezctest_registry st1
        /\ output st'
           = output st1 ++ final_report (use_process_isolation env cfg c) st1).
Proof.
  unfold ezctest_run_all_tests_internal. cbv zeta.
  destruct (Z.eqb_spec (count_enabled (g_ezctest_config st) (g_ezctest_registry st)) 0)
    as [Hz|Hnz].
  - intro H; inversion H; subst. rewrite Hz, Z.mul_0_r.
    split; [now apply same_setup_refl|]. split; [reflexivity|].
    split; [now apply counted_refl|]. split; [|congruence].
    intros _. split; reflexivity.
  - set (iso := use_process_isolation env _ _).
    set (st0 := emit _ st).
    destruct (repeat_loop env iso (Z.to_nat (repeat (g_ezctest_config st))) 0 st0)
      as [[] st1|] eqn:Eloop; [|discriminate].
    cbn [bind]. intro H; inversion H; subst code st'; clear H.
    pose proof (repeat_loop_effect env iso _ _ _ _ Eloop) as Hl. cbv zeta in Hl.
    change (g_ezctest_config st0) with (g_ezctest_config st) in Hl.
    change (g_ezctest_registry st0) with (g_ezctest_registry st) in Hl.
    destruct Hl as (Hs & Hp & Hc & _).
    split; [exact Hs|]. split; [exact Hp|]. split; [exact Hc|].
    split; [congruence|]. intros _. split; [reflexivity|]. exists st1.
    split; [exact Eloop|]. split; [reflexivity|]. split; reflexivity.
Qed.

End WholeRun.

(** ** One selected test of the main loop *)

Section Containment.

Variable env : environment.

Lemma run_in_process_returns (i : nat) (t : ezctest_info_t) (st : state) :
  fault_of (executed (test_func t)) = None ->
  exists st', run_in_process i t st = Alive tt st'.
Proof.
  intro Hf. unfold run_in_process.
  pose proof (run_test_effect t st) as H. cbv zeta in H. rewrite Hf in H.
  destruct H as [H _]. rewrite H. cbn [bind]. eexists. reflexivity.
Qed.

(** The isolated run of one test when [fork] succeeds and the child
    ends, by its exit or by a signal: the parent goes on, its assertion
    counters stay as they are, and it counts the test by the exit code
    of the child. *)
Lemma run_isolated_contained (i : nat) (t : ezctest_info_t) (k : Z) (st : state) :
  fork_fails env (forks st) = false ->
  let ex := executed (test_func t) in
  let fixture := ezctest_find_fixture (suite_name t)
                   (set_worker_index k st) in
  let r := g_ezctest_result st in
  exists st',
    run_isolated env i t k st = Alive tt st'
    /\ total_assertions (g_ezctest_result st') = total_assertions r
    /\ failed_assertions (g_ezctest_result st') = failed_assertions r
    /\ total_tests (g_ezctest_result st') = total_tests r
    /\ forks st' = S (forks st)
    /\ match fault_of ex with
       | Some sig =>
           output st'
           = output st
             ++ [LineRun (suite_name t) (test_name t)]
             ++ fault_events k fixture t
             ++ [LineAbnormal (128 + Z.of_nat sig);
                 LineReason (abnormal_reason (128 + Z.of_nat sig));
                 LineFailedByParent (suite_name t) (test_name t)]
           /\ g_ezctest_registry st'
              = update_nth i (with_failed true) (g_ezctest_registry st)
           /\ passed_tests (g_ezctest_result st') = passed_tests r
           /\ failed_tests (g_ezctest_result st') = (failed_tests r + 1)%Z
       | None =>
           output st'
           = output st
             ++ [LineRun (suite_name t) (test_name t)]
             ++ test_events k fixture t
           /\ g_ezctest_registry st'
              = (if verdict_failed ex
                 then update_nth i (with_failed true) (g_ezctest_registry st)
                 else g_ezctest_registry st)
           /\ passed_tests (g_ezctest_result st')
              = (passed_tests r + (if verdict_failed ex then 0 else 1))%Z
           /\ failed_tests (g_ezctest_result st')
              = (failed_tests r + (if verdict_failed ex then 1 else 0))%Z
       end.
Proof.
  intros Hfork ex fixture r. unfold run_isolated, ezctest_exec_child.
  cbn [forks emit set_output]. rewrite Hfork.
  set (child := reset_result _).
  assert (Hk : g_ezctest_worker_index child = k) by reflexivity.
  assert (Hfx : ezctest_find_fixture (suite_name t) child = fixture) by reflexivity.
  assert (Ho : output child = output st ++ [LineRun (suite_name t) (test_name t)])
    by reflexivity.
  pose proof (run_test_effect t child) as H. cbv zeta in H.
  set (child' := final_state _) in *. clearbody child'. clearbody child.
  subst ex. destruct (fault_of (executed (test_func t))) as [sig|].
  - destruct H as [Hrun Hout]. rewrite Hrun. rewrite Hk, Hfx, Ho in Hout.
    destruct (Z.eqb_spec (128 + Z.of_nat sig) 0) as [E|_]; [lia|].
    destruct (Z.eqb_spec (128 + Z.of_nat sig) 1) as [E|_]; [lia|].
    destruct (Z.ltb_spec (128 + Z.of_nat sig) 0) as [E|_]; [lia|].
    eexists. split; [reflexivity|]. cbn. rewrite Hout, <- !app_assoc.
    repeat split; reflexivity.
  - destruct H as [Hrun Heff]. rewrite Hrun.
    destruct Heff as (_ & _ & _ & Hout & Hcf & Hca & _).
    rewrite Hk, Hfx, Ho in Hout.
    assert (Hv : current_test_failed child' = verdict_failed (executed (test_func t))).
    { unfold current_test_failed, verdict_failed. now rewrite Hcf, Hca. }
    rewrite Hv. clear Hv Hcf Hca.
    destruct (verdict_failed (executed (test_func t))); cbn [Z.eqb];
      (eexists; split; [reflexivity|]); cbn; rewrite Hout, <- !app_assoc;
      repeat split; try reflexivity; subst r; lia.
Qed.

Lemma run_isolated_returns (i : nat) (t : ezctest_info_t) (k : Z) (st : state) :
  fork_fails env (forks st) = false \/ fault_of (executed (test_func t)) = None ->
  exists st', run_isolated env i t k st = Alive tt st'.
Proof.
  intro H. destruct (fork_fails env (forks st)) eqn:Hfork.
  - destruct H as [H|H]; [discriminate|].
    unfold run_isolated, ezctest_exec_child. cbn [forks emit set_output].
    rewrite Hfork. cbn [Z.eqb Z.ltb Z.compare]. now apply run_in_process_returns.
  - destruct (run_isolated_contained i t k st Hfork) as (st' & Hrun & _).
    now exists st'.
Qed.

Lemma run_selected_returns (isolation : bool) (i : nat) (t : ezctest_info_t)
    (k : Z) (st : state) :
  (isolation = true /\ forks_succeed env) \/ fault_of (executed (test_func t)) = None ->
  exists k' st', run_selected env isolation i t k st = Alive k' st'.
Proof.
  intro H. unfold run_selected. destruct isolation.
  - destruct (run_isolated_returns i t k (incr_total_tests st)) as [st' Hrun].
    { destruct H as [[_ H]|H]; [left; apply H | now right]. }
    rewrite Hrun. cbn [bind]. eexists _, _. reflexivity.
  - destruct H as [[H _]|H]; [discriminate|].
    destruct (run_in_process_returns i t (incr_total_tests st) H) as [st' Hrun].
    rewrite Hrun. cbn [bind]. eexists _, _. reflexivity.
Qed.

End Containment.

Section Passes2.

Variable env : environment.

(** What precedes the inner loop in one pass. *)
Lemma repeat_loop_pass (isolation : bool) (n : nat) (rep : Z) (st : state) :
  exists st_c,
    repeat_loop env isolation (S n) rep st
    = bind (test_loop env isolation (length (g_ezctest_registry st_c)) 0 0 st_c)
           (fun _ st => repeat_loop env isolation n (rep + 1) st)
    /\ same_setup st st_c
    /\ Permutation (g_ezctest_registry st_c) (erase_failed (g_ezctest_registry st))
    /\ g_ezctest_result st_c = g_ezctest_result st
    /\ forks st_c = forks st.
Proof.
  cbn [repeat_loop]. cbv zeta. eexists. split; [reflexivity|].
  destruct (1 <? repeat (g_ezctest_config st))%Z,
           (shuffle (g_ezctest_config st) && (rep =? 0)%Z);
    cbn [set_registry emit set_output g_ezctest_registry g_ezctest_result forks];
    (split; [now apply same_setup_refl|]); (split; [|split; reflexivity]);
    try apply shuffle_loop_permutation; reflexivity.
Qed.

Lemma test_loop_contained (n : nat) :
  forks_succeed env ->
  forall (i : nat) (k k' : Z) (st st' : state),
    test_loop env true n i k st = Alive k' st' ->
    let c := count_enabled (g_ezctest_config st)
                           (firstn n (skipn i (g_ezctest_registry st))) in
    total_assertions (g_ezctest_result st') = total_assertions (g_ezctest_result st)
    /\ failed_assertions (g_ezctest_result st') = failed_assertions (g_ezctest_result st)
    /\ Z.of_nat (forks st') = (Z.of_nat (forks st) + c)%Z
    /\ k' = (k + c)%Z.
Proof.
  intro Hforks. induction n as [|n IH]; intros i k k' st st' H.
  - simpl in H. inversion H; subst. cbn [firstn count_enabled]. repeat split; lia.
  - cbn [test_loop] in H.
    destruct (nth_error (g_ezctest_registry st) i) as [t|] eqn:Enth.
    + rewrite (nth_error_skipn_cons _ _ _ Enth). cbn [firstn count_enabled].
      destruct (enabled t) eqn:Een; cbn [negb andb] in *; [|now apply IH].
      destruct (ezctest_matches_filter (suite_name t) (test_name t)
                  (filter (g_ezctest_config st))) eqn:Em; cbn [negb] in *;
        [|now apply IH].
      destruct (run_selected env true i t k st) as [k1 st1|] eqn:Esel; [|discriminate].
      cbn [bind] in H.
      destruct (run_selected_effect env true i t k k1 st st1 Esel)
        as ((Hcfg & _) & Hr1 & _).
      unfold run_selected in Esel.
      destruct (run_isolated_contained env i t k (incr_total_tests st) (Hforks _))
        as (st2 & Hrun & Hta & Hfa & _ & Hfk & _).
      rewrite Hrun in Esel. cbn [bind] in Esel. inversion Esel; subst k1 st2; clear Esel.
      specialize (IH (S i) _ k' st1 st' H). cbv zeta in IH.
      assert (Hskip : skipn (S i) (g_ezctest_registry st1)
                      = skipn (S i) (g_ezctest_registry st)).
      { destruct Hr1 as [->| ->]; [reflexivity | apply skipn_update_nth]. }
      rewrite Hskip, Hcfg in IH. destruct IH as (Ha & Hb & Hc & Hd).
      cbn in Hta, Hfa, Hfk. rewrite Ha, Hb, Hta, Hfa. repeat split; lia.
    + inversion H; subst.
      assert (Hnil : skipn i (g_ezctest_registry st') = []).
      { apply skipn_all2. now apply nth_error_None. }
      rewrite Hnil, firstn_nil. cbn [count_enabled]. repeat split; lia.
Qed.

Lemma repeat_loop_contained (n : nat) :
  forks_succeed env ->
  forall (rep : Z) (st st' : state),
    repeat_loop env true n rep st = Alive tt st' ->
    let c := count_enabled (g_ezctest_config st) (g_ezctest_registry st) in
    total_assertions (g_ezctest_result st') = total_assertions (g_ezctest_result st)
    /\ failed_assertions (g_ezctest_result st') = failed_assertions (g_ezctest_result st)
    /\ Z.of_nat (forks st') = (Z.of_nat (forks st) + Z.of_nat n * c)%Z.
Proof.
  intro Hforks. induction n as [|n IH]; intros rep st st' H.
  - simpl in H. inversion H; subst. repeat split; lia.
  - destruct (repeat_loop_pass true n rep st) as (st_c & Heq & (Hcfg & _) & Hp & Hres & Hfk).
    rewrite Heq in H. clear Heq.
    destruct (test_loop env true (length (g_ezctest_registry st_c)) 0 0 st_c)
      as [k1 st1|] eqn:Eloop; [|discriminate].
    cbn [bind] in H.
    destruct (test_loop_effect env true _ _ _ _ _ _ Eloop) as ((Hc1 & _) & He1 & _).
    apply (test_loop_contained _ Hforks) in Eloop. cbv zeta in Eloop.
    cbn [skipn] in Eloop. rewrite firstn_all in Eloop.
    destruct Eloop as (Ha & Hb & Hc & _).
    specialize (IH _ _ _ H). cbv zeta in IH. destruct IH as (Ha' & Hb' & Hc').
    assert (Hcount_c : count_enabled (g_ezctest_config st) (g_ezctest_registry st_c)
                       = count_enabled (g_ezctest_config st) (g_ezctest_registry st)).
    { rewrite (count_enabled_permutation _ _ _ Hp). apply count_enabled_erase. }
    rewrite Hc1, Hcfg, (erase_same_count _ _ _ He1), Hcount_c in Hc'.
    rewrite Hcfg, Hcount_c in Hc. cbv zeta.
    rewrite Ha', Hb', Ha, Hb, Hres. repeat split; lia.
Qed.

Lemma final_report_same (isolation : bool) (st st' : state) :
  g_ezctest_result st' = g_ezctest_result st ->
  g_ezctest_registry st' = g_ezctest_registry st ->
  final_report isolation st' = final_report isolation st.
Proof. unfold final_report. now intros -> ->. Qed.

Lemma last_not_all_passed (l : list event) (d : event) :
  l <> [] -> Forall (fun e => is_all_passed e = false) l ->
  is_all_passed (last l d) = false.
Proof.
  induction l as [|x l IH]; [congruence|]. intros _ H. inversion H; subst.
  destruct l as [|y l]; [assumption|]. apply IH; [discriminate | assumption].
Qed.

(** The last line of the summary declares success exactly when the
    counters of run and passed tests agree. *)
Lemma final_report_last (isolation : bool) (st : state) (d : event) :
  let r := g_ezctest_result st in
  if (total_tests r =? passed_tests r)%Z
  then last (final_report isolation st) d = LineAllPassed (total_tests r)
  else is_all_passed (last (final_report isolation st) d) = false.
Proof.
  cbv zeta. unfold final_report.
  destruct (total_tests (g_ezctest_result st) =? passed_tests (g_ezctest_result st))%Z.
  - rewrite !app_assoc. apply last_last.
  - rewrite app_nil_r. apply last_not_all_passed; [discriminate|].
    repeat (apply Forall_app; split).
    + repeat constructor.
    + destruct (0 <? failed_tests (g_ezctest_result st))%Z; [|constructor].
      constructor; [reflexivity|]. rewrite Forall_map. now apply Forall_forall.
    + destruct isolation; repeat constructor.
Qed.

End Passes2.

(** ** Properties of whole runs *)

(** A run that comes back has started every selected test once in
    every pass and has counted each of them either as passed or as
    failed; the assertion counters grew together; the configuration and
    the fixtures are as before, and the registry holds the same tests,
    up to their order and their failure flags. *)
Theorem run_counts_selected_tests_in_every_pass :
  forall (env : environment) (st st' : state) (code : Z),
    ezctest_run_all_tests_internal env st = Alive code st' ->
    let cfg := g_ezctest_config st in
    let c := count_enabled cfg (g_ezctest_registry st) in
    let n := Z.max 0 (repeat cfg) in
    let r := g_ezctest_result st in
    let r' := g_ezctest_result st' in
    total_tests r' = (total_tests r + n * c)%Z
    /\ (passed_tests r' + failed_tests r' = passed_tests r + failed_tests r + n * c)%Z
    /\ (passed_tests r <= passed_tests r')%Z
    /\ (failed_tests r <= failed_tests r')%Z
    /\ (0 <= failed_assertions r' - failed_assertions r
        <= total_assertions r' - total_assertions r)%Z
    /\ g_ezctest_config st' = cfg
    /\ g_ezctest_fixtures st' = g_ezctest_fixtures st
    /\ Permutation (erase_failed (g_ezctest_registry st'))
                   (erase_failed (g_ezctest_registry st)).
Proof.
  intros env st st' code H. apply run_internal_effect in H. cbv zeta in H.
  destruct H as ((Hcfg & Hfx & _) & Hp & Hc & _). cbv zeta.
  unfold counted, passes in Hc. cbv zeta in Hc.
  replace (Z.of_nat (Z.to_nat (repeat (g_ezctest_config st))))
    with (Z.max 0 (repeat (g_ezctest_config st))) in Hc by lia.
  destruct Hc as (H1 & H2 & H3 & H4 & H5 & H6).
  repeat split; try assumption; lia.
Qed.

Lemma run_counts_selected_tests_in_every_pass_witness :
  total_tests (g_ezctest_result repeated_run_end) = 6%Z
  /\ (passed_tests (g_ezctest_result repeated_run_end)
      + failed_tests (g_ezctest_result repeated_run_end) = 6)%Z.
Proof.
  destruct (run_counts_selected_tests_in_every_pass
              quiet_env repeated_run_state repeated_run_end 1
              ltac:(vm_compute; reflexivity)) as (H1 & H2 & _).
  split; [exact H1 | exact H2].
Defined.

Lemma last_app_nonempty (l1 l2 : list event) (d : event) :
  l2 <> [] -> last (l1 ++ l2) d = last l2 d.
Proof.
  intro H. induction l1 as [|x l1 IH]; [reflexivity|].
  cbn [app]. destruct (l1 ++ l2) eqn:E; [|exact IH].
  apply app_eq_nil in E. destruct E. contradiction.
Qed.

(** When the process starts a run with no test counted as failed and
    all counted tests passed, as it is at start-up, and some test is
    selected, the exit code is 0 exactly when every test the run counted
    has passed, and exactly then the last line written declares that all
    tests passed; otherwise the code is 1. *)
Theorem exit_code_zero_iff_all_passed :
  forall (env : environment) (st st' : state) (code : Z),
    failed_tests (g_ezctest_result st) = 0%Z ->
    passed_tests (g_ezctest_result st) = total_tests (g_ezctest_result st) ->
    count_enabled (g_ezctest_config st) (g_ezctest_registry st) <> 0%Z ->
    ezctest_run_all_tests_internal env st = Alive code st' ->
    let r' := g_ezctest_result st' in
    (code = 0%Z <-> passed_tests r' = total_tests r')
    /\ (code = 0%Z <-> last (output st') LineNoTests = LineAllPassed (total_tests r'))
    /\ (code <> 0%Z -> code = 1%Z /\ (0 < failed_tests r')%Z).
Proof.
  intros env st st' code Hf Hp Hc H. apply run_internal_effect in H. cbv zeta in H.
  destruct H as (_ & _ & Hcnt & _ & H). destruct (H Hc) as (Hcode & st1 & _ & Hr & Hreg & Hout).
  clear H. unfold counted in Hcnt. cbv zeta in Hcnt.
  destruct Hcnt as (H1 & H2 & H3 & H4 & _). cbv zeta.
  set (iso := use_process_isolation _ _ _) in Hout.
  rewrite <- (final_report_same iso st1 st' Hr Hreg) in Hout.
  assert (Hlast : last (output st') LineNoTests = last (final_report iso st') LineNoTests).
  { rewrite Hout. apply last_app_nonempty. discriminate. }
  pose proof (final_report_last iso st' LineNoTests) as Hfin. cbv zeta in Hfin.
  rewrite Hlast.
  destruct (Z.eqb_spec (failed_tests (g_ezctest_result st')) 0) as [Hz|Hnz]; subst code.
  - assert (Heq : total_tests (g_ezctest_result st') = passed_tests (g_ezctest_result st'))
      by lia.
    rewrite <- Z.eqb_eq in Heq. rewrite Heq in Hfin. apply Z.eqb_eq in Heq.
    split; [split; intros _; [lia | reflexivity]|].
    split; [split; intros _; [exact Hfin | reflexivity]|]. intro Hx. now elim Hx.
  - assert (Hne : total_tests (g_ezctest_result st') <> passed_tests (g_ezctest_result st'))
      by lia.
    rewrite <- Z.eqb_neq in Hne. rewrite Hne in Hfin. apply Z.eqb_neq in Hne.
    split; [split; intro Hx; [discriminate | lia]|].
    split; [split; intro Hx; [discriminate|]|].
    + rewrite Hx in Hfin. discriminate.
    + intros _. split; [reflexivity | lia].
Qed.

Lemma exit_code_zero_iff_all_passed_witness :
  (0 < failed_tests (g_ezctest_result repeated_run_end))%Z.
Proof.
  assert (Hne : 1%Z <> 0%Z) by discriminate.
  destruct (exit_code_zero_iff_all_passed
              quiet_env repeated_run_state repeated_run_end 1
              eq_refl eq_refl ltac:(vm_compute; discriminate)
              ltac:(vm_compute; reflexivity)) as (_ & _ & H).
  exact (proj2 (H Hne)).
Defined.



Lemma body_trace_no_summary (ex : list stmt) :
  forall n, List.filter is_summary_line (body_trace n ex) = [].
Proof.
  induction ex as [|s ex IH]; intro n; [reflexivity|].
  destruct s as [[|]|[|]|f d|tag|sig]; cbn [body_trace app List.filter is_summary_line];
    try apply IH.
  destruct (EZCTEST_MAX_DEFER_CALLBACKS <=? n)%nat;
    cbn [List.filter is_summary_line]; apply IH.
Qed.

Lemma cleanup_calls_no_summary (entries : list (func * data)) :
  List.filter is_summary_line (cleanup_calls entries) = [].
Proof. induction entries as [|e entries IH]; [reflexivity | exact IH]. Qed.

Lemma fault_events_no_summary (w : Z) (fixture : option ezctest_fixture_t)
    (t : ezctest_info_t) :
  List.filter is_summary_line (fault_events w fixture t) = [].
Proof.
  unfold fault_events, run_line, setup_call.
  rewrite !filter_app, body_trace_no_summary.
  destruct (0 <=? w)%Z, fixture as [[name [f|] td]|]; reflexivity.
Qed.

Lemma test_events_no_summary (w : Z) (fixture : option ezctest_fixture_t)
    (t : ezctest_info_t) :
  List.filter is_summary_line (test_events w fixture t) = [].
Proof.
  unfold test_events, run_line, setup_call, teardown_call.
  rewrite !filter_app, body_trace_no_summary, cleanup_calls_no_summary.
  destruct (0 <=? w)%Z, fixture as [[name [f|] [g|]]|],
           (fatal (executed (test_func t))), (verdict_failed (executed (test_func t)));
    reflexivity.
Qed.

Lemma pass_events_no_summary (st : state) (l : list ezctest_info_t) :
  List.filter is_summary_line (pass_events st l) = [].
Proof.
  unfold pass_events.
  induction (List.filter (selected (g_ezctest_config st)) l) as [|t l' IH];
    [reflexivity|].
  cbn [flat_map]. now rewrite filter_app, test_events_no_summary, IH.
Qed.

Lemma count_enabled_has_selected (cfg : ezctest_config_t) (l : list ezctest_info_t)
    (t : ezctest_info_t) :
  In t l -> selected cfg t = true -> count_enabled cfg l <> 0%Z.
Proof.
  intros Hin Hsel. rewrite count_enabled_selected.
  assert (Hf : In t (List.filter (selected cfg) l)) by (apply filter_In; now split).
  destruct (List.filter (selected cfg) l); [contradiction | cbn [length]; lia].
Qed.

Section FirstFault.

Variable env : environment.

(** The inner loop in the process, when the tests still to visit hold a
    selected test that faults after tests that do not: the loop runs
    the tests before it, starts the faulting one, and the process dies
    there. *)
Lemma test_loop_dies (n : nat) :
  forall (i : nat) (k : Z) (st : state) (pre post : list ezctest_info_t)
         (t : ezctest_info_t) (sig : nat),
    firstn n (skipn i (g_ezctest_registry st)) = pre ++ t :: post ->
    faultless (g_ezctest_config st) pre ->
    selected (g_ezctest_config st) t = true ->
    fault_of (executed (test_func t)) = Some sig ->
    exists st',
      test_loop env false n i k st = Died sig st'
      /\ output st'
         = output st
           ++ pass_events st pre
           ++ fault_events (g_ezctest_worker_index st)
                           (ezctest_find_fixture (suite_name t) st) t.
Proof.
  induction n as [|n IH]; intros i k st pre post t sig Hvis Hpre Hsel Hfault.
  - cbn [firstn] in Hvis. destruct pre; discriminate.
  - cbn [test_loop].
    destruct (nth_error (g_ezctest_registry st) i) as [x|] eqn:Enth.
    + rewrite (nth_error_skipn_cons _ _ _ Enth) in Hvis. cbn [firstn] in Hvis.
      assert (Hselx : selected (g_ezctest_config st) x
                      = enabled x && ezctest_matches_filter (suite_name x) (test_name x)
                                       (filter (g_ezctest_config st))) by reflexivity.
      destruct pre as [|y pre].
      * cbn [app] in Hvis. inversion Hvis; subst x. clear Hvis.
        rewrite Hsel in Hselx. symmetry in Hselx. apply andb_true_iff in Hselx.
        destruct Hselx as [Hen Hm]. rewrite Hen, Hm. cbn [negb].
        unfold run_selected, run_in_process.
        pose proof (run_test_effect t (incr_total_tests st)) as H. cbv zeta in H.
        rewrite Hfault in H. destruct H as [Hrun Hout]. rewrite Hrun. cbn [bind].
        eexists. split; [reflexivity|]. rewrite Hout. reflexivity.
      * cbn [app] in Hvis. inversion Hvis as [[Hx Hrest]]. subst y. clear Hvis.
        inversion Hpre as [|? ? Hpx Hpre']; subst.
        destruct (selected (g_ezctest_config st) x) eqn:Esel.
        -- symmetry in Hselx. apply andb_true_iff in Hselx.
           destruct Hselx as [Hen Hm]. rewrite Hen, Hm. cbn [negb].
           destruct (run_selected_returns env false i x k st (or_intror (Hpx eq_refl)))
             as (k1 & st1 & Hrun).
           rewrite Hrun. cbn [bind].
           destruct (run_selected_effect env false i x k k1 st st1 Hrun)
             as ((Hcfg & Hfx & Hw) & Hreg & _ & Hout).
           assert (Hskip : skipn (S i) (g_ezctest_registry st1)
                           = skipn (S i) (g_ezctest_registry st)).
           { destruct Hreg as [->| ->]; [reflexivity | apply skipn_update_nth]. }
           destruct (IH (S i) k1 st1 pre post t sig) as (st' & Hdie & Hout');
             [now rewrite Hskip | now rewrite Hcfg | now rewrite Hcfg | exact Hfault |].
           exists st'. split; [exact Hdie|].
           rewrite Hout', (Hout eq_refl), <- !app_assoc.
           unfold pass_events at 2. cbn [List.filter]. rewrite Esel. cbn [flat_map].
           rewrite <- !app_assoc. do 2 f_equal.
           rewrite (pass_events_same_setup st st1) by (repeat split; assumption).
           unfold ezctest_find_fixture. now rewrite Hw, Hfx.
        -- assert (Hskipped : (if negb (enabled x)
                               then test_loop env false n (S i) k st
                               else if negb (ezctest_matches_filter (suite_name x)
                                               (test_name x) (filter (g_ezctest_config st)))
                               then test_loop env false n (S i) k st
                               else bind (run_selected env false i x k st)
                                         (fun test_count st =>
                                            test_loop env false n (S i) test_count st))
                              = test_loop env false n (S i) k st).
           { destruct (enabled x); cbn [negb andb] in *; [|reflexivity].
             rewrite <- Hselx. reflexivity. }
           rewrite Hskipped.
           destruct (IH (S i) k st pre post t sig Hrest Hpre' Hsel Hfault)
             as (st' & Hdie & Hout').
           exists st'. split; [exact Hdie|]. rewrite Hout'.
           unfold pass_events at 2. cbn [List.filter]. now rewrite Esel.
    + assert (Hnil : skipn i (g_ezctest_registry st) = []).
      { apply skipn_all2. now apply nth_error_None. }
      rewrite Hnil, firstn_nil in Hvis. destruct pre; discriminate.
Qed.

(** What precedes the inner loop in the first pass. *)
Lemma repeat_loop_first_pass (isolation : bool) (n : nat) (st : state) :
  exists st_c,
    repeat_loop env isolation (S n) 0 st
    = bind (test_loop env isolation (length (g_ezctest_registry st_c)) 0 0 st_c)
           (fun _ st => repeat_loop env isolation n (0 + 1) st)
    /\ same_setup st st_c
    /\ g_ezctest_registry st_c
       = first_pass_order env (g_ezctest_config st) (g_ezctest_registry st)
    /\ output st_c = output st ++ iteration_line (g_ezctest_config st) 0.
Proof.
  cbn [repeat_loop]. cbv zeta. eexists. split; [reflexivity|].
  unfold first_pass_order, iteration_line, erase_failed.
  destruct (1 <? repeat (g_ezctest_config st))%Z, (shuffle (g_ezctest_config st));
    cbn; rewrite ?app_nil_r; repeat split; reflexivity.
Qed.

End FirstFault.

(** In the process a fault is not contained.  When the run is not
    isolated and, in the order of the first pass, a selected test that
    reaches a faulting statement comes after tests whose bodies end
    without a fault, the run does not come back: the process dies of
    the signal of that test.  What it has written by then is the opening line, the
    iteration line of a repeated run, the events of the selected tests
    before the faulting one and what the faulting test wrote before the
    signal; no line of the summary is among it. *)
Theorem in_process_fault_ends_the_run :
  forall (env : environment) (st : state) (pre post : list ezctest_info_t)
         (t : ezctest_info_t) (sig : nat),
    let cfg := g_ezctest_config st in
    let c := count_enabled cfg (g_ezctest_registry st) in
    use_process_isolation env cfg c = false ->
    (1 <= repeat cfg)%Z ->
    first_pass_order env cfg (g_ezctest_registry st) = pre ++ t :: post ->
    faultless cfg pre ->
    selected cfg t = true ->
    fault_of (executed (test_func t)) = Some sig ->
    exists st' events,
      ezctest_run_all_tests_internal env st = Died sig st'
      /\ output st' = output st ++ events
      /\ events
         = [LineRunning c (repeat cfg) false]
           ++ iteration_line cfg 0
           ++ pass_events st pre
           ++ fault_events (g_ezctest_worker_index st)
                           (ezctest_find_fixture (suite_name t) st) t
      /\ List.filter is_summary_line events = [].
Proof.
  intros env st pre post t sig cfg c Hiso Hrep Horder Hpre Hsel Hfault. subst cfg c.
  assert (Hperm : Permutation (first_pass_order env (g_ezctest_config st)
                                                (g_ezctest_registry st))
                              (erase_failed (g_ezctest_registry st))).
  { unfold first_pass_order. cbv zeta. destruct (shuffle (g_ezctest_config st));
      [apply shuffle_loop_permutation | reflexivity]. }
  assert (Hc : count_enabled (g_ezctest_config st) (g_ezctest_registry st) <> 0%Z).
  { rewrite <- count_enabled_erase, <- (count_enabled_permutation _ _ _ Hperm), Horder.
    apply (count_enabled_has_selected _ _ t); [|exact Hsel].
    apply in_or_app. right. now left. }
  unfold ezctest_run_all_tests_internal. cbv zeta.
  destruct (Z.eqb_spec (count_enabled (g_ezctest_config st) (g_ezctest_registry st)) 0)
    as [Hz|_]; [contradiction|].
  rewrite Hiso. set (st0 := emit _ st).
  destruct (Z.to_nat (repeat (g_ezctest_config st))) as [|n] eqn:En; [lia|].
  destruct (repeat_loop_first_pass env false n st0)
    as (st_c & Heq & (Hcfg & Hfx & Hw) & Hreg & Hout).
  rewrite Heq. clear Heq.
  change (g_ezctest_config st0) with (g_ezctest_config st) in *.
  change (g_ezctest_registry st0) with (g_ezctest_registry st) in *.
  change (g_ezctest_fixtures st0) with (g_ezctest_fixtures st) in *.
  change (g_ezctest_worker_index st0) with (g_ezctest_worker_index st) in *.
  rewrite Horder in Hreg.
  destruct (test_loop_dies env (length (g_ezctest_registry st_c)) 0 0 st_c pre post t sig)
    as (st' & Hdie & Hout');
    [cbn [skipn]; now rewrite firstn_all | now rewrite Hcfg | now rewrite Hcfg
     | exact Hfault |].
  rewrite Hdie. cbn [bind].
  exists st'. eexists. split; [reflexivity|]. split; [|split; [reflexivity|]].
  - rewrite Hout', Hout. subst st0. cbn [emit set_output output].
    rewrite (pass_events_same_setup st st_c) by (repeat split; assumption).
    unfold ezctest_find_fixture. rewrite Hw, Hfx, <- !app_assoc. reflexivity.
  - rewrite !filter_app, pass_events_no_summary, fault_events_no_summary.
    unfold iteration_line.
    destruct (1 <? repeat (g_ezctest_config st))%Z; reflexivity.
Qed.

Lemma in_process_fault_ends_the_run_witness :
  exists st',
    ezctest_run_all_tests_internal quiet_env faulting_run_state = Died 11 st'
    /\ output st'
       = [LineRunning 2 1 false;
          LineRun (cs "Net") (cs "Ping"); Ran 1; LineOk (cs "Net") (cs "Ping");
          LineRun (cs "A") (cs "crash"); Ran 1].
Proof.
  destruct (in_process_fault_ends_the_run
              quiet_env faulting_run_state [passing_test] [] crashing_test 11)
    as (st' & events & Hrun & Hout & Hev & _).
  - reflexivity.
  - vm_compute. discriminate.
  - reflexivity.
  - repeat constructor.
  - reflexivity.
  - reflexivity.
  - exists st'. split; [exact Hrun|]. rewrite Hout, Hev. reflexivity.
Defined.

(** Under isolation the tests run in children only.  When every [fork]
    succeeds, a run that comes back has left the assertion counters of
    the process as they were, whatever the tests did, and has started
    one child for every selected test of every pass. *)
Theorem isolated_run_leaves_parent_assertion_counters :
  forall (env : environment) (st st' : state) (code : Z),
    let cfg := g_ezctest_config st in
    let c := count_enabled cfg (g_ezctest_registry st) in
    forks_succeed env ->
    use_process_isolation env cfg c = true ->
    ezctest_run_all_tests_internal env st = Alive code st' ->
    total_assertions (g_ezctest_result st') = total_assertions (g_ezctest_result st)
    /\ failed_assertions (g_ezctest_result st') = failed_assertions (g_ezctest_result st)
    /\ Z.of_nat (forks st') = (Z.of_nat (forks st) + Z.max 0 (repeat cfg) * c)%Z.
Proof.
  intros env st st' code cfg c Hforks Hiso H. subst cfg c.
  unfold ezctest_run_all_tests_internal in H. cbv zeta in H.
  destruct (Z.eqb_spec (count_enabled (g_ezctest_config st) (g_ezctest_registry st)) 0)
    as [Hz|Hnz].
  - inversion H; subst. rewrite Hz. cbn. repeat split; lia.
  - rewrite Hiso in H. set (st0 := emit _ st) in H.
    destruct (repeat_loop env true (Z.to_nat (repeat (g_ezctest_config st))) 0 st0)
      as [[] st1|] eqn:Hloop; [|discriminate].
    cbn [bind] in H. inversion H; subst code st'; clear H.
    apply (repeat_loop_contained env _ Hforks) in Hloop. cbv zeta in Hloop.
    destruct Hloop as (Ha & Hb & Hc). cbn. rewrite Ha, Hb. cbn in Hc.
    repeat split; try reflexivity. lia.
Qed.

Lemma isolated_run_leaves_parent_assertion_counters_witness :
  total_assertions (g_ezctest_result crashing_run_end) = 0%Z
  /\ failed_assertions (g_ezctest_result crashing_run_end) = 0%Z
  /\ Z.of_nat (forks crashing_run_end) = 2%Z.
Proof.
  apply (isolated_run_leaves_parent_assertion_counters
           isolated_run_env crashing_run_state crashing_run_end 1).
  - intro n. reflexivity.
  - reflexivity.
  - vm_compute. reflexivity.
Defined.

(** ** One test under isolation *)

(** A selected test that is killed by a signal in its child process:
    the parent goes on, writes the abnormal exit code 128 plus the
    signal, the signal as the reason, and the failure line of the test,
    counts the test as failed and marks it in the registry; what the
    child wrote before the signal stands in between. *)
Theorem isolated_crash_is_counted_and_reported :
  forall (env : environment) (i : nat) (t : ezctest_info_t) (k : Z) (st : state)
         (sig : nat),
    fork_fails env (forks st) = false ->
    fault_of (executed (test_func t)) = Some sig ->
    sig < 128 ->
    let r := g_ezctest_result st in
    exists st',
      run_isolated env i t k st = Alive tt st'
      /\ output st'
         = output st
           ++ [LineRun (suite_name t) (test_name t)]
           ++ fault_events k (ezctest_find_fixture (suite_name t) st) t
           ++ [LineAbnormal (128 + Z.of_nat sig);
               LineReason (ReasonSignal (Z.of_nat sig));
               LineFailedByParent (suite_name t) (test_name t)]
      /\ g_ezctest_registry st' = update_nth i (with_failed true) (g_ezctest_registry st)
      /\ failed_tests (g_ezctest_result st') = (failed_tests r + 1)%Z
      /\ passed_tests (g_ezctest_result st') = passed_tests r
      /\ total_assertions (g_ezctest_result st') = total_assertions r
      /\ failed_assertions (g_ezctest_result st') = failed_assertions r.
Proof.
  intros env i t k st sig Hfork Hfault Hsig r.
  destruct (run_isolated_contained env i t k st Hfork)
    as (st' & Hrun & Hta & Hfa & _ & _ & H).
  rewrite Hfault in H. destruct H as (Hout & Hreg & Hp & Hf).
  exists st'. split; [exact Hrun|]. split.
  - assert (Hreason : abnormal_reason (128 + Z.of_nat sig) = ReasonSignal (Z.of_nat sig)).
    { unfold abnormal_reason.
      destruct (Z.leb_spec 128 (128 + Z.of_nat sig)); [|lia].
      destruct (Z.ltb_spec (128 + Z.of_nat sig) 256); [|lia].
      cbn [andb]. f_equal. lia. }
    rewrite Hout, Hreason. reflexivity.
  - repeat split; assumption.
Qed.

Lemma isolated_crash_is_counted_and_reported_witness :
  exists st',
    run_isolated isolated_run_env 0 crashing_test 0 crashing_run_state = Alive tt st'
    /\ output st'
       = [LineRun (cs "A") (cs "crash"); Ran 1;
          LineAbnormal 139; LineReason (ReasonSignal 11);
          LineFailedByParent (cs "A") (cs "crash")]
    /\ failed_tests (g_ezctest_result st') = 1%Z.
Proof.
  destruct (isolated_crash_is_counted_and_reported
              isolated_run_env 0 crashing_test 0 crashing_run_state 11
              eq_refl eq_refl ltac:(lia))
    as (st' & Hrun & Hout & _ & Hf & _).
  exists st'. split; [exact Hrun|]. split; [exact Hout | exact Hf].
Defined.

(** A test whose body does not fault gets the same verdict isolated as
    in the process: when [fork] succeeds, the parent of the child writes
    what the process itself would have written, counts the test the
    same way and marks the same registry entry; only the assertion
    counters of the parent stay behind. *)
Theorem isolation_keeps_verdict_and_output :
  forall (env : environment) (i : nat) (t : ezctest_info_t) (k : Z) (st : state),
    fork_fails env (forks st) = false ->
    fault_of (executed (test_func t)) = None ->
    (g_ezctest_worker_index st < 0)%Z ->
    (0 <= k)%Z ->
    exists st_iso st_in,
      run_isolated env i t k st = Alive tt st_iso
      /\ run_in_process i t st = Alive tt st_in
      /\ output st_iso = output st_in
      /\ g_ezctest_registry st_iso = g_ezctest_registry st_in
      /\ passed_tests (g_ezctest_result st_iso) = passed_tests (g_ezctest_result st_in)
      /\ failed_tests (g_ezctest_result st_iso) = failed_tests (g_ezctest_result st_in)
      /\ total_assertions (g_ezctest_result st_iso)
         = total_assertions (g_ezctest_result st)
      /\ total_assertions (g_ezctest_result st_in)
         = (total_assertions (g_ezctest_result st) + checks (executed (test_func t)))%Z.
Proof.
  intros env i t k st Hfork Hfault Hw Hk.
  destruct (run_isolated_contained env i t k st Hfork)
    as (st_iso & Hiso & Hta & _ & _ & _ & H).
  rewrite Hfault in H. destruct H as (Hout & Hreg & Hp & Hf).
  destruct (run_in_process_returns i t st Hfault) as (st_in & Hin).
  exists st_iso, st_in. split; [exact Hiso|]. split; [exact Hin|].
  unfold run_in_process in Hin.
  pose proof (run_test_effect t st) as Heff. cbv zeta in Heff. rewrite Hfault in Heff.
  destruct Heff as [Hrun Heff]. rewrite Hrun in Hin. cbn [bind] in Hin.
  set (st1 := final_state _) in *. clearbody st1.
  destruct Heff as ((G1 & _) & _ & _ & Hout1 & Hcf & Hca & _ & Hp1 & Hf1 & Hc1 & _).
  assert (Hv : current_test_failed st1 = verdict_failed (executed (test_func t))).
  { unfold current_test_failed, verdict_failed. now rewrite Hcf, Hca. }
  rewrite Hv in Hin.
  assert (Hw' : (0 <=? g_ezctest_worker_index st)%Z = false) by now apply Z.leb_gt.
  assert (Hline : test_events (g_ezctest_worker_index st)
                              (ezctest_find_fixture (suite_name t) st) t
                  = LineRun (suite_name t) (test_name t)
                    :: test_events k (ezctest_find_fixture (suite_name t) st) t).
  { unfold test_events, run_line. rewrite Hw'.
    destruct (Z.leb_spec 0 k); [reflexivity | lia]. }
  rewrite Hline in Hout1.
  destruct (verdict_failed (executed (test_func t))); inversion Hin; subst st_in;
    cbn [set_failed_at set_registry output g_ezctest_registry g_ezctest_result];
    rewrite Hout, Hout1, Hreg, Hp, Hf, Hp1, Hf1, Hta, Hc1, ?G1;
    repeat split; reflexivity.
Qed.

Lemma isolation_keeps_verdict_and_output_witness :
  exists st_iso st_in,
    run_isolated isolated_run_env 0 expecting_test 0 initial_state = Alive tt st_iso
    /\ run_in_process 0 expecting_test initial_state = Alive tt st_in
    /\ output st_iso = output st_in
    /\ failed_tests (g_ezctest_result st_iso) = failed_tests (g_ezctest_result st_in).
Proof.
  destruct (isolation_keeps_verdict_and_output
              isolated_run_env 0 expecting_test 0 initial_state
              eq_refl eq_refl ltac:(vm_compute; reflexivity) ltac:(lia))
    as (st_iso & st_in & H1 & H2 & H3 & _ & _ & H4 & _).
  exists st_iso, st_in. repeat split; assumption.
Defined.

(** ** One test in the process *)

Lemma fatal_abort_free (body : list stmt) :
  Forall (fun s => aborts s = false) body -> fatal body = false.
Proof.
  induction 1 as [|s body Hs _ IH]; [reflexivity|].
  rewrite fatal_cons, IH. destruct s as [c|[|]|f d|tag|sig]; try reflexivity; discriminate.
Qed.

(** Failed non-fatal assertions do not stop a body: when no fatal
    assertion fails and no statement faults, every statement of the body
    is executed, every assertion of the body is counted, the cleanup
    callbacks and the teardown run, and the test fails exactly when some
    assertion of the body failed. *)
Theorem expect_failures_let_the_body_finish :
  forall (t : ezctest_info_t) (st : state),
    Forall (fun s => aborts s = false) (test_func t) ->
    let body := test_func t in
    let fixture := ezctest_find_fixture (suite_name t) st in
    let r := g_ezctest_result st in
    let failed_now := (0 <? failures body)%Z in
    exists st',
      ezctest_run_test t st = Alive tt st'
      /\ output st'
         = output st
           ++ run_line (g_ezctest_worker_index st) t
           ++ setup_call fixture
           ++ body_trace 0 body
           ++ cleanup_calls (rev (pushed 0 body))
           ++ teardown_call fixture
           ++ [if failed_now then LineFailed (suite_name t) (test_name t)
               else LineOk (suite_name t) (test_name t)]
      /\ total_assertions (g_ezctest_result st') = (total_assertions r + checks body)%Z
      /\ failed_assertions (g_ezctest_result st') = (failed_assertions r + failures body)%Z
      /\ passed_tests (g_ezctest_result st')
         = (passed_tests r + (if failed_now then 0 else 1))%Z
      /\ failed_tests (g_ezctest_result st')
         = (failed_tests r + (if failed_now then 1 else 0))%Z
      /\ current_test_failed st' = failed_now.
Proof.
  intros t st Hfree body fixture r failed_now.
  pose proof (run_test_effect t st) as H. cbv zeta in H.
  assert (Hex : executed (test_func t) = test_func t) by now apply executed_abort_free.
  assert (Hfault : fault_of (test_func t) = None).
  { rewrite <- (app_nil_r (test_func t)). now rewrite fault_of_abort_free. }
  assert (Hfatal : fatal (test_func t) = false) by now apply fatal_abort_free.
  rewrite Hex, Hfault in H. destruct H as [Hrun Heff].
  set (st' := final_state _) in *. clearbody st'. exists st'.
  split; [exact Hrun|].
  destruct Heff as (_ & _ & _ & Hout & Hcf & Hca & _ & Hp & Hf & Hc & Hn).
  unfold test_events in Hout. rewrite Hex in *.
  unfold verdict_failed in *. rewrite Hfatal in *. cbn [orb app] in *.
  unfold current_test_failed. rewrite Hcf, Hca.
  repeat split; assumption.
Qed.

Lemma expect_failures_let_the_body_finish_witness :
  exists st',
    ezctest_run_test expecting_test initial_state = Alive tt st'
    /\ output st'
       = [LineRun (cs "E") (cs "both"); LineFailure false; Ran 1; LineFailure false;
          Ran 2; CallCleanup 1 10; LineFailed (cs "E") (cs "both")]
    /\ total_assertions (g_ezctest_result st') = 3%Z
    /\ failed_assertions (g_ezctest_result st') = 2%Z.
Proof.
  destruct (expect_failures_let_the_body_finish expecting_test initial_state)
    as (st' & Hrun & Hout & Hc & Hn & _).
  - repeat constructor.
  - exists st'. split; [exact Hrun|]. split; [exact Hout|]. split; [exact Hc | exact Hn].
Defined.

Lemma body_trace_no_setup (ex : list stmt) :
  forall n, List.filter is_setup_call (body_trace n ex) = [].
Proof.
  induction ex as [|s ex IH]; intro n; [reflexivity|].
  destruct s as [[|]|[|]|f d|tag|sig]; cbn [body_trace app List.filter is_setup_call];
    try apply IH.
  destruct (EZCTEST_MAX_DEFER_CALLBACKS <=? n)%nat;
    cbn [List.filter is_setup_call]; apply IH.
Qed.

(** A test whose body reaches a faulting statement takes the process
    with it at once: of the callbacks only the setup of the suite has
    been called; no cleanup callback and no teardown is called, neither
    by the dying process nor, under isolation, by its parent. *)
Theorem fault_skips_cleanup_and_teardown :
  forall (t : ezctest_info_t) (st : state) (sig : nat),
    fault_of (executed (test_func t)) = Some sig ->
    exists st' events,
      ezctest_run_test t st = Died sig st'
      /\ output st' = output st ++ events
      /\ List.filter is_setup_call events
         = setup_call (ezctest_find_fixture (suite_name t) st)
      /\ List.filter is_cleanup_call events = []
      /\ List.filter is_teardown_call events = [].
Proof.
  intros t st sig Hfault.
  pose proof (run_test_effect t st) as H. cbv zeta in H. rewrite Hfault in H.
  destruct H as [Hrun Hout]. eexists _, _. split; [exact Hrun|]. split; [exact Hout|].
  unfold fault_events, run_line.
  rewrite !filter_app, body_trace_no_setup.
  rewrite (proj1 (body_trace_no_callback _ _)), (proj2 (body_trace_no_callback _ _)).
  unfold setup_call.
  destruct (0 <=? g_ezctest_worker_index st)%Z,
           (ezctest_find_fixture (suite_name t) st) as [[name [f|] td]|];
    repeat split; reflexivity.
Qed.

Lemma fault_skips_cleanup_and_teardown_witness :
  exists st' events,
    ezctest_run_test crashing_test state_with_teardown = Died 11 st'
    /\ output st' = output state_with_teardown ++ events
    /\ List.filter is_cleanup_call events = []
    /\ List.filter is_teardown_call events = [].
Proof.
  destruct (fault_skips_cleanup_and_teardown crashing_test state_with_teardown 11 eq_refl)
    as (st' & events & Hrun & Hout & _ & Hc & Ht).
  exists st', events. repeat split; assumption.
Defined.

(** ** The listing *)




(** ** Whole runs: which tests are counted as failed *)

Section Verdicts.

Variable env : environment.

Lemma firstn_S_nth {A : Type} (l : list A) :
  forall i t, nth_error l i = Some t -> firstn (S i) l = firstn i l ++ [t].
Proof.
  induction l as [|x l IH]; intros i t H; [destruct i; discriminate|].
  destruct i as [|i]; simpl in *; [now inversion H|]. f_equal. now apply IH.
Qed.

Lemma firstn_S_update_nth {A : Type} (f : A -> A) (l : list A) :
  forall i t, nth_error l i = Some t ->
              firstn (S i) (update_nth i f l) = firstn i l ++ [f t].
Proof.
  induction l as [|x l IH]; intros i t H; [destruct i; discriminate|].
  destruct i as [|i]; simpl in *; [now inversion H|]. f_equal. now apply IH.
Qed.

Lemma count_of_cons (p : ezctest_info_t -> bool) (t : ezctest_info_t)
    (l : list ezctest_info_t) :
  count_of p (t :: l) = ((if p t then 1 else 0) + count_of p l)%Z.
Proof. unfold count_of. cbn [List.filter]. destruct (p t); cbn [length]; lia. Qed.

Lemma count_of_erase (cfg : ezctest_config_t) (l : list ezctest_info_t) :
  count_of (passing cfg) (erase_failed l) = count_of (passing cfg) l
  /\ count_of (failing cfg) (erase_failed l) = count_of (failing cfg) l.
Proof.
  induction l as [|t l [IH1 IH2]]; [split; reflexivity|].
  change (erase_failed (t :: l)) with (with_failed false t :: erase_failed l).
  rewrite !count_of_cons, IH1, IH2. split; reflexivity.
Qed.

Lemma count_of_permutation (p : ezctest_info_t -> bool) (l l' : list ezctest_info_t) :
  Permutation l l' -> count_of p l = count_of p l'.
Proof.
  intro H. unfold count_of. f_equal. apply Permutation_length.
  induction H; simpl.
  - reflexivity.
  - destruct (p x); auto.
  - destruct (p x), (p y); auto using perm_swap.
  - etransitivity; eassumption.
Qed.

Lemma count_of_unselected (cfg : ezctest_config_t) (l : list ezctest_info_t) :
  count_enabled cfg l = 0%Z ->
  count_of (passing cfg) l = 0%Z /\ count_of (failing cfg) l = 0%Z.
Proof.
  induction l as [|t l IH]; [split; reflexivity|].
  cbn [count_enabled]. rewrite !count_of_cons.
  assert (Hp : passing cfg t = selected cfg t && negb (fails t)) by reflexivity.
  assert (Hf : failing cfg t = selected cfg t && fails t) by reflexivity.
  rewrite Hp, Hf.
  change (enabled t && ezctest_matches_filter (suite_name t) (test_name t) (filter cfg))
    with (selected cfg t).
  pose proof (count_enabled_nonneg cfg l).
  destruct (selected cfg t); intro Hc; [lia|]. cbn [andb].
  destruct (IH Hc) as [-> ->]. split; reflexivity.
Qed.

Lemma passing_eq (cfg : ezctest_config_t) (t : ezctest_info_t) :
  passing cfg t = selected cfg t && negb (fails t).
Proof. reflexivity. Qed.

Lemma failing_eq (cfg : ezctest_config_t) (t : ezctest_info_t) :
  failing cfg t = selected cfg t && fails t.
Proof. reflexivity. Qed.

Lemma mark_eq (cfg : ezctest_config_t) (t : ezctest_info_t) :
  mark cfg t = if selected cfg t && fails t then with_failed true t else t.
Proof. reflexivity. Qed.

Lemma mark_erase (cfg : ezctest_config_t) (l : list ezctest_info_t) :
  map (mark cfg) (erase_failed l) = map (flagged cfg) l.
Proof.
  unfold erase_failed. rewrite map_map. apply map_ext. intro t. unfold mark, flagged.
  change (failing cfg (with_failed false t)) with (failing cfg t).
  destruct (failing cfg t); reflexivity.
Qed.

Lemma update_nth_map_const {A B : Type} (f : A -> B) (b : A) (l : list A) :
  forall i, update_nth i (fun _ => f b) (map f l) = map f (update_nth i (fun _ => b) l).
Proof.
  induction l as [|x l IH]; intro i; [now destruct i|].
  destruct i; simpl; [reflexivity | now rewrite IH].
Qed.

Lemma swap_at_map {A B : Type} (f : A -> B) (i j : nat) (l : list A) :
  swap_at i j (map f l) = map f (swap_at i j l).
Proof.
  unfold swap_at. rewrite !nth_error_map.
  destruct (nth_error l i) as [a|]; [|reflexivity].
  destruct (nth_error l j) as [b|]; [|reflexivity].
  cbn [option_map]. now rewrite !update_nth_map_const.
Qed.

Lemma shuffle_loop_map (f : ezctest_info_t -> ezctest_info_t) (rnd : nat -> nat) (i : nat) :
  forall l, shuffle_loop rnd i (map f l) = map f (shuffle_loop rnd i l).
Proof.
  induction i as [|i IH]; intro l; [reflexivity|].
  cbn [shuffle_loop]. now rewrite swap_at_map, IH.
Qed.

(** One selected test of the main loop: how it is counted and flagged. *)
Lemma run_selected_verdict (isolation : bool) (i : nat) (t : ezctest_info_t)
    (k k' : Z) (st st' : state) :
  (isolation = true -> forks_succeed env) ->
  run_selected env isolation i t k st = Alive k' st' ->
  let r := g_ezctest_result st in
  g_ezctest_registry st'
  = (if fails t then update_nth i (with_failed true) (g_ezctest_registry st)
     else g_ezctest_registry st)
  /\ passed_tests (g_ezctest_result st') = (passed_tests r + (if fails t then 0 else 1))%Z
  /\ failed_tests (g_ezctest_result st') = (failed_tests r + (if fails t then 1 else 0))%Z.
Proof.
  intros Hforks H. unfold run_selected in H. unfold fails. destruct isolation.
  - destruct (run_isolated_contained env i t k (incr_total_tests st) (Hforks eq_refl _))
      as (st1 & Hrun & _ & _ & _ & _ & Hv).
    rewrite Hrun in H. cbn [bind] in H. inversion H; subst k' st1; clear H.
    destruct (fault_of (executed (test_func t))).
    + destruct Hv as (_ & Hreg & Hp & Hf). cbn in Hreg, Hp, Hf. cbv zeta.
      rewrite Hreg, Hp, Hf. repeat split; lia.
    + destruct Hv as (_ & Hreg & Hp & Hf). cbn in Hreg, Hp, Hf. cbv zeta.
      rewrite Hreg, Hp, Hf. repeat split; reflexivity.
  - unfold run_in_process in H.
    pose proof (run_test_effect t (incr_total_tests st)) as Heff. cbv zeta in Heff.
    destruct (fault_of (executed (test_func t))).
    + destruct Heff as [Hrun _]. rewrite Hrun in H. discriminate.
    + destruct Heff as [Hrun Heff]. rewrite Hrun in H. cbn [bind] in H.
      set (st1 := final_state _) in *. clearbody st1.
      destruct Heff as ((G1 & _) & _ & _ & _ & Hcf & Hca & _ & Hp & Hf & _).
      assert (Hv : current_test_failed st1 = verdict_failed (executed (test_func t))).
      { unfold current_test_failed, verdict_failed. now rewrite Hcf, Hca. }
      rewrite Hv in H. cbn in G1, Hp, Hf. cbv zeta.
      destruct (verdict_failed (executed (test_func t))); inversion H; subst st';
        cbn [set_failed_at set_registry g_ezctest_registry g_ezctest_result];
        rewrite ?G1, Hp, Hf; repeat split; reflexivity.
Qed.

(** The inner loop: the tests it visits are counted by their verdicts
    and flagged when they fail. *)
Lemma test_loop_verdicts (isolation : bool) (n : nat) :
  (isolation = true -> forks_succeed env) ->
  forall (i : nat) (k k' : Z) (st st' : state),
    test_loop env isolation n i k st = Alive k' st' ->
    let cfg := g_ezctest_config st in
    let l := g_ezctest_registry st in
    let visited := firstn n (skipn i l) in
    g_ezctest_registry st' = firstn i l ++ map (mark cfg) visited ++ skipn n (skipn i l)
    /\ passed_tests (g_ezctest_result st')
       = (passed_tests (g_ezctest_result st) + count_of (passing cfg) visited)%Z
    /\ failed_tests (g_ezctest_result st')
       = (failed_tests (g_ezctest_result st) + count_of (failing cfg) visited)%Z.
Proof.
  intro Hforks. induction n as [|n IH]; intros i k k' st st' H.
  - simpl in H. inversion H; subst. cbn [firstn skipn map app count_of List.filter length].
    rewrite firstn_skipn. repeat split; cbn; lia.
  - cbn [test_loop] in H.
    destruct (nth_error (g_ezctest_registry st) i) as [t|] eqn:Enth.
    + cbv zeta. rewrite (nth_error_skipn_cons _ _ _ Enth).
      cbn [firstn map]. rewrite skipn_cons, !count_of_cons.
      assert (Hsel : selected (g_ezctest_config st) t
                     = enabled t && ezctest_matches_filter (suite_name t) (test_name t)
                                      (filter (g_ezctest_config st))) by reflexivity.
      assert (Hun : selected (g_ezctest_config st) t = false ->
                    test_loop env isolation n (S i) k st = Alive k' st' ->
                    g_ezctest_registry st'
                    = firstn i (g_ezctest_registry st)
                      ++ (mark (g_ezctest_config st) t
                          :: map (mark (g_ezctest_config st))
                                 (firstn n (skipn (S i) (g_ezctest_registry st))))
                      ++ skipn n (skipn (S i) (g_ezctest_registry st))
                    /\ passed_tests (g_ezctest_result st')
                       = (passed_tests (g_ezctest_result st)
                          + ((if passing (g_ezctest_config st) t then 1 else 0)
                             + count_of (passing (g_ezctest_config st))
                                 (firstn n (skipn (S i) (g_ezctest_registry st)))))%Z
                    /\ failed_tests (g_ezctest_result st')
                       = (failed_tests (g_ezctest_result st)
                          + ((if failing (g_ezctest_config st) t then 1 else 0)
                             + count_of (failing (g_ezctest_config st))
                                 (firstn n (skipn (S i) (g_ezctest_registry st)))))%Z).
      { intros Hno Hloop. specialize (IH (S i) k k' st st' Hloop). cbv zeta in IH.
        destruct IH as (Hreg & Hp & Hf).
        rewrite (mark_eq _ t), (passing_eq _ t), (failing_eq _ t), Hno.
        cbn [andb]. rewrite Hreg, Hp, Hf, (firstn_S_nth _ _ _ Enth), <- app_assoc.
        repeat split; reflexivity. }
      destruct (enabled t) eqn:Een; cbn [negb andb] in *; [|now apply Hun].
      destruct (ezctest_matches_filter (suite_name t) (test_name t)
                  (filter (g_ezctest_config st))) eqn:Em; cbn [negb] in *;
        [|now apply Hun].
      clear Hun.
      destruct (run_selected env isolation i t k st) as [k1 st1|] eqn:Esel;
        [|discriminate].
      cbn [bind] in H.
      destruct (run_selected_effect env isolation i t k k1 st st1 Esel)
        as ((Hcfg & _) & _).
      destruct (run_selected_verdict isolation i t k k1 st st1 Hforks Esel)
        as (Hreg1 & Hp1 & Hf1).
      specialize (IH (S i) k1 k' st1 st' H). cbv zeta in IH.
      rewrite Hcfg in IH. destruct IH as (Hreg & Hp & Hf).
      rewrite (mark_eq _ t), (passing_eq _ t), (failing_eq _ t), Hsel.
      cbn [andb]. rewrite Hreg, Hp, Hf, Hp1, Hf1, Hreg1.
      destruct (fails t); cbn [negb].
      * rewrite skipn_update_nth, (firstn_S_update_nth _ _ _ _ Enth), <- app_assoc.
        repeat split; try reflexivity; lia.
      * rewrite (firstn_S_nth _ _ _ Enth), <- app_assoc.
        repeat split; try reflexivity; lia.
    + inversion H; subst. cbv zeta.
      assert (Hnil : skipn i (g_ezctest_registry st') = []).
      { apply skipn_all2. now apply nth_error_None. }
      rewrite Hnil, firstn_nil, skipn_nil. cbn [map app].
      rewrite app_nil_r, firstn_all2 by now apply nth_error_None.
      repeat split; cbn; lia.
Qed.

(** The outer loop when it makes one pass: the tests are counted by
    the verdicts of their runs, and the flags are those of the tests
    that failed. *)
Lemma single_pass_verdicts (isolation : bool) :
  (isolation = true -> forks_succeed env) ->
  forall (rep : Z) (st st' : state),
    repeat_loop env isolation 1 rep st = Alive tt st' ->
    let cfg := g_ezctest_config st in
    let l := g_ezctest_registry st in
    passed_tests (g_ezctest_result st')
    = (passed_tests (g_ezctest_result st) + count_of (passing cfg) l)%Z
    /\ failed_tests (g_ezctest_result st')
       = (failed_tests (g_ezctest_result st) + count_of (failing cfg) l)%Z
    /\ exists order,
         Permutation order l
         /\ (shuffle cfg = false -> order = l)
         /\ g_ezctest_registry st' = map (flagged cfg) order.
Proof.
  intros Hforks rep st st' H.
  cbn [repeat_loop] in H. cbv zeta in H.
  set (st_a := set_registry (map (with_failed false) (g_ezctest_registry st)) st) in H.
  set (st_b := if (1 <? repeat (g_ezctest_config st))%Z then _ else st_a) in H.
  set (st_c := if shuffle (g_ezctest_config st) && (rep =? 0)%Z then _ else st_b) in H.
  assert (Hb : g_ezctest_config st_b = g_ezctest_config st
               /\ g_ezctest_registry st_b = erase_failed (g_ezctest_registry st)
               /\ g_ezctest_result st_b = g_ezctest_result st).
  { subst st_b st_a. destruct (1 <? repeat (g_ezctest_config st))%Z;
      repeat split; reflexivity. }
  destruct Hb as (Hcb & Hrb & Hresb).
  assert (Hc : g_ezctest_config st_c = g_ezctest_config st
               /\ g_ezctest_result st_c = g_ezctest_result st
               /\ exists order,
                    Permutation order (g_ezctest_registry st)
                    /\ (shuffle (g_ezctest_config st) = false
                        -> order = g_ezctest_registry st)
                    /\ g_ezctest_registry st_c = erase_failed order).
  { subst st_c. destruct (shuffle (g_ezctest_config st) && (rep =? 0)%Z) eqn:Esh.
    - split; [exact Hcb|]. split; [exact Hresb|].
      cbn [set_registry g_ezctest_registry]. rewrite Hrb.
      exists (shuffle_loop (rand env)
                (length (erase_failed (g_ezctest_registry st)) - 1)
                (g_ezctest_registry st)).
      split; [apply shuffle_loop_permutation|]. split.
      + intro Hno. rewrite Hno in Esh. discriminate.
      + unfold erase_failed. apply shuffle_loop_map.
    - split; [exact Hcb|]. split; [exact Hresb|].
      exists (g_ezctest_registry st). split; [reflexivity|]. split; [reflexivity|].
      exact Hrb. }
  destruct Hc as (Hcc & Hresc & order & Hperm & Hord & Hrc).
  clearbody st_c. clear st_a st_b Hcb Hrb Hresb.
  destruct (test_loop env isolation (length (g_ezctest_registry st_c)) 0 0 st_c)
    as [k1 st1|] eqn:Eloop; [|discriminate].
  cbn [bind] in H.
  destruct (test_loop_effect env isolation _ _ _ _ _ _ Eloop) as ((Hc1 & _) & _).
  apply (test_loop_verdicts _ _ Hforks) in Eloop. cbv zeta in Eloop.
  cbn [skipn firstn app] in Eloop. rewrite firstn_all, skipn_all, app_nil_r in Eloop.
  destruct Eloop as (Hreg1 & Hp1 & Hf1).
  rewrite Hcc, Hrc in Hreg1, Hp1, Hf1. rewrite Hresc in Hp1, Hf1.
  destruct (count_of_erase (g_ezctest_config st) order) as [Hpe Hfe].
  rewrite Hpe, (count_of_permutation _ _ _ Hperm) in Hp1.
  rewrite Hfe, (count_of_permutation _ _ _ Hperm) in Hf1.
  rewrite mark_erase in Hreg1.
  cbn [repeat_loop] in H. inversion H; subst st'. cbv zeta.
  split; [exact Hp1|]. split; [exact Hf1|]. exists order.
  split; [exact Hperm|]. split; [exact Hord | exact Hreg1].
Qed.

End Verdicts.

(** A run of one pass that comes back has counted every selected test
    as failed when its run failed (a failed assertion, or, in a child, a
    fault) and as passed otherwise.  When some test is selected, the
    failure flags of the registry afterwards are those of the tests that
    were selected and failed; the registry is in its old order unless
    the run shuffles it.  Under isolation this holds when every [fork]
    succeeds. *)
Theorem run_counts_by_verdict :
  forall (env : environment) (st st' : state) (code : Z),
    let cfg := g_ezctest_config st in
    let l := g_ezctest_registry st in
    let c := count_enabled cfg l in
    repeat cfg = 1%Z ->
    (use_process_isolation env cfg c = true -> forks_succeed env) ->
    ezctest_run_all_tests_internal env st = Alive code st' ->
    passed_tests (g_ezctest_result st')
    = (passed_tests (g_ezctest_result st) + count_of (passing cfg) l)%Z
    /\ failed_tests (g_ezctest_result st')
       = (failed_tests (g_ezctest_result st) + count_of (failing cfg) l)%Z
    /\ (c <> 0%Z ->
        exists order,
          Permutation order l
          /\ (shuffle cfg = false -> order = l)
          /\ g_ezctest_registry st' = map (flagged cfg) order).
Proof.
  intros env st st' code cfg l c Hone Hforks H. subst cfg l c.
  apply run_internal_effect in H. cbv zeta in H.
  destruct H as (_ & _ & _ & Hzero & Hrun).
  destruct (Z.eq_dec (count_enabled (g_ezctest_config st) (g_ezctest_registry st)) 0)
    as [Hz|Hnz].
  - destruct (Hzero Hz) as [_ ->].
    destruct (count_of_unselected _ _ Hz) as [-> ->].
    cbn. split; [lia|]. split; [lia|]. congruence.
  - destruct (Hrun Hnz) as (_ & st1 & Hloop & Hr & Hreg & _). clear Hrun Hzero.
    unfold passes in Hloop. rewrite Hone in Hloop.
    change (Z.to_nat 1) with 1 in Hloop.
    apply single_pass_verdicts in Hloop; [|exact Hforks]. cbv zeta in Hloop.
    cbn [emit set_output g_ezctest_config g_ezctest_registry g_ezctest_result] in Hloop.
    destruct Hloop as (Hp & Hf & Hflags). rewrite Hr, Hreg.
    split; [exact Hp|]. split; [exact Hf|]. intros _. exact Hflags.
Qed.

Lemma run_counts_by_verdict_witness :
  passed_tests (g_ezctest_result single_run_end) = 2%Z
  /\ failed_tests (g_ezctest_result single_run_end) = 1%Z.
Proof.
  destruct (run_counts_by_verdict quiet_env single_run_state single_run_end 1)
    as (Hp & Hf & _).
  - reflexivity.
  - discriminate.
  - vm_compute. reflexivity.
  - split; [exact Hp | exact Hf].
Defined.

Lemma fixture_lookup_after_registration_witness :
  ezctest_find_fixture (cs "Db") (snd (ezctest_register_setup (cs "Db") 9 state_with_teardown))
  = Some (mk_fixture (cs "Db") (Some 9) (Some 5))
  /\ ezctest_find_fixture (cs "Net")
       (snd (ezctest_register_setup (cs "Db") 9 state_with_teardown))
     = ezctest_find_fixture (cs "Net") state_with_teardown.
Proof.
  destruct (fixture_lookup_after_registration (cs "Db") 9 state_with_teardown)
    as (H1 & _ & H3).
  split; [exact H1|]. apply (H3 (cs "Net")). discriminate.
Defined.

(** ** The command line and the isolation mode *)

Lemma parse_argument_no_exec (atoi : cstr -> Z) (arg : cstr) (st st' : state) :
  parse_argument atoi arg st = Parsed st' ->
  no_exec (g_ezctest_config st') = no_exec (g_ezctest_config st)
  \/ no_exec (g_ezctest_config st') = 1%Z.
Proof.
  unfold parse_argument.
  repeat match goal with
         | |- context [if strncmp_eq ?a ?b ?n || ?c then _ else _] =>
             destruct (strncmp_eq a b n || c)
         | |- context [if strcmp_eq ?a ?b || ?c then _ else _] =>
             destruct (strcmp_eq a b || c)
         | |- context [if strncmp_eq ?a ?b ?n then _ else _] =>
             destruct (strncmp_eq a b n)
         | |- context [match strchr ?a ?c with _ => _ end] => destruct (strchr a c)
         end;
    intro H; inversion H; subst; simpl; auto.
Qed.

(** No argument switches isolation on by force: the only value that
    parsing ever writes to [no_exec] is 1.  So after parsing, from the
    initial configuration or any other that does not force isolation,
    tests are isolated only by the automatic rule: more than one
    selected test and no debugger. *)
Theorem command_line_never_forces_isolation :
  forall (atoi : cstr -> Z) (args : list cstr) (st st' : state),
    no_exec (g_ezctest_config st) <> 0%Z ->
    ezctest_parse_arguments atoi args st = Parsed st' ->
    no_exec (g_ezctest_config st') <> 0%Z
    /\ forall (env : environment) (c : Z),
         use_process_isolation env (g_ezctest_config st') c = true ->
         no_exec (g_ezctest_config st') = (-1)%Z
         /\ (1 < c)%Z
         /\ ezctest_under_debugger env = false.
Proof.
  intros atoi args. induction args as [|arg rest IH]; intros st st' Hne H.
  - inversion H; subst. split; [exact Hne|]. intros env c.
    unfold use_process_isolation.
    destruct (Z.eqb_spec (no_exec (g_ezctest_config st')) (-1)) as [E|_].
    + destruct (Z.leb_spec c 1); cbn [orb]; [discriminate|].
      destruct (ezctest_under_debugger env); [discriminate|]. now repeat split.
    + destruct (Z.eqb_spec (no_exec (g_ezctest_config st')) 0); [contradiction|discriminate].
  - simpl in H. destruct (parse_argument atoi arg st) as [st1|st1|] eqn:E;
      try discriminate.
    apply (IH st1 st'); [|exact H].
    destruct (parse_argument_no_exec atoi arg st st1 E) as [-> | ->];
      [exact Hne | discriminate].
Qed.

Lemma command_line_never_forces_isolation_witness :
  exists st',
    ezctest_parse_arguments (fun _ => 0%Z) [cs "--no_exec"; cs "--shuffle"] initial_state
    = Parsed st'
    /\ no_exec (g_ezctest_config st') <> 0%Z.
Proof.
  eexists. split; [reflexivity|].
  apply (command_line_never_forces_isolation
           (fun _ => 0%Z) [cs "--no_exec"; cs "--shuffle"] initial_state _).
  - discriminate.
  - reflexivity.
Defined.

(** ** The summary *)





